(** * AtmoScan UI manager (P_UIManager.cpp): a shallow embedding

    The development follows [Proc_UIManager] of the AtmoScan firmware
    (version 3.3.1): the periodic [service] tick, the gesture interrupt
    handler [onGesture], the gesture decoding [getUserEvent] and the swipe
    navigation [handleSwipe].

    Conventions of the embedding.
    - [int] and [long] values are integers of [Z]; values read from
      [millis()] are 32-bit unsigned and every subtraction of two
      timestamps is written with its wrap-around ([usub]).
    - [float] values (cell voltage, state of charge) are idealised as
      rationals of [Q].
    - Calls to collaborators (screens, display, scheduler, sensor tasks,
      logger) are recorded, in program order, as a list of [Effect]s.
      [drawBar] is recorded as one call; its drawing code is not modelled.
    - Constants of [GlobalDefinitions.h] and the per-screen properties of
      the [Screen] subclasses are fields of [Config].
    - The debug-only logging ([DEBUG_SYSLOG], [DEBUG_SERIAL]) is left out.

    What the missing header [P_UIManager.h] leaves open is fixed as
    follows: [lastBatteryAveraging] is a [long] (it receives the [long]
    [thisTime]); [eventTime], [lastEventProcessing] and [lastUpdate] hold
    values of [millis()], so that their differences with [millis()] are
    unsigned; a new screen object starts with [lastUpdate] 0; [drawBar()]
    without argument is [drawBar(false)].

    Time only passes in [delay] and between two dispatches of the task.
    The gesture interrupt can fire between two dispatches and inside any
    [delay] of a tick. *)

From Stdlib Require Import ZArith QArith Bool List Lia Lqa.
From Stdlib Require String Ascii DecimalString.
Import ListNotations.

Local Open Scope Z_scope.

(** ** Compile-time configuration *)

(** Constants and macros of [GlobalDefinitions.h], the gesture codes of the
    PAJ7620U driver, and the virtual methods of [Screen] that only depend on
    the class of the screen (indexed by screen identifier). *)
Class Config : Type := {
  VOLT_LOW : Q;
  VOLT_HIGH : Q;
  AVERAGING_WINDOW : nat;
  BACKLIGHT_TIMEOUT : Z;
  LOWBATT_SCREEN : Z;
  SETUP_SCREEN : Z;
  GES_NONE : Z;
  GES_UP : Z;
  GES_DOWN : Z;
  GES_LEFT : Z;
  GES_RIGHT : Z;
  GES_FORWARD : Z;
  GES_BACKWARD : Z;
  GES_CLOCKWISE : Z;
  GES_CNTRCLOCKWISE : Z;
  GES_WAVE : Z;
  KILL_INSTALLED : bool;
  ENABLE_SENSORS : bool;
  getScreenCount : Z;
  isFullScreen : Z -> bool;
  getRefreshPeriod : Z -> Z;
  getRefreshWithScreenOff : Z -> bool
}.

(** The labels of the [switch] in [getUserEvent]; C++ only accepts the
    switch when they are pairwise different. *)
Definition caseLabels `{Config} : list Z :=
  [GES_UP; GES_DOWN; GES_LEFT; GES_RIGHT; GES_FORWARD; GES_BACKWARD;
   GES_CLOCKWISE; GES_CNTRCLOCKWISE; GES_WAVE].

(** ** Machine arithmetic *)

Definition wrap32 (x : Z) : Z := x mod 2 ^ 32.

(** [unsigned long] subtraction. *)
Definition usub (a b : Z) : Z := wrap32 (a - b).

(** Conversion of an [unsigned long] to [long]. *)
Definition to_long (x : Z) : Z :=
  if wrap32 x <? 2 ^ 31 then wrap32 x else wrap32 x - 2 ^ 32.

Definition b2z (b : bool) : Z := if b then 1 else 0.

Definition Qgtb (a b : Q) : bool := negb (Qle_bool a b).

(** ** The averaging filter *)

(** Modelled from the spec: the [Average<float>] class is a library that is
    not part of the sources.  It is a window of at most [capacity] samples
    in insertion order; a push on a full window evicts the oldest sample;
    [mean] is the mean of the window (0 for an empty window). *)
Record Average : Type := mkAverage {
  capacity : nat;
  samples : list Q
}.

Definition push (x : Q) (f : Average) : Average :=
  let s := samples f ++ [x] in
  mkAverage (capacity f) (skipn (length s - capacity f) s).

Definition Qsum (l : list Q) : Q := fold_right Qplus 0%Q l.

Definition mean (f : Average) : Q :=
  (Qsum (samples f) / inject_Z (Z.of_nat (length (samples f))))%Q.

(** ** Collaborators and recorded calls *)

(** The members of [procPtr] that [service] switches off. *)
Inductive Task : Type :=
| ComboTemperatureHumiditySensor
| ComboPressureHumiditySensor
| ParticleSensor
| CO2Sensor
| VOCSensor
| MultiGasSensor
| MQTTUpdate
| GeigerSensor
| GeoLocation.

(** The places of the code that call [delay]. *)
Inductive DelaySite : Type :=
| AtInitRetry (attempt : nat)
| AtRestart
| AtWake
| AtForward
| AtSetup
| AtRotate
| AtSwipe.

Inductive Severity : Type := LOG_CRIT | LOG_INFO.

Inductive Icon : Type := SetupIcon | RotateIcon | RightArrow | LeftArrow.

Inductive Effect : Type :=
| ErrLog
| Syslog (s : Severity)
| GestureBegin (attempt : nat)
| GetVCell
| ScreenDeactivate (i : nat)
| ScreenDelete (i : nat)
| ScreenCreate (id : Z) (i : nat)
| ScreenActivate (i : nat)
| ScreenUpdate (i : nat)
| ScreenOnUserEvent (i : nat) (eventID : Z)
| DrawBar (forceDraw : bool)
| SetPeriod (p : Z)
| Disable (t : Task)
| Delay (ms : Z)
| EspRestart
| ReadGesture
| CancelGesture
| LcdInit
| LcdSetRotation (r : Z)
| LcdFillScreen
| DrawIcon (ic : Icon)
| PinModeBacklight
| Backlight (high : bool)
| Force.

(** What the hardware and the current screen answer during one tick. *)
Record Env : Type := mkEnv {
  vcell : Q;                          (* batteryMonitor.getVCell() *)
  gesture : Z;                        (* gestureSensor.readGesture() *)
  cancelEvent : bool;                 (* currentScreen->onUserEvent(..) *)
  beginError : nat -> Z;              (* gestureSensor.begin(), per attempt *)
  irqDuring : DelaySite -> option Z   (* gesture interrupt inside a delay,
                                         at this offset from its start *)
}.

(** ** State *)

(** A [Screen] object: [inst] identifies the allocation, [kind] is the
    screen identifier its class was created for. *)
Record Screen : Type := mkScreen {
  inst : nat;
  kind : Z;
  lastUpdate : Z
}.

Record World : Type := mkWorld {
  now : Z;                      (* elapsed milliseconds *)
  initSuccess : bool;
  lastBatteryAveraging : Z;
  avgVolt : Average;
  avgSOC : Average;
  currentScreenID : Z;
  currentScreen : Screen;
  nextInst : nat;               (* next allocation *)
  eventFlag : bool;
  eventTime : Z;
  lastEventProcessing : Z;
  isDisplayOn : bool;
  displayInitialized : bool;
  currentScreenRotation : Z
}.

Definition set_now (v : Z) (w : World) : World :=
  mkWorld v (initSuccess w) (lastBatteryAveraging w) (avgVolt w) (avgSOC w)
    (currentScreenID w) (currentScreen w) (nextInst w) (eventFlag w)
    (eventTime w) (lastEventProcessing w) (isDisplayOn w)
    (displayInitialized w) (currentScreenRotation w).

Definition set_initSuccess (v : bool) (w : World) : World :=
  mkWorld (now w) v (lastBatteryAveraging w) (avgVolt w) (avgSOC w)
    (currentScreenID w) (currentScreen w) (nextInst w) (eventFlag w)
    (eventTime w) (lastEventProcessing w) (isDisplayOn w)
    (displayInitialized w) (currentScreenRotation w).

Definition set_lastBatteryAveraging (v : Z) (w : World) : World :=
  mkWorld (now w) (initSuccess w) v (avgVolt w) (avgSOC w)
    (currentScreenID w) (currentScreen w) (nextInst w) (eventFlag w)
    (eventTime w) (lastEventProcessing w) (isDisplayOn w)
    (displayInitialized w) (currentScreenRotation w).

Definition set_avgVolt (v : Average) (w : World) : World :=
  mkWorld (now w) (initSuccess w) (lastBatteryAveraging w) v (avgSOC w)
    (currentScreenID w) (currentScreen w) (nextInst w) (eventFlag w)
    (eventTime w) (lastEventProcessing w) (isDisplayOn w)
    (displayInitialized w) (currentScreenRotation w).

Definition set_avgSOC (v : Average) (w : World) : World :=
  mkWorld (now w) (initSuccess w) (lastBatteryAveraging w) (avgVolt w) v
    (currentScreenID w) (currentScreen w) (nextInst w) (eventFlag w)
    (eventTime w) (lastEventProcessing w) (isDisplayOn w)
    (displayInitialized w) (currentScreenRotation w).

Definition set_currentScreenID (v : Z) (w : World) : World :=
  mkWorld (now w) (initSuccess w) (lastBatteryAveraging w) (avgVolt w)
    (avgSOC w) v (currentScreen w) (nextInst w) (eventFlag w)
    (eventTime w) (lastEventProcessing w) (isDisplayOn w)
    (displayInitialized w) (currentScreenRotation w).

Definition set_currentScreen (v : Screen) (w : World) : World :=
  mkWorld (now w) (initSuccess w) (lastBatteryAveraging w) (avgVolt w)
    (avgSOC w) (currentScreenID w) v (nextInst w) (eventFlag w)
    (eventTime w) (lastEventProcessing w) (isDisplayOn w)
    (displayInitialized w) (currentScreenRotation w).

Definition set_nextInst (v : nat) (w : World) : World :=
  mkWorld (now w) (initSuccess w) (lastBatteryAveraging w) (avgVolt w)
    (avgSOC w) (currentScreenID w) (currentScreen w) v (eventFlag w)
    (eventTime w) (lastEventProcessing w) (isDisplayOn w)
    (displayInitialized w) (currentScreenRotation w).

Definition set_eventFlag (v : bool) (w : World) : World :=
  mkWorld (now w) (initSuccess w) (lastBatteryAveraging w) (avgVolt w)
    (avgSOC w) (currentScreenID w) (currentScreen w) (nextInst w) v
    (eventTime w) (lastEventProcessing w) (isDisplayOn w)
    (displayInitialized w) (currentScreenRotation w).

Definition set_eventTime (v : Z) (w : World) : World :=
  mkWorld (now w) (initSuccess w) (lastBatteryAveraging w) (avgVolt w)
    (avgSOC w) (currentScreenID w) (currentScreen w) (nextInst w)
    (eventFlag w) v (lastEventProcessing w) (isDisplayOn w)
    (displayInitialized w) (currentScreenRotation w).

Definition set_lastEventProcessing (v : Z) (w : World) : World :=
  mkWorld (now w) (initSuccess w) (lastBatteryAveraging w) (avgVolt w)
    (avgSOC w) (currentScreenID w) (currentScreen w) (nextInst w)
    (eventFlag w) (eventTime w) v (isDisplayOn w)
    (displayInitialized w) (currentScreenRotation w).

Definition set_isDisplayOn (v : bool) (w : World) : World :=
  mkWorld (now w) (initSuccess w) (lastBatteryAveraging w) (avgVolt w)
    (avgSOC w) (currentScreenID w) (currentScreen w) (nextInst w)
    (eventFlag w) (eventTime w) (lastEventProcessing w) v
    (displayInitialized w) (currentScreenRotation w).

Definition set_displayInitialized (v : bool) (w : World) : World :=
  mkWorld (now w) (initSuccess w) (lastBatteryAveraging w) (avgVolt w)
    (avgSOC w) (currentScreenID w) (currentScreen w) (nextInst w)
    (eventFlag w) (eventTime w) (lastEventProcessing w) (isDisplayOn w)
    v (currentScreenRotation w).

Definition set_currentScreenRotation (v : Z) (w : World) : World :=
  mkWorld (now w) (initSuccess w) (lastBatteryAveraging w) (avgVolt w)
    (avgSOC w) (currentScreenID w) (currentScreen w) (nextInst w)
    (eventFlag w) (eventTime w) (lastEventProcessing w) (isDisplayOn w)
    (displayInitialized w) v.

Definition set_lastUpdate (v : Z) (s : Screen) : Screen :=
  mkScreen (inst s) (kind s) v.

(** ** A monad for one run of firmware code

    A computation transforms the state, records the calls it makes and
    either returns or ends in a device restart. *)

Inductive Out (A : Type) : Type :=
| Returned (a : A) (w : World) (l : list Effect)
| Rebooted (w : World) (l : list Effect).

Arguments Returned {A} a w l.
Arguments Rebooted {A} w l.

Definition world {A : Type} (o : Out A) : World :=
  match o with
  | Returned _ w _ => w
  | Rebooted w _ => w
  end.

Definition effects {A : Type} (o : Out A) : list Effect :=
  match o with
  | Returned _ _ l => l
  | Rebooted _ l => l
  end.

Definition rebooted {A : Type} (o : Out A) : bool :=
  match o with
  | Returned _ _ _ => false
  | Rebooted _ _ => true
  end.

Definition prepend {A : Type} (l : list Effect) (o : Out A) : Out A :=
  match o with
  | Returned a w l' => Returned a w (l ++ l')
  | Rebooted w l' => Rebooted w (l ++ l')
  end.

Definition M (A : Type) : Type := World -> Out A.

Definition ret {A : Type} (a : A) : M A :=
  fun w => Returned a w [].

Definition bind {A B : Type} (m : M A) (f : A -> M B) : M B :=
  fun w =>
    match m w with
    | Returned a w1 l1 => prepend l1 (f a w1)
    | Rebooted w1 l1 => Rebooted w1 l1
    end.

Declare Scope fw_scope.
Delimit Scope fw_scope with fw.
Notation "x <- m ;; k" := (bind m (fun x => k))
  (at level 61, m at next level, right associativity) : fw_scope.
Notation "m ;; k" := (bind m (fun _ => k))
  (at level 61, right associativity) : fw_scope.
Local Open Scope fw_scope.

Definition gets {A : Type} (f : World -> A) : M A :=
  fun w => Returned (f w) w [].

Definition modify (g : World -> World) : M unit :=
  fun w => Returned tt (g w) [].

Definition emit (e : Effect) : M unit :=
  fun w => Returned tt w [e].

Definition when (b : bool) (m : M unit) : M unit :=
  if b then m else ret tt.

(** [ESP.restart()] does not come back. *)
Definition restart {A : Type} : M A :=
  fun w => Rebooted w [EspRestart].

Definition millis : M Z := gets (fun w => wrap32 (now w)).

(** ** The firmware code *)

Section Firmware.

Context `{cfg : Config}.

(** *** Battery accessors *)

(** The filters as the constructor of [Proc_UIManager] makes them:
    [avgSOC(AVERAGING_WINDOW), avgVolt(AVERAGING_WINDOW)]. *)
Definition newAverage : Average := mkAverage AVERAGING_WINDOW [].

(** [getVolt]: the mean of the voltage filter. *)
Definition getVolt (w : World) : Q := mean (avgVolt w).

(** [getSoC]: the mean of the state-of-charge filter. *)
Definition getSoC (w : World) : Q := mean (avgSOC w).

(** The value [service] pushes into [avgSOC] when the averaged voltage is
    [v]: [SoC > 100 ? 100 : SoC] for the linear approximation [SoC]. *)
Definition socSample (v : Q) : Q :=
  let SoC := (100 / (VOLT_HIGH - VOLT_LOW) * (v - VOLT_LOW))%Q in
  if Qgtb SoC 100 then 100%Q else SoC.

(** *** The interrupt handler *)

(** [onGesture], called by the ISR relay [onGestureISR]. *)
Definition onGesture : M unit :=
  flag <- gets eventFlag ;;
  if negb flag then
    modify (set_eventFlag true) ;;
    emit Force ;;
    t <- millis ;;
    modify (set_eventTime t)
  else ret tt.

(** [delay(ms)]: time passes; the environment may fire the gesture
    interrupt inside the delay. *)
Definition delay (e : Env) (site : DelaySite) (ms : Z) : M unit :=
  emit (Delay ms) ;;
  match irqDuring e site with
  | Some off =>
      let d := Z.max 0 (Z.min off ms) in
      modify (fun w => set_now (now w + d) w) ;;
      onGesture ;;
      modify (fun w => set_now (now w + (ms - d)) w)
  | None => modify (fun w => set_now (now w + ms) w)
  end.

(** *** Display power *)

Definition initDisplay : M unit :=
  ini <- gets displayInitialized ;;
  if negb ini then
    emit PinModeBacklight ;;
    modify (set_displayInitialized true)
  else ret tt.

Definition displayOn : M unit :=
  initDisplay ;;
  emit (Backlight true) ;;
  modify (set_isDisplayOn true).

Definition displayOff : M unit :=
  initDisplay ;;
  emit (Backlight false) ;;
  modify (set_isDisplayOn false).

(** *** Gesture sensor *)

(** [initGesture]: up to three attempts, two seconds apart. *)
Fixpoint initGestureLoop (e : Env) (left : nat) (i : nat) : M bool :=
  match left with
  | O => ret false
  | S left' =>
      emit (GestureBegin i) ;;
      if beginError e i =? 0 then ret true
      else
        emit ErrLog ;;
        delay e (AtInitRetry i) 2000 ;;
        initGestureLoop e left' (S i)
  end.

Definition initGesture (e : Env) : M bool := initGestureLoop e 3%nat 0%nat.

(** The [switch] of [getUserEvent] on the raw gesture code. *)
Definition remap (rotation gesture : Z) : Z :=
  if gesture =? GES_UP then
    if rotation =? 0 then GES_LEFT else GES_RIGHT
  else if gesture =? GES_DOWN then
    if rotation =? 0 then GES_RIGHT else GES_LEFT
  else if gesture =? GES_LEFT then
    if rotation =? 0 then GES_DOWN else GES_UP
  else if gesture =? GES_RIGHT then
    if rotation =? 0 then GES_UP else GES_DOWN
  else if gesture =? GES_FORWARD then gesture
  else if gesture =? GES_BACKWARD then gesture
  else if gesture =? GES_CLOCKWISE then gesture
  else if gesture =? GES_CNTRCLOCKWISE then gesture
  else if gesture =? GES_WAVE then gesture
  else gesture.

Definition getUserEvent (e : Env) : M Z :=
  emit ReadGesture ;;
  rotation <- gets currentScreenRotation ;;
  ret (remap rotation (gesture e)).

(** *** Navigation *)

Definition handleSwipe (evt curScrn : Z) : Z :=
  if evt =? GES_RIGHT then
    let curScrn := curScrn + 1 in
    if curScrn >=? getScreenCount then 1 else curScrn
  else if evt =? GES_LEFT then
    let curScrn := curScrn - 1 in
    if curScrn <? 1 then getScreenCount - 1 else curScrn
  else curScrn.

(** [currentScreen->deactivate()] *)
Definition deactivate : M unit :=
  s <- gets currentScreen ;; emit (ScreenDeactivate (inst s)).

(** [delete currentScreen] *)
Definition deleteScreen : M unit :=
  s <- gets currentScreen ;; emit (ScreenDelete (inst s)).

(** [currentScreen = createScreen(id)] and [currentScreen = new
    ScreenLowbatt()]: a fresh object of the class registered for [id]. *)
Definition createScreen (id : Z) : M unit :=
  i <- gets nextInst ;;
  modify (set_nextInst (S i)) ;;
  emit (ScreenCreate id i) ;;
  modify (set_currentScreen (mkScreen i id 0)).

(** [currentScreen->activate()] *)
Definition activate : M unit :=
  s <- gets currentScreen ;; emit (ScreenActivate (inst s)).

(** [if (!currentScreen->isFullScreen()) drawBar(true);] *)
Definition redrawBar : M unit :=
  s <- gets currentScreen ;;
  when (negb (isFullScreen (kind s))) (emit (DrawBar true)).

(** [this->setPeriod(currentScreen->getRefreshPeriod());] *)
Definition applyPeriod : M unit :=
  s <- gets currentScreen ;; emit (SetPeriod (getRefreshPeriod (kind s))).

Definition sensorTasks : list Task :=
  [ComboTemperatureHumiditySensor; ComboPressureHumiditySensor;
   ParticleSensor; CO2Sensor; VOCSensor; MultiGasSensor; MQTTUpdate;
   GeigerSensor; GeoLocation].

(** The block under [#ifndef KILL_INSTALLED]. *)
Definition disableSensors : M unit :=
  emit (Disable ComboTemperatureHumiditySensor) ;;
  emit (Disable ComboPressureHumiditySensor) ;;
  emit (Disable ParticleSensor) ;;
  emit (Disable CO2Sensor) ;;
  emit (Disable VOCSensor) ;;
  emit (Disable MultiGasSensor) ;;
  emit (Disable MQTTUpdate) ;;
  emit (Disable GeigerSensor) ;;
  emit (Disable GeoLocation).

(** *** The phases of [service] *)

(** Lines 93-101: retry the gesture sensor initialisation. *)
Definition retryInit (e : Env) : M unit :=
  if ENABLE_SENSORS then
    ok <- gets initSuccess ;;
    if negb ok then
      emit ErrLog ;;
      r <- initGesture e ;;
      modify (set_initSuccess r)
    else ret tt
  else ret tt.

(** Lines 104-118: battery averaging, every ten seconds.  [thisTime] and
    [lastBatteryAveraging] are [long]s: the sum of line 107 is taken in 32
    bits and wraps around. *)
Definition averaging (e : Env) : M unit :=
  t <- millis ;;
  let thisTime := to_long t in
  last <- gets lastBatteryAveraging ;;
  if thisTime >? to_long (last + 10000) then
    modify (set_lastBatteryAveraging thisTime) ;;
    emit GetVCell ;;
    modify (fun w => set_avgVolt (push (vcell e) (avgVolt w)) w) ;;
    v <- gets getVolt ;;
    modify (fun w => set_avgSOC (push (socSample v) (avgSOC w)) w)
  else ret tt.

(** Lines 120-173: low battery handling and restart on recharge. *)
Definition lowBattery (e : Env) : M unit :=
  v <- gets getVolt ;;
  if Qle_bool v VOLT_LOW then
    id <- gets currentScreenID ;;
    if negb (id =? LOWBATT_SCREEN) then
      emit (Syslog LOG_CRIT) ;;
      deactivate ;;
      deleteScreen ;;
      modify (set_currentScreenID LOWBATT_SCREEN) ;;
      createScreen LOWBATT_SCREEN ;;
      activate ;;
      redrawBar ;;
      applyPeriod ;;
      when (negb KILL_INSTALLED) disableSensors
    else ret tt
  else
    id <- gets currentScreenID ;;
    if Qgtb v ((VOLT_HIGH + VOLT_LOW) / 2) && (id =? LOWBATT_SCREEN) then
      emit (Syslog LOG_INFO) ;;
      delay e AtRestart 1000 ;;
      restart
    else ret tt.

(** Lines 249-284: entry into the setup screen. *)
Definition enterSetup (e : Env) : M unit :=
  emit (DrawIcon SetupIcon) ;;
  delay e AtSetup 250 ;;
  deactivate ;;
  deleteScreen ;;
  modify (set_currentScreenID SETUP_SCREEN) ;;
  id <- gets currentScreenID ;;
  createScreen id ;;
  activate ;;
  redrawBar ;;
  applyPeriod.

(** Lines 287-323: rotation of the display. *)
Definition rotateScreen (e : Env) : M unit :=
  emit (DrawIcon RotateIcon) ;;
  delay e AtRotate 250 ;;
  modify (fun w => set_currentScreenRotation
                     (if currentScreenRotation w =? 0 then 2 else 0) w) ;;
  deactivate ;;
  r <- gets currentScreenRotation ;;
  emit (LcdSetRotation r) ;;
  emit LcdFillScreen ;;
  activate ;;
  modify (fun w => set_currentScreen (set_lastUpdate 0 (currentScreen w)) w) ;;
  redrawBar.

(** Lines 325-376: swipe to the neighbouring screen. *)
Definition swipe (e : Env) (eventID : Z) : M unit :=
  cur <- gets currentScreenID ;;
  let newScreenID := handleSwipe eventID cur in
  if negb (newScreenID =? cur) then
    (if eventID =? GES_RIGHT then emit (DrawIcon RightArrow)
     else if eventID =? GES_LEFT then emit (DrawIcon LeftArrow)
     else ret tt) ;;
    delay e AtSwipe 250 ;;
    deactivate ;;
    deleteScreen ;;
    createScreen newScreenID ;;
    activate ;;
    redrawBar ;;
    applyPeriod ;;
    modify (set_currentScreenID newScreenID)
  else ret tt.

(** Lines 200-378: what is done with a decoded event.  The result is the
    final value of the local variable [eventID]. *)
Definition dispatch (e : Env) (eventID : Z) : M Z :=
  on <- gets isDisplayOn ;;
  id <- gets currentScreenID ;;
  if negb on then
    emit LcdInit ;;
    delay e AtWake 10 ;;
    displayOn ;;
    ret eventID
  else if id =? LOWBATT_SCREEN then
    ret (if negb (eventID =? GES_FORWARD) then GES_NONE else eventID)
  else if eventID =? GES_FORWARD then
    displayOff ;;
    delay e AtForward 500 ;;
    flag <- gets eventFlag ;;
    (if flag then
       emit CancelGesture ;;
       modify (set_eventFlag false)
     else ret tt) ;;
    ret eventID
  else if negb (eventID =? GES_NONE) then
    s <- gets currentScreen ;;
    emit (ScreenOnUserEvent (inst s) eventID) ;;
    (if negb (cancelEvent e) then
       if eventID =? GES_CNTRCLOCKWISE then enterSetup e
       else if eventID =? GES_CLOCKWISE then rotateScreen e
       else swipe e eventID
     else ret tt) ;;
    ret eventID
  else ret eventID.

(** The idle limit of the backlight:
    [BACKLIGHT_TIMEOUT * (1 + (getSoC() > 95))], compared as unsigned. *)
Definition idleLimit (soc : Q) : Z :=
  wrap32 (BACKLIGHT_TIMEOUT * (1 + b2z (Qgtb soc 95))).

(** Lines 175-392: event processing.  The result is [wasEvent]. *)
Definition events (e : Env) : M bool :=
  flag <- gets eventFlag ;;
  if flag then
    t <- millis ;;
    lastProc <- gets lastEventProcessing ;;
    if usub t lastProc >? 1000 then
      t' <- millis ;;
      modify (set_lastEventProcessing t') ;;
      modify (set_eventFlag false) ;;
      eventID <- getUserEvent e ;;
      dispatch e eventID ;;
      ret true
    else ret false
  else
    on <- gets isDisplayOn ;;
    t <- millis ;;
    evt <- gets eventTime ;;
    soc <- gets getSoC ;;
    (* (isDisplayOn && millis() - eventTime > LIMIT) ? 1 : 0 *)
    let cond := if on && (usub t evt >? idleLimit soc) then 1 else 0 in
    (if negb (cond =? 0) then displayOff else ret tt) ;;
    ret false.

(** Lines 394-408: refresh of the current screen. *)
Definition render : M unit :=
  on <- gets isDisplayOn ;;
  s <- gets currentScreen ;;
  if on || getRefreshWithScreenOff (kind s) then
    t <- millis ;;
    if usub t (lastUpdate s) >=? wrap32 (getRefreshPeriod (kind s) - 50) then
      when (negb (isFullScreen (kind s))) (emit (DrawBar false)) ;;
      t' <- millis ;;
      modify (fun w => set_currentScreen (set_lastUpdate t' (currentScreen w)) w) ;;
      emit (ScreenUpdate (inst s))
    else ret tt
  else ret tt.

(** [Proc_UIManager::service] *)
Definition service (e : Env) : M unit :=
  retryInit e ;;
  averaging e ;;
  lowBattery e ;;
  events e ;;
  render.

End Firmware.

(** ** Runs of the device *)

(** What happens to the UI manager between and at scheduler dispatches. *)
Inductive Step : Type :=
| Interrupt          (* the gesture sensor raises its interrupt *)
| Elapse (ms : Z)    (* time passes outside of the task *)
| Tick (e : Env).    (* the scheduler calls service() *)

Definition step `{Config} (s : Step) : M unit :=
  match s with
  | Interrupt => onGesture
  | Elapse ms => modify (fun w => set_now (now w + ms) w)
  | Tick e => service e
  end.

Fixpoint run `{Config} (steps : list Step) : M unit :=
  match steps with
  | [] => ret tt
  | s :: rest => step s ;; run rest
  end.

(** ** Vocabulary of the statements *)

(** The gesture sensor needs no initialisation retry in this tick. *)
Definition sensorReady `{Config} (w : World) : Prop :=
  ENABLE_SENSORS = false \/ initSuccess w = true.

(** The state in which a tick makes its low-battery test, that is after the
    averaging of lines 104-118. *)
Definition afterAveraging `{Config} (e : Env) (w : World) : World :=
  world (averaging e (world (retryInit e w))).

(** The averaged voltage and state of charge a tick works with. *)
Definition voltageSeen `{Config} (e : Env) (w : World) : Q :=
  getVolt (afterAveraging e w).

Definition socSeen `{Config} (e : Env) (w : World) : Q :=
  getSoC (afterAveraging e w).

(** Every tick of the run finds the averaged voltage at or below
    [VOLT_LOW]. *)
Fixpoint lowThroughout `{Config} (steps : list Step) (w : World) : Prop :=
  match steps with
  | [] => True
  | s :: rest =>
      match s with
      | Tick e => (voltageSeen e w <= VOLT_LOW)%Q
      | _ => True
      end /\ lowThroughout rest (world (step s w))
  end.

(** No gesture interrupt fires inside the delays of the tick. *)
Definition quiet (e : Env) : Prop := forall site, irqDuring e site = None.

Definition Task_eq_dec (a b : Task) : {a = b} + {a <> b}.
Proof. decide equality. Defined.

Definition count (p : Effect -> bool) (l : list Effect) : nat :=
  length (filter p l).

Definition isDisable (t : Task) (x : Effect) : bool :=
  match x with
  | Disable t' => if Task_eq_dec t t' then true else false
  | _ => false
  end.

Definition isAnyDisable (x : Effect) : bool :=
  match x with
  | Disable _ => true
  | _ => false
  end.

Definition isReadGesture (x : Effect) : bool :=
  match x with
  | ReadGesture => true
  | _ => false
  end.

Definition isBacklight (x : Effect) : bool :=
  match x with
  | Backlight _ => true
  | _ => false
  end.

(** Calls that construct, destroy, activate or deactivate a screen. *)
Definition isLifecycle (x : Effect) : bool :=
  match x with
  | ScreenDeactivate _ | ScreenDelete _ | ScreenCreate _ _
  | ScreenActivate _ => true
  | _ => false
  end.

(** The lifecycle calls of a transition that replaces screen object [old]
    by a new object [new] created for identifier [id]. *)
Definition replacement (old : nat) (id : Z) (new : nat) : list Effect :=
  [ScreenDeactivate old; ScreenDelete old; ScreenCreate id new;
   ScreenActivate new].

(** The slot of the current screen as the recorded calls drive it: no
    object, or one object that is activated or not. *)
Inductive Slot : Type :=
| Vacant
| Holds (i : nat) (active : bool).

Definition slotStep (s : Slot) (x : Effect) : option Slot :=
  match x, s with
  | ScreenDeactivate i, Holds j true =>
      if Nat.eqb i j then Some (Holds j false) else None
  | ScreenDelete i, Holds j false =>
      if Nat.eqb i j then Some Vacant else None
  | ScreenCreate _ i, Vacant => Some (Holds i false)
  | ScreenActivate i, Holds j false =>
      if Nat.eqb i j then Some (Holds j true) else None
  | ScreenDeactivate _, _ => None
  | ScreenDelete _, _ => None
  | ScreenCreate _ _, _ => None
  | ScreenActivate _, _ => None
  | _, _ => Some s
  end.

Fixpoint slotRun (s : Slot) (l : list Effect) : option Slot :=
  match l with
  | [] => Some s
  | x :: l' =>
      match slotStep s x with
      | Some s' => slotRun s' l'
      | None => None
      end
  end.

(** The remapping as the specification words it: a swap of up with left
    and of down with right when the screen is rotated, a swap of up with
    right and of down with left when it is not. *)
Definition remapAsSpecified `{Config} (rotation gesture : Z) : Z :=
  if rotation =? 0 then
    if gesture =? GES_UP then GES_RIGHT
    else if gesture =? GES_RIGHT then GES_UP
    else if gesture =? GES_DOWN then GES_LEFT
    else if gesture =? GES_LEFT then GES_DOWN
    else gesture
  else
    if gesture =? GES_UP then GES_LEFT
    else if gesture =? GES_LEFT then GES_UP
    else if gesture =? GES_DOWN then GES_RIGHT
    else if gesture =? GES_RIGHT then GES_DOWN
    else gesture.

(** ** A bench configuration

    Concrete values on which the model is run: a 3.6 V to 4.2 V battery
    range, five screens in the swipe cycle, gesture codes 0 to 9. *)

Definition benchConfig : Config := {|
  VOLT_LOW := 36 # 10;
  VOLT_HIGH := 42 # 10;
  AVERAGING_WINDOW := 6;
  BACKLIGHT_TIMEOUT := 60000;
  LOWBATT_SCREEN := 100;
  SETUP_SCREEN := 0;
  GES_NONE := 0;
  GES_UP := 1;
  GES_DOWN := 2;
  GES_LEFT := 3;
  GES_RIGHT := 4;
  GES_FORWARD := 5;
  GES_BACKWARD := 6;
  GES_CLOCKWISE := 7;
  GES_CNTRCLOCKWISE := 8;
  GES_WAVE := 9;
  KILL_INSTALLED := false;
  ENABLE_SENSORS := true;
  getScreenCount := 5;
  isFullScreen := fun id => id =? 100;
  getRefreshPeriod := fun _ => 1000;
  getRefreshWithScreenOff := fun _ => false
|}.

(** The same board with the KILL modification installed. *)
Definition killConfig : Config := {|
  VOLT_LOW := 36 # 10;
  VOLT_HIGH := 42 # 10;
  AVERAGING_WINDOW := 6;
  BACKLIGHT_TIMEOUT := 60000;
  LOWBATT_SCREEN := 100;
  SETUP_SCREEN := 0;
  GES_NONE := 0;
  GES_UP := 1;
  GES_DOWN := 2;
  GES_LEFT := 3;
  GES_RIGHT := 4;
  GES_FORWARD := 5;
  GES_BACKWARD := 6;
  GES_CLOCKWISE := 7;
  GES_CNTRCLOCKWISE := 8;
  GES_WAVE := 9;
  KILL_INSTALLED := true;
  ENABLE_SENSORS := true;
  getScreenCount := 5;
  isFullScreen := fun id => id =? 100;
  getRefreshPeriod := fun _ => 1000;
  getRefreshWithScreenOff := fun _ => false
|}.

(** Screen 2 shown, display on, 3.9 V in the filter, twenty seconds after
    boot, no event pending. *)
Definition benchWorld : World := {|
  now := 20000;
  initSuccess := true;
  lastBatteryAveraging := 0;
  avgVolt := push (39 # 10) (@newAverage benchConfig);
  avgSOC := push (50 # 1) (@newAverage benchConfig);
  currentScreenID := 2;
  currentScreen := mkScreen 0 2 0;
  nextInst := 1;
  eventFlag := false;
  eventTime := 0;
  lastEventProcessing := 0;
  isDisplayOn := true;
  displayInitialized := true;
  currentScreenRotation := 0
|}.

(** The low-battery screen shown, display on. *)
Definition lowbattWorld : World := {|
  now := 20000;
  initSuccess := true;
  lastBatteryAveraging := 5000;
  avgVolt := push (35 # 10) (@newAverage benchConfig);
  avgSOC := push (0 # 1) (@newAverage benchConfig);
  currentScreenID := 100;
  currentScreen := mkScreen 1 100 19500;
  nextInst := 2;
  eventFlag := false;
  eventTime := 0;
  lastEventProcessing := 0;
  isDisplayOn := true;
  displayInitialized := true;
  currentScreenRotation := 0
|}.

(** A tick in which the battery reads [v] volts, the gesture sensor answers
    [g], the screen does not claim the event and no interrupt fires. *)
Definition benchEnv (v : Q) (g : Z) : Env :=
  mkEnv v g false (fun _ => 0) (fun _ => None).

(** The same, with a gesture event pending since 10 ms and the last event
    processed at boot: the debounce second has passed. *)
Definition eventWorld : World :=
  set_eventFlag true (set_eventTime 19990 benchWorld).

(** The same, with the last event processed half a second ago: the pending
    event falls inside the debounce second. *)
Definition pendingWorld : World :=
  set_lastEventProcessing 19500 eventWorld.

(** Screen 2 still shown while the filter holds 3.5 V. *)
Definition drainedWorld : World :=
  set_avgVolt (push (35 # 10) (@newAverage benchConfig)) benchWorld.

(** The low-battery screen with a gesture event pending. *)
Definition lowbattEventWorld : World :=
  set_eventFlag true (set_eventTime 19990 lowbattWorld).

(** ** The rest of the UI manager

    The functions of [P_UIManager.cpp] outside the tick: [setup], the
    status bar [drawBar] with its two gauges, [upTime] and [printDigits].
    Calls on the display are recorded as [LcdCall]s; the calls of [setup]
    on the battery monitor and on the interrupt controller, which the tick
    never makes, are recorded as [BootCall]s around the [Effect]s. *)

(** *** Start-up *)

Inductive BootCall : Type :=
| BatteryReset
| BatteryQuickStart
| PinModeGestureInput
| AttachInterrupt
| Fw (x : Effect).

(** A piece of start-up code: it transforms the state and records calls. *)
Definition Boot : Type := World -> World * list BootCall.

Definition call (c : BootCall) : Boot := fun w => (w, [c]).

(** Firmware code that does not restart, run at start-up. *)
Definition fw (m : M unit) : Boot :=
  fun w => (world (m w), map Fw (effects (m w))).

Definition andThen (a b : Boot) : Boot :=
  fun w =>
    let (w1, l1) := a w in
    let (w2, l2) := b w1 in
    (w2, l1 ++ l2).

Notation "a >> b" := (andThen a b)
  (at level 62, left associativity) : fw_scope.

(** The [Effect]s among recorded start-up calls. *)
Fixpoint recorded (l : list BootCall) : list Effect :=
  match l with
  | [] => []
  | Fw x :: l' => x :: recorded l'
  | _ :: l' => recorded l'
  end.

Section Startup.

Context `{cfg : Config}.

(** [delay(ms)] before the interrupt handler is attached (line 58): time
    passes and nothing else can happen. *)
Definition pause (ms : Z) : M unit :=
  emit (Delay ms) ;;
  modify (fun w => set_now (now w + ms) w).

(** The environment as seen before [attachInterrupt]: no gesture interrupt
    is delivered. *)
Definition beforeAttach (e : Env) : Env :=
  mkEnv (vcell e) (gesture e) (cancelEvent e) (beginError e)
    (fun _ => None).

(** [batterySetup] *)
Definition batterySetup (e : Env) : Boot :=
  call BatteryReset >>
  call BatteryQuickStart >>
  fw (pause 1000 ;;
      emit GetVCell ;;
      modify (fun w => set_avgVolt (push (vcell e) (avgVolt w)) w)).

(** [Proc_UIManager::setup]; [startScreen] is [config.startScreen]. *)
Definition setup (startScreen : Z) (e : Env) : Boot :=
  batterySetup e >>
  fw (r <- initGesture (beforeAttach e) ;;
      modify (set_initSuccess r)) >>
  fw (getUserEvent e ;; ret tt) >>
  call PinModeGestureInput >>
  call AttachInterrupt >>
  fw (modify (set_currentScreenID startScreen) ;;
      id <- gets currentScreenID ;;
      createScreen id ;;
      activate ;;
      s <- gets currentScreen ;;
      emit (ScreenUpdate (inst s)) ;;
      applyPeriod ;;
      redrawBar ;;
      t <- millis ;;
      modify (set_eventTime t)).

(** The number of failed attempts of [initGesture]: the failures before
    the first success among the three calls of [begin()]. *)
Fixpoint failuresFrom (e : Env) (left i : nat) : nat :=
  match left with
  | O => O
  | S left' =>
      if beginError e i =? 0 then O else S (failuresFrom e left' (S i))
  end.

Definition failedAttempts (e : Env) : nat := failuresFrom e 3%nat 0%nat.

(** A sequence of calls of [displayOn] ([true]) and [displayOff]. *)
Fixpoint switchDisplay (cmds : list bool) : M unit :=
  match cmds with
  | [] => ret tt
  | c :: rest => (if c then displayOn else displayOff) ;; switchDisplay rest
  end.

(** The identifiers of the swipe cycle. *)
Definition inCycle (id : Z) : Prop := 1 <= id <= getScreenCount - 1.

(** [getNativeSoC], for the reading [soc] of [batteryMonitor.getSoC()]. *)
Definition getNativeSoC (soc : Q) : Q :=
  if Qgtb soc 100 then 100%Q else soc.

(** [eventPending] *)
Definition eventPending (w : World) : bool := eventFlag w.

End Startup.

Definition isBegin (x : Effect) : bool :=
  match x with
  | GestureBegin _ => true
  | _ => false
  end.

Definition isErrLog (x : Effect) : bool :=
  match x with
  | ErrLog => true
  | _ => false
  end.

Definition isPinMode (x : Effect) : bool :=
  match x with
  | PinModeBacklight => true
  | _ => false
  end.

Definition isGetVCell (x : Effect) : bool :=
  match x with
  | GetVCell => true
  | _ => false
  end.

(** Conversion of a [float] to [int]: truncation towards zero. *)
Definition Qtrunc (q : Q) : Z := Z.quot (Qnum q) (Zpos (Qden q)).

(** *** Uptime and the status bar *)

Inductive Color : Type :=
| TFT_BLACK | TFT_WHITE | TFT_RED | TFT_GREEN | TFT_YELLOW
| GREY90.   (* 0xEF5D *)

Inductive Font : Type :=
| ArialRoundedMTBold_14 | ArialRoundedMTBold_36 | FSSB12.

Inductive Datum : Type := BC_DATUM | MC_DATUM.

Section StatusBar.

Import String.

(** [String(int)] and [String + int]: the decimal digits, with a minus sign
    for a negative number. *)
Definition itoa (n : Z) : string :=
  DecimalString.NilZero.string_of_int (Z.to_int n).

Definition printDigits (digits : Z) : string :=
  let buffer := ""%string in
  let buffer := if digits <? 10 then ("0" ++ buffer)%string else buffer in
  (buffer ++ itoa digits)%string.

(** [millis() / 1000] split by the macros [elapsedDays], [numberOfHours],
    [numberOfMinutes] and [numberOfSeconds]. *)
Definition SECS_PER_MIN : Z := 60.
Definition SECS_PER_HOUR : Z := 3600.
Definition SECS_PER_DAY : Z := SECS_PER_HOUR * 24.

Definition elapsedDays (t : Z) : Z := t / SECS_PER_DAY.
Definition numberOfHours (t : Z) : Z := (t mod SECS_PER_DAY) / SECS_PER_HOUR.
Definition numberOfMinutes (t : Z) : Z := (t / SECS_PER_MIN) mod SECS_PER_MIN.
Definition numberOfSeconds (t : Z) : Z := t mod SECS_PER_MIN.

Definition upTime (w : World) : string :=
  let val := wrap32 (now w) / 1000 in
  let days := elapsedDays val in
  let hours := numberOfHours val in
  let minutes := numberOfMinutes val in
  (printDigits days ++ "d " ++ printDigits hours ++ "h " ++
   printDigits minutes ++ "m ")%string.

(** [sprintf("%02d", n)] *)
Definition pad2 (n : Z) : string :=
  if (0 <=? n) && (n <? 10) then ("0" ++ itoa n)%string else itoa n.

Inductive LcdCall : Type :=
| SetFreeFont (f : Font)
| SetTextDatum (d : Datum)
| SetTextColor (fg : Color) (bg : option Color)
| FillRect (x y w h : Z) (c : Color)
| DrawRect (x y w h : Z) (c : Color)
| FillRoundRect (x y w h r : Z) (c : Color)
| SetTextPaddingFor (template : string)   (* setTextPadding(textWidth(..)) *)
| SetTextPadding (px : Z)
| DrawString (s : string) (x y : Z)
| DrawSeparator (y : Z).

(** The member [topBar]: what the bar shows. *)
Record TopBar : Type := mkTopBar {
  dateLine : string;
  locationLine : string;
  timeLine : string;
  dBm : Z;
  batLevel : Z
}.

(** What [drawBar] reads from the clock, the network, the geolocation task
    and the display. *)
Record BarEnv : Type := mkBarEnv {
  connected : bool;         (* config.connected *)
  lastNTPSync : Z;          (* NTP.getLastNTPSync() *)
  dayName : string;         (* dayStr(weekday()) *)
  dayOfMonth : Z;           (* day() *)
  monthName : string;       (* monthStr(month()) *)
  yearNumber : Z;           (* year() *)
  hourNow : Z;              (* hour() *)
  minuteNow : Z;            (* minute() *)
  geoValid : bool;          (* procPtr.GeoLocation.isValid() *)
  locality : string;        (* procPtr.GeoLocation.getLocality() *)
  countryCode : string;     (* procPtr.GeoLocation.getCountryCode() *)
  rssi : Z;                 (* WiFi.RSSI() *)
  lcdWidth : Z;             (* LCD.width() *)
  fontHeight : Z            (* LCD.fontHeight(GFXFF) *)
}.

(** The first lines of [drawWifiGauge]: signal strength to quality. *)
Definition wifiQuality (dBm : Z) : Z :=
  if (dBm <=? -100) || (dBm =? 31) then 0
  else if dBm >=? -60 then 100
  else Qtrunc ((33 # 10) * inject_Z dBm + 330).

(** Quality to number of bars.  The last [else] has no counterpart in the
    code, where [bars] would stay uninitialised; it is never taken. *)
Definition wifiBars (quality : Z) : Z :=
  if quality =? 0 then 0
  else if quality <? 20 then 1
  else if quality <? 40 then 2
  else if quality <? 60 then 3
  else if quality <? 80 then 4
  else if quality >=? 80 then 5
  else 0.

(** The [for] loop of [drawWifiGauge], from bar [i] on. *)
Fixpoint gaugeBars (left : nat) (i topX topY bars : Z) : list LcdCall :=
  match left with
  | O => []
  | S left' =>
      let spacing := 5 in
      let thick := 4 in
      let radius := 2 in
      let count := 5 in
      let width := 14 in
      let color := if i >=? count - bars then TFT_GREEN else GREY90 in
      FillRoundRect (topX + i * 2) (topY + i * spacing) (width - i * 2)
        thick radius color
      :: gaugeBars left' (i + 1) topX topY bars
  end.

Definition drawWifiGauge (topX topY dBm_ : Z) (forceDraw : bool)
    (tb : TopBar) : TopBar * list LcdCall :=
  if negb (dBm_ =? dBm tb) || forceDraw then
    let spacing := 5 in
    let thick := 4 in
    let count := 5 in
    let width := 14 in
    let quality := wifiQuality dBm_ in
    let erase :=
      if dBm tb =? 31 then
        [FillRect topX topY (width + 5) (count * (thick + spacing)) TFT_BLACK]
      else [] in
    let bars := wifiBars quality in
    let cross :=
      if dBm_ =? 31 then
        [SetFreeFont FSSB12; SetTextDatum MC_DATUM; SetTextColor TFT_RED None;
         DrawString "X" (topX + 9) (topY + 10)]
      else [] in
    (mkTopBar (dateLine tb) (locationLine tb) (timeLine tb) dBm_ (batLevel tb),
     erase ++ gaugeBars 5 0 topX topY bars ++ cross)
  else (tb, []).

Definition drawBatteryGauge (topX topY batLevel_ redLevel : Z)
    (forceDraw : bool) (tb : TopBar) : TopBar * list LcdCall :=
  if negb (batLevel_ =? batLevel tb) || forceDraw then
    let batHeight := 24 in
    let batWidth := 10 in
    let tipHeight := 2 in
    let tipWidth := 4 in
    let batfillColor := if batLevel_ >? 30 then TFT_GREEN else TFT_RED in
    let batFillHeight := Z.quot (batLevel_ * (batHeight - 2)) 100 in
    (mkTopBar (dateLine tb) (locationLine tb) (timeLine tb) (dBm tb) batLevel_,
     [FillRect (topX + Z.quot batWidth 2 - Z.quot tipWidth 2) topY tipWidth
        tipHeight TFT_WHITE;
      DrawRect topX (topY + tipHeight) batWidth batHeight TFT_WHITE;
      FillRect (topX + 1) (topY + batHeight + tipHeight - batFillHeight - 1)
        (batWidth - 2) batFillHeight batfillColor;
      FillRect (topX + 1) (topY + tipHeight + 1) (batWidth - 2)
        (batHeight - batFillHeight - 2) TFT_BLACK])
  else (tb, []).

(** The three text lines of the bar, as [drawBar] composes them. *)
Definition dateText (b : BarEnv) : string :=
  if connected b && (lastNTPSync b >? 0) then
    (dayName b ++ " " ++ itoa (dayOfMonth b) ++ " " ++ monthName b ++ " " ++
     itoa (yearNumber b))%string
  else "                        "%string.

Definition locationText (b : BarEnv) : string :=
  if geoValid b && connected b then
    (locality b ++ " " ++ countryCode b)%string
  else "                                  "%string.

Definition timeText (b : BarEnv) : string :=
  if connected b && (lastNTPSync b >? 0) then
    (itoa (hourNow b) ++ ":" ++ pad2 (minuteNow b))%string
  else "AtmoScan"%string.

(** [lineBuffer != cached] *)
Definition differs (a b : string) : bool := negb (String.eqb a b).

(** [Proc_UIManager::drawBar]; [soc] is the value of [getSoC()]. *)
Definition drawBar (forceDraw : bool) (b : BarEnv) (soc : Q) (tb : TopBar)
    : TopBar * list LcdCall :=
  (* date *)
  let l0 := [SetFreeFont ArialRoundedMTBold_14; SetTextDatum BC_DATUM;
             SetTextColor TFT_WHITE (Some TFT_BLACK)] in
  let lineBuffer := dateText b in
  let '(tb1, l1) :=
    if forceDraw || differs lineBuffer (dateLine tb) then
      (mkTopBar lineBuffer (locationLine tb) (timeLine tb) (dBm tb)
         (batLevel tb),
       [FillRect 0 0 (lcdWidth b) (fontHeight b) TFT_BLACK;
        SetTextPaddingFor "  Saturday, 44 November 4444  ";
        DrawString lineBuffer 120 14])
    else (tb, []) in
  (* location *)
  let lineBuffer := locationText b in
  let '(tb2, l2) :=
    if forceDraw || differs lineBuffer (locationLine tb1) then
      (mkTopBar (dateLine tb1) lineBuffer (timeLine tb1) (dBm tb1)
         (batLevel tb1),
       [SetTextPaddingFor "                          ";
        DrawString lineBuffer 120 63])
    else (tb1, []) in
  (* time *)
  let l3 := [SetFreeFont ArialRoundedMTBold_36; SetTextDatum BC_DATUM;
             SetTextColor TFT_YELLOW (Some TFT_BLACK)] in
  let lineBuffer := timeText b in
  let '(tb4, l4) :=
    if forceDraw || differs lineBuffer (timeLine tb2) then
      (mkTopBar (dateLine tb2) (locationLine tb2) lineBuffer (dBm tb2)
         (batLevel tb2),
       [SetTextPaddingFor "     44:44     ";
        DrawString lineBuffer 120 50])
    else (tb2, []) in
  let '(tb5, l5) := drawWifiGauge 220 17 (rssi b) forceDraw tb4 in
  let '(tb6, l6) := drawBatteryGauge 5 17 (Qtrunc soc) 30 forceDraw tb5 in
  (tb6,
   l0 ++ l1 ++ l2 ++ l3 ++ l4 ++ l5 ++ l6 ++
   [DrawSeparator 64; SetTextPadding 0]).

End StatusBar.

(** *** Vocabulary of the further properties *)


(** The event the tick decodes. *)
Definition eventOf `{Config} (e : Env) (w : World) : Z :=
  remap (currentScreenRotation w) (gesture e).

Definition isOnUserEvent (x : Effect) : bool :=
  match x with
  | ScreenOnUserEvent _ _ => true
  | _ => false
  end.


Definition isDelay (x : Effect) : bool :=
  match x with
  | Delay _ => true
  | _ => false
  end.

(** The two decimal digits of a number below 100. *)
Definition twoDigits (n : Z) : String.string :=
  String.String (Ascii.ascii_of_nat (48 + Z.to_nat (n / 10)))
    (String.String (Ascii.ascii_of_nat (48 + Z.to_nat (n mod 10)))
       String.EmptyString).

(** [forall n, lo <= n < lo + len -> f n], decided. *)
Fixpoint allFrom (f : Z -> bool) (lo : Z) (len : nat) : bool :=
  match len with
  | O => true
  | S len' => f lo && allFrom f (lo + 1) len'
  end.

(** The colours of the five bars of the WiFi gauge, top to bottom. *)
Fixpoint barColors (l : list LcdCall) : list Color :=
  match l with
  | [] => []
  | FillRoundRect _ _ _ _ _ c :: l' => c :: barColors l'
  | _ :: l' => barColors l'
  end.

(** *** More of the bench *)

(** The sensor failed at start-up. *)
Definition notReadyWorld : World := set_initSuccess false benchWorld.

(** A gesture event pending while the display is off. *)
Definition darkEventWorld : World := set_isDisplayOn false eventWorld.

(** Screen 2 with the display off, five seconds after a reading of the
    battery, no event pending. *)
Definition sleepingWorld : World :=
  set_isDisplayOn false (set_lastBatteryAveraging 15000 benchWorld).

(** Screen 2 shown about 24.8 days after boot, 11 seconds after a reading
    of the battery made just below 2^31 ms. *)
Definition wrapWorld : World :=
  set_lastBatteryAveraging 2147479000 (set_now 2147490000 benchWorld).

(** A tick in which the sensor answers "down" and the screen claims the
    event. *)
Definition claimingEnv : Env :=
  mkEnv (39 # 10) (@GES_DOWN benchConfig) true (fun _ => 0) (fun _ => None).

(** Two ticks at 3.5 V with a "forward" gesture in between. *)
Definition lowbattRun : list Step :=
  [Tick (benchEnv (35 # 10) 0); Interrupt; Elapse 1500;
   Tick (benchEnv (35 # 10) (@GES_FORWARD benchConfig))].

(** Two ticks at 3.0 V. *)
Definition drainRun : list Step :=
  [Tick (benchEnv (30 # 10) 0); Elapse 1000; Tick (benchEnv (30 # 10) 0)].

(** Two "clockwise" gestures. *)
Definition twoTurns : list Step :=
  [Tick (benchEnv (39 # 10) (@GES_CLOCKWISE benchConfig)); Elapse 1500;
   Interrupt; Tick (benchEnv (39 # 10) (@GES_CLOCKWISE benchConfig))].

(** The bar before anything is drawn. *)
Definition blankBar : TopBar :=
  mkTopBar String.EmptyString String.EmptyString String.EmptyString 0 0.

(** [service] seen as the sequence of its phases. *)
Inductive Phases `{Config} (e : Env) (w : World) : Out unit -> Prop :=
| PhasesDone w1 l1 w2 l2 w3 l3 b w4 l4 w5 l5 :
    retryInit e w = Returned tt w1 l1 ->
    averaging e w1 = Returned tt w2 l2 ->
    lowBattery e w2 = Returned tt w3 l3 ->
    events e w3 = Returned b w4 l4 ->
    render w4 = Returned tt w5 l5 ->
    Phases e w (Returned tt w5 (l1 ++ l2 ++ l3 ++ l4 ++ l5))
| PhasesRestart w1 l1 w2 l2 w3 l3 :
    retryInit e w = Returned tt w1 l1 ->
    averaging e w1 = Returned tt w2 l2 ->
    lowBattery e w2 = Rebooted w3 l3 ->
    Phases e w (Rebooted w3 (l1 ++ l2 ++ l3)).


(** * Properties *)

(** ** Symbolic execution of firmware code *)

Ltac fw_eval :=
  cbv beta zeta iota delta
    [bind ret gets modify emit when restart millis prepend world effects
     rebooted app];
  cbn [now initSuccess lastBatteryAveraging avgVolt avgSOC currentScreenID
       currentScreen nextInst eventFlag eventTime lastEventProcessing
       isDisplayOn displayInitialized currentScreenRotation
       set_now set_initSuccess set_lastBatteryAveraging set_avgVolt
       set_avgSOC set_currentScreenID set_currentScreen set_nextInst
       set_eventFlag set_eventTime set_lastEventProcessing set_isDisplayOn
       set_displayInitialized set_currentScreenRotation set_lastUpdate
       inst kind lastUpdate negb andb orb].

Ltac split_cond c :=
  lazymatch c with
  | negb ?c' => split_cond c'
  | andb ?a _ => split_cond a
  | orb ?a _ => split_cond a
  | _ => destruct c eqn:?
  end.

Ltac fw_case :=
  match goal with
  | |- context [if ?c then _ else _] =>
      lazymatch type of c with bool => split_cond c end
  | |- context [match ?c with Some _ => _ | None => _ end] =>
      lazymatch type of c with option _ => destruct c eqn:? end
  end.

Ltac fw_run := repeat (fw_eval; try fw_case).

Ltac fw_unfold :=
  unfold service, events, dispatch, swipe, rotateScreen, enterSetup,
    lowBattery, averaging, retryInit, render, getUserEvent, initGesture,
    disableSensors, applyPeriod, redrawBar, activate, createScreen,
    deleteScreen, deactivate, displayOff, displayOn, initDisplay, delay,
    onGesture.

Section Properties.

Context `{cfg : Config}.

(** *** The monad *)

Lemma prepend_world {A : Type} l (o : Out A) : world (prepend l o) = world o.
Proof. destruct o; reflexivity. Qed.

Lemma prepend_effects {A : Type} l (o : Out A) :
  effects (prepend l o) = l ++ effects o.
Proof. destruct o; reflexivity. Qed.

Lemma prepend_rebooted {A : Type} l (o : Out A) :
  rebooted (prepend l o) = rebooted o.
Proof. destruct o; reflexivity. Qed.

(** *** Counting recorded calls *)

Lemma count_app p l1 l2 : count p (l1 ++ l2) = (count p l1 + count p l2)%nat.
Proof. unfold count. rewrite filter_app, length_app. reflexivity. Qed.

(** *** Each phase returns; only the low-battery phase can restart *)

Lemma onGesture_returns w : rebooted (onGesture w) = false.
Proof. fw_unfold. fw_run; reflexivity. Qed.

Lemma retryInit_returns e w : rebooted (retryInit e w) = false.
Proof.
  unfold retryInit, initGesture, initGestureLoop. fw_unfold.
  fw_run; reflexivity.
Qed.

Lemma averaging_returns e w : rebooted (averaging e w) = false.
Proof. fw_unfold. fw_run; reflexivity. Qed.

Lemma events_returns e w : rebooted (events e w) = false.
Proof. fw_unfold. fw_run; reflexivity. Qed.

Lemma render_returns w : rebooted (render w) = false.
Proof. fw_unfold. fw_run; reflexivity. Qed.

Lemma service_phases e w : Phases e w (service e w).
Proof.
  destruct (retryInit e w) as [[] w1 l1|w1 l1] eqn:H1.
  2:{ pose proof (retryInit_returns e w) as R. rewrite H1 in R. discriminate. }
  destruct (averaging e w1) as [[] w2 l2|w2 l2] eqn:H2.
  2:{ pose proof (averaging_returns e w1) as R. rewrite H2 in R. discriminate. }
  destruct (lowBattery e w2) as [[] w3 l3|w3 l3] eqn:H3.
  - destruct (events e w3) as [b w4 l4|w4 l4] eqn:H4.
    2:{ pose proof (events_returns e w3) as R. rewrite H4 in R. discriminate. }
    destruct (render w4) as [[] w5 l5|w5 l5] eqn:H5.
    2:{ pose proof (render_returns w4) as R. rewrite H5 in R. discriminate. }
    replace (service e w) with (Returned tt w5 (l1 ++ l2 ++ l3 ++ l4 ++ l5)).
    + eapply PhasesDone; eassumption.
    + unfold service, bind. rewrite H1. simpl. rewrite H2. simpl.
      rewrite H3. simpl. rewrite H4. simpl. rewrite H5. simpl. reflexivity.
  - replace (service e w) with (@Rebooted unit w3 (l1 ++ l2 ++ l3)).
    + eapply PhasesRestart; eassumption.
    + unfold service, bind. rewrite H1. simpl. rewrite H2. simpl.
      rewrite H3. simpl. reflexivity.
Qed.


(** *** What each phase leaves alone *)

Lemma world_eta w :
  w = mkWorld (now w) (initSuccess w) (lastBatteryAveraging w) (avgVolt w)
        (avgSOC w) (currentScreenID w) (currentScreen w) (nextInst w)
        (eventFlag w) (eventTime w) (lastEventProcessing w) (isDisplayOn w)
        (displayInitialized w) (currentScreenRotation w).
Proof. destruct w; reflexivity. Qed.

Lemma screen_eta s : s = mkScreen (inst s) (kind s) (lastUpdate s).
Proof. destruct s; reflexivity. Qed.

Lemma retryInit_ready e w :
  sensorReady w -> retryInit e w = Returned tt w [].
Proof.
  intros [H|H]; unfold retryInit.
  - rewrite H. reflexivity.
  - destruct ENABLE_SENSORS; [|reflexivity].
    fw_eval. rewrite H. reflexivity.
Qed.

(** The retry only touches the sensor flag, the clock and the latch. *)
Lemma retryInit_world e w :
  exists n i f t,
    world (retryInit e w) =
    set_eventTime t (set_eventFlag f (set_initSuccess i (set_now n w))).
Proof.
  exists (now (world (retryInit e w))), (initSuccess (world (retryInit e w))),
    (eventFlag (world (retryInit e w))), (eventTime (world (retryInit e w))).
  rewrite (world_eta (world (retryInit e w))).
  unfold retryInit, initGesture, initGestureLoop. fw_unfold.
  fw_run; reflexivity.
Qed.

Lemma retryInit_effects e w :
  filter isLifecycle (effects (retryInit e w)) = [] /\
  filter isAnyDisable (effects (retryInit e w)) = [] /\
  filter isReadGesture (effects (retryInit e w)) = [] /\
  filter isBacklight (effects (retryInit e w)) = [].
Proof.
  unfold retryInit, initGesture, initGestureLoop. fw_unfold.
  fw_run; repeat split; reflexivity.
Qed.

(** The averaging only touches the two filters and its timestamp. *)
Lemma averaging_world e w :
  exists t v s,
    world (averaging e w) =
    set_avgSOC s (set_avgVolt v (set_lastBatteryAveraging t w)).
Proof.
  exists (lastBatteryAveraging (world (averaging e w))),
    (avgVolt (world (averaging e w))), (avgSOC (world (averaging e w))).
  rewrite (world_eta (world (averaging e w))).
  fw_unfold. fw_run; reflexivity.
Qed.

Lemma averaging_effects e w :
  filter isLifecycle (effects (averaging e w)) = [] /\
  filter isAnyDisable (effects (averaging e w)) = [] /\
  filter isReadGesture (effects (averaging e w)) = [] /\
  filter isBacklight (effects (averaging e w)) = [].
Proof. fw_unfold. fw_run; repeat split; reflexivity. Qed.

(** What the averaging does to the state-of-charge filter: nothing, or a
    push of the sample computed from the new averaged voltage. *)
Lemma averaging_soc e w :
  avgSOC (world (averaging e w)) = avgSOC w \/
  avgSOC (world (averaging e w)) =
    push (socSample (getVolt (world (averaging e w)))) (avgSOC w).
Proof.
  fw_unfold. fw_run; [right|left]; reflexivity.
Qed.

(** The refresh only stamps the current screen. *)
Lemma render_world w :
  exists t,
    world (render w) =
    set_currentScreen (set_lastUpdate t (currentScreen w)) w.
Proof.
  exists (lastUpdate (currentScreen (world (render w)))).
  rewrite (world_eta (world (render w))).
  rewrite (screen_eta (currentScreen (world (render w)))).
  fw_unfold. fw_run; reflexivity.
Qed.

Lemma render_effects w :
  filter isLifecycle (effects (render w)) = [] /\
  filter isAnyDisable (effects (render w)) = [] /\
  filter isReadGesture (effects (render w)) = [] /\
  filter isBacklight (effects (render w)) = [].
Proof. fw_unfold. fw_run; repeat split; reflexivity. Qed.

(** *** The low-battery phase *)

(** Entry into LOWBATT: the state and the calls, in program order. *)
Lemma lowBattery_enter e w :
  Qle_bool (getVolt w) VOLT_LOW = true ->
  (currentScreenID w =? LOWBATT_SCREEN) = false ->
  lowBattery e w =
  Returned tt
    (set_currentScreen (mkScreen (nextInst w) LOWBATT_SCREEN 0)
       (set_nextInst (S (nextInst w))
          (set_currentScreenID LOWBATT_SCREEN w)))
    (Syslog LOG_CRIT ::
     replacement (inst (currentScreen w)) LOWBATT_SCREEN (nextInst w) ++
     (if isFullScreen LOWBATT_SCREEN then [] else [DrawBar true]) ++
     [SetPeriod (getRefreshPeriod LOWBATT_SCREEN)] ++
     (if KILL_INSTALLED then [] else map Disable sensorTasks)).
Proof.
  intros Hv Hid. fw_unfold. fw_eval. rewrite Hv. fw_eval. rewrite Hid.
  fw_run; reflexivity.
Qed.

Lemma lowBattery_stay e w :
  Qle_bool (getVolt w) VOLT_LOW = true ->
  (currentScreenID w =? LOWBATT_SCREEN) = true ->
  lowBattery e w = Returned tt w [].
Proof.
  intros Hv Hid. fw_unfold. fw_eval. rewrite Hv. fw_eval. rewrite Hid.
  reflexivity.
Qed.

Lemma lowBattery_idle e w :
  Qle_bool (getVolt w) VOLT_LOW = false ->
  rebooted (lowBattery e w) = false ->
  lowBattery e w = Returned tt w [].
Proof.
  intros Hv. fw_unfold. fw_eval. rewrite Hv.
  fw_run; intros; try discriminate; reflexivity.
Qed.

(** A restart happens only above the midpoint, in LOWBATT, and before any
    other call on a screen. *)
Lemma lowBattery_restart e w :
  rebooted (lowBattery e w) = true ->
  Qle_bool (getVolt w) VOLT_LOW = false /\
  Qgtb (getVolt w) ((VOLT_HIGH + VOLT_LOW) / 2) = true /\
  currentScreenID w = LOWBATT_SCREEN /\
  currentScreen (world (lowBattery e w)) = currentScreen w /\
  avgSOC (world (lowBattery e w)) = avgSOC w /\
  filter isLifecycle (effects (lowBattery e w)) = [] /\
  filter isAnyDisable (effects (lowBattery e w)) = [] /\
  filter isReadGesture (effects (lowBattery e w)) = [] /\
  filter isBacklight (effects (lowBattery e w)) = [].
Proof.
  fw_unfold. fw_run; intros; try discriminate;
    repeat split; try reflexivity; try assumption;
    apply Z.eqb_eq; assumption.
Qed.

Lemma lowBattery_frame e w :
  avgSOC (world (lowBattery e w)) = avgSOC w /\
  avgVolt (world (lowBattery e w)) = avgVolt w /\
  isDisplayOn (world (lowBattery e w)) = isDisplayOn w /\
  lastEventProcessing (world (lowBattery e w)) = lastEventProcessing w /\
  filter isReadGesture (effects (lowBattery e w)) = [] /\
  filter isBacklight (effects (lowBattery e w)) = [].
Proof. fw_unfold. fw_run; repeat split; reflexivity. Qed.

(** *** The event phase *)

(** The event phase leaves the battery filters alone and disables no task;
    it reads at most one gesture from the sensor; its calls on screens are
    none, the pair of a rotation, or one replacement. *)
Lemma events_summary e w :
  avgSOC (world (events e w)) = avgSOC w /\
  avgVolt (world (events e w)) = avgVolt w /\
  filter isAnyDisable (effects (events e w)) = [] /\
  (count isReadGesture (effects (events e w)) <= 1)%nat /\
  (filter isLifecycle (effects (events e w)) = [] \/
   filter isLifecycle (effects (events e w)) =
     [ScreenDeactivate (inst (currentScreen w));
      ScreenActivate (inst (currentScreen w))] \/
   exists id,
     filter isLifecycle (effects (events e w)) =
       replacement (inst (currentScreen w)) id (nextInst w)).
Proof.
  fw_unfold. fw_run;
    (split; [reflexivity|split; [reflexivity|split; [reflexivity|split]]]);
    try (unfold count; simpl; lia);
    first [ left; reflexivity
          | right; left; reflexivity
          | right; right; eexists; reflexivity ].
Qed.

(** In LOWBATT no event changes the screen. *)
Lemma events_lowbatt e w :
  currentScreenID w = LOWBATT_SCREEN ->
  currentScreenID (world (events e w)) = LOWBATT_SCREEN /\
  currentScreen (world (events e w)) = currentScreen w /\
  filter isLifecycle (effects (events e w)) = [].
Proof.
  intros Hid. pose proof (proj2 (Z.eqb_eq _ _) Hid) as Hid'.
  fw_unfold.
  fw_run; repeat split; try reflexivity; try assumption; congruence.
Qed.

(** A pending event inside the debounce second: nothing is done. *)
Lemma events_suppressed e w :
  eventFlag w = true ->
  usub (wrap32 (now w)) (lastEventProcessing w) <= 1000 ->
  events e w = Returned false w [].
Proof.
  intros Hf Ht. unfold events. fw_eval. rewrite Hf.
  destruct (usub (wrap32 (now w)) (lastEventProcessing w) >? 1000) eqn:E.
  - apply Z.gtb_gt in E. lia.
  - reflexivity.
Qed.

(** A pending event past the debounce second: the latch is reset, the
    timestamp taken and the gesture read once. *)
Lemma events_honoured e w :
  eventFlag w = true ->
  usub (wrap32 (now w)) (lastEventProcessing w) > 1000 ->
  count isReadGesture (effects (events e w)) = 1%nat /\
  lastEventProcessing (world (events e w)) = wrap32 (now w) /\
  (quiet e -> eventFlag (world (events e w)) = false).
Proof.
  intros Hf Ht. apply Z.gt_lt, Z.gtb_lt in Ht.
  fw_unfold. fw_eval. rewrite Hf. fw_eval. rewrite Ht.
  fw_run; (split; [reflexivity|split; [reflexivity|]]); intros Hq;
    try reflexivity;
    match goal with
    | H : irqDuring e ?s = Some _ |- _ => rewrite (Hq s) in H; discriminate
    end.
Qed.


(** In LOWBATT with the display on, an honoured event is read and nothing
    else is done with it, whatever it is. *)
Lemma events_lowbatt_display_on e w :
  eventFlag w = true ->
  usub (wrap32 (now w)) (lastEventProcessing w) > 1000 ->
  isDisplayOn w = true ->
  currentScreenID w = LOWBATT_SCREEN ->
  events e w =
  Returned true
    (set_eventFlag false (set_lastEventProcessing (wrap32 (now w)) w))
    [ReadGesture].
Proof.
  intros Hf Ht Hon Hid. apply Z.gt_lt, Z.gtb_lt in Ht. apply Z.eqb_eq in Hid.
  unfold events, getUserEvent, dispatch.
  fw_eval. rewrite Hf. fw_eval. rewrite Ht. fw_eval. rewrite Hon. fw_eval.
  rewrite Hid. reflexivity.
Qed.

(** When the low-battery phase returns, the clock and the latch are as
    before. *)
Lemma lowBattery_quiet e w :
  rebooted (lowBattery e w) = false ->
  now (world (lowBattery e w)) = now w /\
  eventFlag (world (lowBattery e w)) = eventFlag w /\
  eventTime (world (lowBattery e w)) = eventTime w.
Proof.
  fw_unfold. fw_run; intros; try discriminate; repeat split; reflexivity.
Qed.

(** The outcomes of the low-battery phase. *)
Lemma lowBattery_cases e w :
  lowBattery e w = Returned tt w [] \/
  (Qle_bool (getVolt w) VOLT_LOW = true /\
   (currentScreenID w =? LOWBATT_SCREEN) = false) \/
  rebooted (lowBattery e w) = true.
Proof.
  destruct (Qle_bool (getVolt w) VOLT_LOW) eqn:Hv.
  - destruct (currentScreenID w =? LOWBATT_SCREEN) eqn:Hid.
    + left. apply lowBattery_stay; assumption.
    + right; left. split; reflexivity.
  - destruct (rebooted (lowBattery e w)) eqn:Hr.
    + right; right. reflexivity.
    + left. apply lowBattery_idle; assumption.
Qed.

(** In LOWBATT with the display on, a decoded event changes nothing but
    the local variable [eventID]. *)
Lemma dispatch_lowbatt e eventID w :
  isDisplayOn w = true ->
  currentScreenID w = LOWBATT_SCREEN ->
  dispatch e eventID w =
  Returned (if negb (eventID =? GES_FORWARD) then GES_NONE else eventID) w [].
Proof.
  intros Hon Hid. apply Z.eqb_eq in Hid. unfold dispatch.
  fw_eval. rewrite Hon. fw_eval. rewrite Hid. reflexivity.
Qed.

(** Outside LOWBATT with the display on, "forward" switches it off. *)
Lemma dispatch_forward e w :
  isDisplayOn w = true ->
  currentScreenID w <> LOWBATT_SCREEN ->
  isDisplayOn (world (dispatch e GES_FORWARD w)) = false /\
  In (Backlight false) (effects (dispatch e GES_FORWARD w)).
Proof.
  intros Hon Hid. apply Z.eqb_neq in Hid. unfold dispatch.
  fw_eval. rewrite Hon. fw_eval. rewrite Hid, Z.eqb_refl.
  fw_unfold. fw_run; split; simpl; auto.
Qed.

(** *** Bookkeeping for the phases of a tick *)

(** [phase_fact H E]: the fact [E] about a phase, read through the equation
    [H] that names the result of the phase. *)
Ltac phase_fact H E :=
  let X := fresh "F" in
  pose proof E as X; rewrite ?H in X; cbn [world effects rebooted] in X.

Lemma afterAveraging_eq e w w1 l1 w2 l2 :
  retryInit e w = Returned tt w1 l1 ->
  averaging e w1 = Returned tt w2 l2 ->
  afterAveraging e w = w2.
Proof.
  intros H1 H2. unfold afterAveraging. rewrite H1. simpl. rewrite H2.
  reflexivity.
Qed.

(** Before the low-battery test, the screen is the one the tick started
    with. *)
Lemma afterAveraging_screen e w :
  currentScreenID (afterAveraging e w) = currentScreenID w /\
  currentScreen (afterAveraging e w) = currentScreen w /\
  nextInst (afterAveraging e w) = nextInst w /\
  isDisplayOn (afterAveraging e w) = isDisplayOn w /\
  lastEventProcessing (afterAveraging e w) = lastEventProcessing w.
Proof.
  unfold afterAveraging.
  destruct (averaging_world e (world (retryInit e w))) as (t & v & s & ->).
  destruct (retryInit_world e w) as (n & i & f & t' & ->).
  repeat split.
Qed.

Lemma afterAveraging_ready e w :
  sensorReady w ->
  now (afterAveraging e w) = now w /\
  eventFlag (afterAveraging e w) = eventFlag w /\
  eventTime (afterAveraging e w) = eventTime w.
Proof.
  intros Hr. unfold afterAveraging. rewrite (retryInit_ready e w Hr). simpl.
  destruct (averaging_world e w) as (t & v & s & ->).
  repeat split.
Qed.

Lemma count_isDisable t l :
  count (isDisable t) l = count (isDisable t) (filter isAnyDisable l).
Proof.
  unfold count. induction l as [|x l IH]; [reflexivity|].
  destruct x; simpl; try exact IH.
  destruct (Task_eq_dec t t0); simpl; rewrite IH; reflexivity.
Qed.

(** *** Ticks in LOWBATT *)

Lemma tick_in_lowbatt e w :
  currentScreenID w = LOWBATT_SCREEN ->
  (voltageSeen e w <= VOLT_LOW)%Q ->
  rebooted (service e w) = false /\
  currentScreenID (world (service e w)) = LOWBATT_SCREEN /\
  filter isLifecycle (effects (service e w)) = [] /\
  filter isAnyDisable (effects (service e w)) = [].
Proof.
  intros Hid Hlow.
  destruct (afterAveraging_screen e w) as (Sid & _).
  unfold voltageSeen in Hlow. apply Qle_bool_iff in Hlow.
  destruct (service_phases e w)
    as [w1 l1 w2 l2 w3 l3 b w4 l4 w5 l5 H1 H2 H3 H4 H5
       |w1 l1 w2 l2 w3 l3 H1 H2 H3];
    rewrite (afterAveraging_eq e w _ _ _ _ H1 H2) in *.
  - rewrite lowBattery_stay in H3
      by (try assumption; apply Z.eqb_eq; congruence).
    injection H3 as <- <-.
    phase_fact H1 (retryInit_effects e w).
    phase_fact H2 (averaging_effects e w1).
    phase_fact H4 (events_lowbatt e w2).
    phase_fact H4 (events_summary e w2).
    phase_fact H5 (render_world w4).
    phase_fact H5 (render_effects w4).
    destruct F as (Ilc & Idis & _), F0 as (Alc & Adis & _).
    destruct F1 as (Eid & _ & Elc); [congruence|].
    destruct F2 as (_ & _ & Edis & _), F3 as (t & ->).
    destruct F4 as (Rlc & Rdis & _).
    cbn [world effects rebooted]. repeat split.
    + exact Eid.
    + rewrite !filter_app, Ilc, Alc, Elc, Rlc. reflexivity.
    + rewrite !filter_app, Idis, Adis, Edis, Rdis. reflexivity.
  - phase_fact H3 (lowBattery_restart e w2).
    destruct F as (Hv & _); [reflexivity|]. congruence.
Qed.

(** *** Runs in LOWBATT *)

Lemma run_cons s rest w :
  rebooted (step s w) = false ->
  run (s :: rest) w = prepend (effects (step s w)) (run rest (world (step s w))).
Proof.
  intros H. cbn [run]. unfold bind.
  destruct (step s w) as [[] w' l|w' l]; [reflexivity|discriminate].
Qed.

Lemma onGesture_frame w :
  currentScreenID (world (onGesture w)) = currentScreenID w /\
  filter isLifecycle (effects (onGesture w)) = [] /\
  filter isAnyDisable (effects (onGesture w)) = [].
Proof. fw_unfold. fw_run; repeat split; reflexivity. Qed.

Lemma run_in_lowbatt steps :
  forall w,
    currentScreenID w = LOWBATT_SCREEN ->
    lowThroughout steps w ->
    rebooted (run steps w) = false /\
    currentScreenID (world (run steps w)) = LOWBATT_SCREEN /\
    filter isLifecycle (effects (run steps w)) = [] /\
    filter isAnyDisable (effects (run steps w)) = [].
Proof.
  induction steps as [|s rest IH]; intros w Hid Hlow.
  - repeat split; assumption.
  - destruct Hlow as (Hs & Hrest).
    assert (Hstep : rebooted (step s w) = false /\
                    currentScreenID (world (step s w)) = LOWBATT_SCREEN /\
                    filter isLifecycle (effects (step s w)) = [] /\
                    filter isAnyDisable (effects (step s w)) = []).
    { destruct s as [|ms|e]; cbn [step].
      - destruct (onGesture_frame w) as (-> & -> & ->).
        rewrite onGesture_returns. repeat split; assumption.
      - repeat split; assumption.
      - apply tick_in_lowbatt; assumption. }
    destruct Hstep as (Hr & Hid' & Hlc & Hdis).
    destruct (IH _ Hid' Hrest) as (Rr & Rid & Rlc & Rdis).
    rewrite (run_cons s rest w Hr).
    rewrite prepend_rebooted, prepend_world, prepend_effects, !filter_app.
    rewrite Hlc, Hdis, Rlc, Rdis. repeat split; assumption.
Qed.

(** C1: when the averaged voltage is at or below VOLT_LOW and the current
    screen is not LOWBATT, the tick deactivates and destroys the current
    screen, constructs and activates the LOWBATT screen and calls disable()
    once on each of the nine sensor tasks; from then on, a run whose ticks
    all see low voltage makes no further call on a screen's life cycle and
    no further disable call, and stays in LOWBATT.  The disable calls are
    those of the block compiled when KILL_INSTALLED is not defined. *)
Theorem lowbatt_transition_once
    (e : Env) (w : World)
    (Hkill : KILL_INSTALLED = false)
    (Hid : currentScreenID w <> LOWBATT_SCREEN)
    (Hlow : (voltageSeen e w <= VOLT_LOW)%Q) :
  let o := service e w in
  rebooted o = false /\
  currentScreenID (world o) = LOWBATT_SCREEN /\
  inst (currentScreen (world o)) = nextInst w /\
  kind (currentScreen (world o)) = LOWBATT_SCREEN /\
  filter isLifecycle (effects o) =
    replacement (inst (currentScreen w)) LOWBATT_SCREEN (nextInst w) /\
  filter isAnyDisable (effects o) = map Disable sensorTasks /\
  (forall t, count (isDisable t) (effects o) = 1%nat) /\
  forall steps : list Step,
    lowThroughout steps (world o) ->
    let o' := run steps (world o) in
    rebooted o' = false /\
    currentScreenID (world o') = LOWBATT_SCREEN /\
    filter isLifecycle (effects o') = [] /\
    (forall t, count (isDisable t) (effects o') = 0%nat).
Proof.
  intros o.
  assert (Hmain :
    rebooted o = false /\
    currentScreenID (world o) = LOWBATT_SCREEN /\
    inst (currentScreen (world o)) = nextInst w /\
    kind (currentScreen (world o)) = LOWBATT_SCREEN /\
    filter isLifecycle (effects o) =
      replacement (inst (currentScreen w)) LOWBATT_SCREEN (nextInst w) /\
    filter isAnyDisable (effects o) = map Disable sensorTasks).
  { subst o.
    destruct (afterAveraging_screen e w) as (Sid & Ssc & Sni & _).
    unfold voltageSeen in Hlow. apply Qle_bool_iff in Hlow.
    destruct (service_phases e w)
      as [w1 l1 w2 l2 w3 l3 b w4 l4 w5 l5 H1 H2 H3 H4 H5
         |w1 l1 w2 l2 w3 l3 H1 H2 H3];
      rewrite (afterAveraging_eq e w _ _ _ _ H1 H2) in *.
    - rewrite lowBattery_enter in H3
        by (try assumption; apply Z.eqb_neq; congruence).
      injection H3 as <- <-.
      phase_fact H1 (retryInit_effects e w).
      phase_fact H2 (averaging_effects e w1).
      match type of H4 with events e ?w3 = _ =>
        phase_fact H4 (events_lowbatt e w3);
        phase_fact H4 (events_summary e w3)
      end.
      phase_fact H5 (render_world w4).
      phase_fact H5 (render_effects w4).
      destruct F as (Ilc & Idis & _), F0 as (Alc & Adis & _).
      destruct F1 as (Eid & Esc & Elc); [reflexivity|].
      destruct F2 as (_ & _ & Edis & _).
      destruct F3 as (t & ->).
      destruct F4 as (Rlc & Rdis & _).
      cbn in Esc. rewrite Sni in Esc.
      cbn [world effects rebooted]. rewrite Hkill, Ssc, Sni.
      repeat split.
      + exact Eid.
      + cbn. rewrite Esc. reflexivity.
      + cbn. rewrite Esc. reflexivity.
      + rewrite !filter_app, Ilc, Alc, Elc, Rlc.
        destruct (isFullScreen LOWBATT_SCREEN); reflexivity.
      + rewrite !filter_app, Idis, Adis, Edis, Rdis.
        destruct (isFullScreen LOWBATT_SCREEN); reflexivity.
    - phase_fact H3 (lowBattery_restart e w2).
      destruct F as (Hv & _); [reflexivity|]. congruence. }
  destruct Hmain as (Hr & Hid' & Hin & Hk & Hlc & Hdis).
  repeat split; try assumption.
  - intros t. rewrite count_isDisable, Hdis. destruct t; reflexivity.
  - apply run_in_lowbatt; assumption.
  - apply run_in_lowbatt; assumption.
  - apply run_in_lowbatt; assumption.
  - intros t. rewrite count_isDisable.
    destruct (run_in_lowbatt steps (world o) Hid' H) as (_ & _ & _ & ->).
    reflexivity.
Qed.

(** *** Ticks with a pending event *)

(** With the sensor ready, the event phase of a tick that returns starts
    from the clock, the latch and the display state the tick started with. *)
Lemma event_phase_entry e w w1 l1 w2 l2 w3 l3 :
  sensorReady w ->
  retryInit e w = Returned tt w1 l1 ->
  averaging e w1 = Returned tt w2 l2 ->
  lowBattery e w2 = Returned tt w3 l3 ->
  l1 = [] /\
  now w3 = now w /\ eventFlag w3 = eventFlag w /\
  eventTime w3 = eventTime w /\
  lastEventProcessing w3 = lastEventProcessing w /\
  isDisplayOn w3 = isDisplayOn w /\
  getSoC w3 = socSeen e w /\
  filter isReadGesture l2 = [] /\ filter isReadGesture l3 = [] /\
  filter isBacklight l2 = [] /\ filter isBacklight l3 = [].
Proof.
  intros Hr H1 H2 H3.
  pose proof (afterAveraging_eq e w _ _ _ _ H1 H2) as Ha.
  destruct (afterAveraging_ready e w Hr) as (An & Af & At).
  destruct (afterAveraging_screen e w) as (_ & _ & _ & Aon & Alp).
  rewrite Ha in *.
  rewrite (retryInit_ready e w Hr) in H1. injection H1 as <- <-.
  phase_fact H2 (averaging_effects e w).
  phase_fact H3 (lowBattery_quiet e w2).
  phase_fact H3 (lowBattery_frame e w2).
  destruct F as (_ & _ & Ard & Abl).
  destruct F0 as (Ln & Lf & Lt); [reflexivity|].
  destruct F1 as (Lsoc & _ & Lon & Llp & Lrd & Lbl).
  unfold socSeen. rewrite Ha. unfold getSoC. rewrite Lsoc.
  repeat split; congruence.
Qed.

(** The refresh phase keeps the latch, the timestamps and the display
    state. *)
Lemma render_keeps w :
  eventFlag (world (render w)) = eventFlag w /\
  eventTime (world (render w)) = eventTime w /\
  lastEventProcessing (world (render w)) = lastEventProcessing w /\
  isDisplayOn (world (render w)) = isDisplayOn w /\
  currentScreenID (world (render w)) = currentScreenID w /\
  avgSOC (world (render w)) = avgSOC w.
Proof. destruct (render_world w) as (t & ->). repeat split. Qed.

Lemma tick_honoured e w :
  sensorReady w ->
  eventFlag w = true ->
  usub (wrap32 (now w)) (lastEventProcessing w) > 1000 ->
  rebooted (service e w) = false ->
  count isReadGesture (effects (service e w)) = 1%nat /\
  lastEventProcessing (world (service e w)) = wrap32 (now w) /\
  (quiet e -> eventFlag (world (service e w)) = false).
Proof.
  intros Hr Hf Ht Hret.
  destruct (service_phases e w)
    as [w1 l1 w2 l2 w3 l3 b w4 l4 w5 l5 H1 H2 H3 H4 H5
       |w1 l1 w2 l2 w3 l3 H1 H2 H3]; [|discriminate].
  destruct (event_phase_entry e w _ _ _ _ _ _ Hr H1 H2 H3)
    as (-> & En & Ef & Et & Elp & Eon & _ & Erd2 & Erd3 & _).
  phase_fact H4 (events_honoured e w3).
  destruct F as (Hrd & Hlp & Hq); [congruence|rewrite En, Elp; exact Ht|].
  phase_fact H5 (render_keeps w4). phase_fact H5 (render_effects w4).
  destruct F as (Rf & Rt & Rlp & Ron & _), F0 as (_ & _ & Rrd & _).
  cbn [world effects app] in *. unfold count in *.
  rewrite !filter_app, Rrd, Erd2, Erd3.
  rewrite app_nil_r. cbn [app].
  repeat split; try congruence.
  intros Hquiet. rewrite Rf. auto.
Qed.

Lemma service_reads e w :
  (count isReadGesture (effects (service e w)) <= 1)%nat.
Proof.
  destruct (service_phases e w)
    as [w1 l1 w2 l2 w3 l3 b w4 l4 w5 l5 H1 H2 H3 H4 H5
       |w1 l1 w2 l2 w3 l3 H1 H2 H3];
    phase_fact H1 (retryInit_effects e w);
    phase_fact H2 (averaging_effects e w1);
    phase_fact H3 (lowBattery_frame e w2);
    destruct F as (_ & _ & Ird & _), F0 as (_ & _ & Ard & _),
             F1 as (_ & _ & _ & _ & Lrd & _);
    cbn [effects]; unfold count.
  - phase_fact H4 (events_summary e w3). phase_fact H5 (render_effects w4).
    destruct F as (_ & _ & _ & Erd & _), F0 as (_ & _ & Rrd & _).
    unfold count in Erd.
    rewrite !filter_app, Ird, Ard, Lrd, Rrd, app_nil_r. exact Erd.
  - rewrite !filter_app, Ird, Ard, Lrd. simpl. lia.
Qed.

(** C2: the latch holds at most one event.  An interrupt that finds the
    flag set changes nothing: the flag, the event timestamp and the state
    are as before and no forced dispatch is requested.  After any interrupt
    the flag is set, so that a second interrupt before the next tick, at
    whatever time, is lost: the run with two interrupts is the run with
    one, and its tick reads one gesture from the sensor, not two. *)
Theorem latch_holds_one_event (e : Env) (w : World) :
  (eventFlag w = true -> onGesture w = Returned tt w []) /\
  eventFlag (world (onGesture w)) = true /\
  (forall d : Z,
     run [Interrupt; Elapse d; Interrupt; Tick e] w =
     run [Interrupt; Elapse d; Tick e] w) /\
  (forall d : Z,
     (count isReadGesture
        (effects (run [Interrupt; Elapse d; Interrupt; Tick e] w)) <= 1)%nat) /\
  (forall d : Z,
     let w1 := world (run [Interrupt; Elapse d; Interrupt] w) in
     sensorReady w ->
     usub (wrap32 (now w1)) (lastEventProcessing w1) > 1000 ->
     rebooted (service e w1) = false ->
     count isReadGesture
       (effects (run [Interrupt; Elapse d; Interrupt; Tick e] w)) = 1%nat).
Proof.
  assert (Hnoop : forall w', eventFlag w' = true ->
                             onGesture w' = Returned tt w' []).
  { intros w' H. unfold onGesture. fw_eval. rewrite H. reflexivity. }
  assert (Hset : forall w', eventFlag (world (onGesture w')) = true).
  { intros w'. unfold onGesture. fw_run; first [reflexivity|assumption]. }
  assert (Hrun : forall d,
     run [Interrupt; Elapse d; Interrupt; Tick e] w =
     prepend (effects (onGesture w))
       (service e (set_now (now (world (onGesture w)) + d)
                     (world (onGesture w))))).
  { intros d. cbn [run step]. unfold bind at 1.
    pose proof (Hset w) as Hs.
    destruct (onGesture w) as [[] w' l|w' l] eqn:Hg.
    2:{ pose proof (onGesture_returns w) as R. rewrite Hg in R.
        discriminate. }
    cbn [world effects] in *. f_equal.
    unfold bind at 1. unfold modify at 1. cbn [prepend].
    unfold bind at 1. rewrite Hnoop by exact Hs. cbn [prepend app].
    unfold bind, ret.
    destruct (service e (set_now (now w' + d) w')) as [[] w'' l''|w'' l''];
      cbn [prepend]; rewrite ?app_nil_r; reflexivity. }
  assert (Hrun1 : forall d,
     run [Interrupt; Elapse d; Tick e] w =
     prepend (effects (onGesture w))
       (service e (set_now (now (world (onGesture w)) + d)
                     (world (onGesture w))))).
  { intros d. cbn [run step]. unfold bind at 1.
    destruct (onGesture w) as [[] w' l|w' l] eqn:Hg.
    2:{ pose proof (onGesture_returns w) as R. rewrite Hg in R.
        discriminate. }
    cbn [world effects] in *. f_equal.
    unfold bind at 1. unfold modify at 1. cbn [prepend].
    unfold bind, ret.
    destruct (service e (set_now (now w' + d) w')) as [[] w'' l''|w'' l''];
      cbn [prepend]; rewrite ?app_nil_r; reflexivity. }
  assert (Hforce : count isReadGesture (effects (onGesture w)) = 0%nat).
  { unfold onGesture. fw_run; reflexivity. }
  assert (Hw1 : forall d,
     world (run [Interrupt; Elapse d; Interrupt] w) =
     set_now (now (world (onGesture w)) + d) (world (onGesture w))).
  { intros d. cbn [run step]. unfold bind at 1.
    pose proof (Hset w) as Hs.
    destruct (onGesture w) as [[] w' l|w' l] eqn:Hg.
    2:{ pose proof (onGesture_returns w) as R. rewrite Hg in R.
        discriminate. }
    cbn [world effects] in *. rewrite prepend_world.
    unfold bind at 1. unfold modify at 1. rewrite prepend_world.
    unfold bind at 1. rewrite Hnoop by exact Hs. reflexivity. }
  repeat split.
  - apply Hnoop.
  - apply Hset.
  - intros d. rewrite Hrun, Hrun1. reflexivity.
  - intros d. rewrite Hrun, prepend_effects, count_app, Hforce.
    apply service_reads.
  - intros d w1 Hr Ht Hret. subst w1. rewrite Hw1 in Ht, Hret.
    rewrite Hrun, prepend_effects, count_app, Hforce.
    apply tick_honoured; try assumption.
    + destruct Hr as [Hr|Hr]; [left; exact Hr|right].
      cbn. unfold onGesture. fw_run; exact Hr.
    + cbn. apply Hset.
Qed.

(** While the latch is set the retry of the sensor initialisation leaves
    the latch and the event timestamp alone, whatever interrupts fire in
    its waits. *)
Lemma retryInit_latched e w :
  eventFlag w = true ->
  eventFlag (world (retryInit e w)) = true /\
  eventTime (world (retryInit e w)) = eventTime w.
Proof.
  intros Hf. revert Hf.
  unfold retryInit, initGesture, initGestureLoop. fw_unfold.
  fw_run; intros Hf; try discriminate; split; first [reflexivity|assumption].
Qed.

(** The event phase of a tick that found the latch set and returns: the
    clock is the one the low-battery test saw, the latch is still set, the
    timestamps and the display state are those the tick started with. *)
Lemma event_phase_latched e w w1 l1 w2 l2 w3 l3 :
  eventFlag w = true ->
  retryInit e w = Returned tt w1 l1 ->
  averaging e w1 = Returned tt w2 l2 ->
  lowBattery e w2 = Returned tt w3 l3 ->
  now w3 = now (afterAveraging e w) /\
  eventFlag w3 = true /\
  eventTime w3 = eventTime w /\
  lastEventProcessing w3 = lastEventProcessing w /\
  isDisplayOn w3 = isDisplayOn w /\
  filter isReadGesture l1 = [] /\
  filter isReadGesture l2 = [] /\
  filter isReadGesture l3 = [].
Proof.
  intros Hf H1 H2 H3.
  pose proof (afterAveraging_eq e w _ _ _ _ H1 H2) as Ha.
  destruct (afterAveraging_screen e w) as (_ & _ & _ & Aon & Alp).
  rewrite Ha in *.
  phase_fact H1 (retryInit_latched e w Hf). destruct F as (Rf & Rt).
  phase_fact H1 (retryInit_effects e w). destruct F as (_ & _ & Rrd & _).
  phase_fact H2 (averaging_world e w1). destruct F as (t & v & s & Hw2).
  phase_fact H2 (averaging_effects e w1). destruct F as (_ & _ & Ard & _).
  phase_fact H3 (lowBattery_quiet e w2).
  phase_fact H3 (lowBattery_frame e w2).
  destruct F as (Ln & Lf & Lt); [reflexivity|].
  destruct F0 as (_ & _ & Lon & Llp & Lrd & _).
  assert (Af : eventFlag w2 = true) by (rewrite Hw2; exact Rf).
  assert (At : eventTime w2 = eventTime w) by (rewrite Hw2; exact Rt).
  repeat split; congruence.
Qed.

Lemma tick_suppressed_latched e w :
  eventFlag w = true ->
  usub (wrap32 (now (afterAveraging e w))) (lastEventProcessing w) <= 1000 ->
  rebooted (service e w) = false ->
  eventFlag (world (service e w)) = true /\
  count isReadGesture (effects (service e w)) = 0%nat /\
  lastEventProcessing (world (service e w)) = lastEventProcessing w /\
  eventTime (world (service e w)) = eventTime w /\
  isDisplayOn (world (service e w)) = isDisplayOn w.
Proof.
  intros Hf Ht Hret.
  destruct (service_phases e w)
    as [w1 l1 w2 l2 w3 l3 b w4 l4 w5 l5 H1 H2 H3 H4 H5
       |w1 l1 w2 l2 w3 l3 H1 H2 H3]; [|discriminate].
  destruct (event_phase_latched e w _ _ _ _ _ _ Hf H1 H2 H3)
    as (En & Ef & Et & Elp & Eon & Erd1 & Erd2 & Erd3).
  rewrite events_suppressed in H4 by congruence.
  injection H4 as <- <- <-.
  phase_fact H5 (render_keeps w3). phase_fact H5 (render_effects w3).
  destruct F as (Rf & Rt & Rlp & Ron & _), F0 as (_ & _ & Rrd & _).
  cbn [world effects app] in *. unfold count.
  rewrite !filter_app, Rrd, Erd1, Erd2, Erd3.
  repeat split; congruence.
Qed.

Lemma tick_honoured_latched e w :
  eventFlag w = true ->
  usub (wrap32 (now (afterAveraging e w))) (lastEventProcessing w) > 1000 ->
  rebooted (service e w) = false ->
  count isReadGesture (effects (service e w)) = 1%nat /\
  lastEventProcessing (world (service e w)) =
    wrap32 (now (afterAveraging e w)) /\
  (quiet e -> eventFlag (world (service e w)) = false).
Proof.
  intros Hf Ht Hret.
  destruct (service_phases e w)
    as [w1 l1 w2 l2 w3 l3 b w4 l4 w5 l5 H1 H2 H3 H4 H5
       |w1 l1 w2 l2 w3 l3 H1 H2 H3]; [|discriminate].
  destruct (event_phase_latched e w _ _ _ _ _ _ Hf H1 H2 H3)
    as (En & Ef & Et & Elp & Eon & Erd1 & Erd2 & Erd3).
  phase_fact H4 (events_honoured e w3).
  destruct F as (Hrd & Hlp & Hq); [exact Ef|rewrite En, Elp; exact Ht|].
  phase_fact H5 (render_keeps w4). phase_fact H5 (render_effects w4).
  destruct F as (Rf & Rt & Rlp & Ron & _), F0 as (_ & _ & Rrd & _).
  cbn [world effects app] in *. unfold count in *.
  rewrite !filter_app, Rrd, Erd1, Erd2, Erd3, !app_nil_r. cbn [app].
  split; [exact Hrd|]. split; [congruence|].
  intros Hquiet. rewrite Rf. apply Hq. exact Hquiet.
Qed.

(** C3, on the code: a tick that finds the latch set clears it only when
    more than 1000 ms have passed since the last processed event; it then
    takes the timestamp and reads the gesture once.  Inside the debounce
    second the event is not dropped: the tick reads no gesture and leaves
    the latch set, with the event timestamp and the display state as they
    were, so that the event is taken up by a later tick.  The clock is the
    one of the debounce test of line 182: the time at which the tick
    started, for a ready sensor, and the time after the waits of the retry
    of [initGesture] otherwise. *)
Theorem debounced_event_stays_latched
    (e : Env) (w : World)
    (Hflag : eventFlag w = true)
    (Hret : rebooted (service e w) = false) :
  let clock := wrap32 (now (afterAveraging e w)) in
  let w' := world (service e w) in
  let reads := count isReadGesture (effects (service e w)) in
  (usub clock (lastEventProcessing w) <= 1000 ->
   eventFlag w' = true /\ reads = 0%nat /\
   lastEventProcessing w' = lastEventProcessing w /\
   eventTime w' = eventTime w /\
   isDisplayOn w' = isDisplayOn w) /\
  (usub clock (lastEventProcessing w) > 1000 ->
   reads = 1%nat /\
   lastEventProcessing w' = clock /\
   (quiet e -> eventFlag w' = false)) /\
  (sensorReady w -> clock = wrap32 (now w)).
Proof.
  intros clock w' reads. split; [|split].
  - intros Ht. apply tick_suppressed_latched; assumption.
  - intros Ht. apply tick_honoured_latched; assumption.
  - intros Hr. unfold clock.
    rewrite (proj1 (afterAveraging_ready e w Hr)). reflexivity.
Qed.

(** C4, on the code: in LOWBATT with the display on, an honoured "forward"
    event is read from the sensor and then nothing is done with it: the
    display stays on and the backlight is not touched.  (Outside LOWBATT
    the same event switches the display off, [dispatch_forward].) *)
Theorem lowbatt_forward_leaves_display_on
    (e : Env) (w : World)
    (Hready : sensorReady w)
    (Hflag : eventFlag w = true)
    (Htime : usub (wrap32 (now w)) (lastEventProcessing w) > 1000)
    (Hon : isDisplayOn w = true)
    (Hid : currentScreenID w = LOWBATT_SCREEN)
    (Hfwd : remap (currentScreenRotation w) (gesture e) = GES_FORWARD)
    (Hret : rebooted (service e w) = false) :
  isDisplayOn (world (service e w)) = true /\
  filter isBacklight (effects (service e w)) = [] /\
  filter isReadGesture (effects (service e w)) = [ReadGesture].
Proof.
  destruct (service_phases e w)
    as [w1 l1 w2 l2 w3 l3 b w4 l4 w5 l5 H1 H2 H3 H4 H5
       |w1 l1 w2 l2 w3 l3 H1 H2 H3]; [|discriminate].
  destruct (event_phase_entry e w _ _ _ _ _ _ Hready H1 H2 H3)
    as (-> & En & Ef & Et & Elp & Eon & _ & Erd2 & Erd3 & Ebl2 & Ebl3).
  assert (Hid3 : currentScreenID w3 = LOWBATT_SCREEN).
  { destruct (afterAveraging_screen e w) as (Sid & _).
    rewrite (afterAveraging_eq e w _ _ _ _ H1 H2) in Sid.
    destruct (lowBattery_cases e w2) as [Hc|[(Hv & Hc)|Hc]].
    - rewrite Hc in H3. injection H3 as <- <-. congruence.
    - apply Z.eqb_neq in Hc. congruence.
    - rewrite H3 in Hc. discriminate. }
  rewrite events_lowbatt_display_on in H4 by congruence.
  injection H4 as <- <- <-.
  phase_fact H5 (render_keeps (set_eventFlag false
                   (set_lastEventProcessing (wrap32 (now w3)) w3))).
  phase_fact H5 (render_effects (set_eventFlag false
                   (set_lastEventProcessing (wrap32 (now w3)) w3))).
  destruct F as (_ & _ & _ & Ron & _), F0 as (_ & _ & Rrd & Rbl).
  cbn [world effects] in *.
  rewrite !filter_app, Erd2, Erd3, Ebl2, Ebl3, Rrd, Rbl.
  repeat split. cbn in Ron. congruence.
Qed.

(** *** Screen replacement *)

Lemma slotStep_other s x : isLifecycle x = false -> slotStep s x = Some s.
Proof. destruct x, s; cbn; intros H; try discriminate; reflexivity. Qed.

Lemma slotRun_filter l :
  forall s, slotRun s l = slotRun s (filter isLifecycle l).
Proof.
  induction l as [|x l IH]; intros s; [reflexivity|].
  cbn [filter slotRun]. destruct (isLifecycle x) eqn:E.
  - cbn [slotRun]. destruct (slotStep s x); [apply IH|reflexivity].
  - rewrite slotStep_other by exact E. apply IH.
Qed.

Lemma slotRun_replacement old id new :
  slotRun (Holds old true) (replacement old id new) = Some (Holds new true).
Proof. cbn. rewrite !Nat.eqb_refl. reflexivity. Qed.

Lemma slotRun_rotation old :
  slotRun (Holds old true) [ScreenDeactivate old; ScreenActivate old] =
  Some (Holds old true).
Proof. cbn. rewrite !Nat.eqb_refl. reflexivity. Qed.

Lemma enterSetup_lifecycle e w :
  filter isLifecycle (effects (enterSetup e w)) =
  replacement (inst (currentScreen w)) SETUP_SCREEN (nextInst w).
Proof. fw_unfold. fw_run; reflexivity. Qed.

Lemma swipe_lifecycle e eventID w :
  handleSwipe eventID (currentScreenID w) <> currentScreenID w ->
  filter isLifecycle (effects (swipe e eventID w)) =
  replacement (inst (currentScreen w))
    (handleSwipe eventID (currentScreenID w)) (nextInst w).
Proof.
  intros H. apply Z.eqb_neq in H. unfold swipe. fw_eval. rewrite H.
  fw_unfold. fw_run; reflexivity.
Qed.

Lemma service_lifecycle e w :
  filter isLifecycle (effects (service e w)) = [] \/
  filter isLifecycle (effects (service e w)) =
    [ScreenDeactivate (inst (currentScreen w));
     ScreenActivate (inst (currentScreen w))] \/
  exists id,
    filter isLifecycle (effects (service e w)) =
    replacement (inst (currentScreen w)) id (nextInst w).
Proof.
  destruct (afterAveraging_screen e w) as (Sid & Ssc & Sni & _).
  destruct (service_phases e w)
    as [w1 l1 w2 l2 w3 l3 b w4 l4 w5 l5 H1 H2 H3 H4 H5
       |w1 l1 w2 l2 w3 l3 H1 H2 H3];
    rewrite (afterAveraging_eq e w _ _ _ _ H1 H2) in *;
    phase_fact H1 (retryInit_effects e w);
    phase_fact H2 (averaging_effects e w1);
    destruct F as (Ilc & _), F0 as (Alc & _);
    cbn [effects]; rewrite !filter_app, Ilc, Alc; cbn [app].
  - phase_fact H5 (render_effects w4). destruct F as (Rlc & _).
    rewrite Rlc, app_nil_r.
    destruct (lowBattery_cases e w2) as [Hc|[(Hv & Hc)|Hc]].
    + rewrite Hc in H3. injection H3 as <- <-.
      phase_fact H4 (events_summary e w2).
      destruct F as (_ & _ & _ & _ & Elc).
      rewrite Ssc, Sni in Elc. exact Elc.
    + rewrite lowBattery_enter in H3 by assumption.
      injection H3 as <- <-.
      match type of H4 with events e ?w3 = _ =>
        phase_fact H4 (events_lowbatt e w3) end.
      destruct F as (_ & _ & Elc); [reflexivity|].
      right; right. exists LOWBATT_SCREEN.
      cbn [filter isLifecycle]. rewrite !filter_app, Elc, Ssc, Sni.
      destruct (isFullScreen LOWBATT_SCREEN), KILL_INSTALLED; reflexivity.
    + rewrite H3 in Hc. discriminate.
  - phase_fact H3 (lowBattery_restart e w2).
    destruct F as (_ & _ & _ & _ & _ & Llc & _); [reflexivity|].
    rewrite Llc. left. reflexivity.
Qed.

(** C5: a transition that replaces the screen object deactivates and
    destroys the outgoing object before it constructs and activates the
    incoming one.  This is the order of the calls of the forced LOWBATT
    transition, of the entry into setup and of a swipe that changes the
    screen; and the calls a whole tick makes on screens are none, the
    deactivate/activate pair of a rotation on the same object, or exactly
    one such replacement, so that the slot of the current screen never
    holds two objects and no two screens are activated together. *)
Theorem outgoing_screen_torn_down_first (e : Env) (w : World) :
  let old := inst (currentScreen w) in
  let new := nextInst w in
  (Qle_bool (getVolt w) VOLT_LOW = true ->
   currentScreenID w <> LOWBATT_SCREEN ->
   filter isLifecycle (effects (lowBattery e w)) =
     [ScreenDeactivate old; ScreenDelete old;
      ScreenCreate LOWBATT_SCREEN new; ScreenActivate new]) /\
  filter isLifecycle (effects (enterSetup e w)) =
    [ScreenDeactivate old; ScreenDelete old;
     ScreenCreate SETUP_SCREEN new; ScreenActivate new] /\
  (forall eventID : Z,
     handleSwipe eventID (currentScreenID w) <> currentScreenID w ->
     filter isLifecycle (effects (swipe e eventID w)) =
       [ScreenDeactivate old; ScreenDelete old;
        ScreenCreate (handleSwipe eventID (currentScreenID w)) new;
        ScreenActivate new]) /\
  (filter isLifecycle (effects (service e w)) = [] \/
   filter isLifecycle (effects (service e w)) =
     [ScreenDeactivate old; ScreenActivate old] \/
   exists id,
     filter isLifecycle (effects (service e w)) =
       [ScreenDeactivate old; ScreenDelete old; ScreenCreate id new;
        ScreenActivate new]) /\
  exists i, slotRun (Holds old true) (effects (service e w)) =
            Some (Holds i true).
Proof.
  intros old new. subst old new. repeat split.
  - intros Hv Hid. apply Z.eqb_neq in Hid.
    rewrite lowBattery_enter by assumption. cbn [effects filter isLifecycle].
    rewrite !filter_app.
    destruct (isFullScreen LOWBATT_SCREEN), KILL_INSTALLED; reflexivity.
  - apply enterSetup_lifecycle.
  - intros eventID H. apply swipe_lifecycle. exact H.
  - apply service_lifecycle.
  - rewrite slotRun_filter.
    destruct (service_lifecycle e w) as [->|[->|(id & ->)]].
    + eexists. reflexivity.
    + eexists. apply slotRun_rotation.
    + eexists. apply slotRun_replacement.
Qed.

(** *** The backlight timeout *)


(** *** State of charge *)

Lemma Qgtb_false a b : Qgtb a b = false -> (a <= b)%Q.
Proof.
  unfold Qgtb. intros H. apply negb_false_iff in H.
  apply Qle_bool_iff. exact H.
Qed.

Lemma Qgtb_true a b : Qgtb a b = true -> (b < a)%Q.
Proof.
  unfold Qgtb. intros H. apply negb_true_iff in H.
  apply Qnot_le_lt. intros Hle. apply Qle_bool_iff in Hle. congruence.
Qed.

Lemma socSample_le_100 v : (socSample v <= 100)%Q.
Proof.
  unfold socSample.
  destruct (Qgtb (100 / (VOLT_HIGH - VOLT_LOW) * (v - VOLT_LOW)) 100) eqn:E.
  - apply Qle_refl.
  - apply Qgtb_false. exact E.
Qed.

Lemma socSample_sign v :
  (VOLT_LOW < VOLT_HIGH)%Q ->
  (0 <= socSample v)%Q <-> (VOLT_LOW <= v)%Q.
Proof.
  intros Hcal.
  assert (Hk : (0 < 100 / (VOLT_HIGH - VOLT_LOW))%Q).
  { apply Qlt_shift_div_l; lra. }
  unfold socSample.
  set (k := (100 / (VOLT_HIGH - VOLT_LOW))%Q) in *.
  destruct (Qgtb (k * (v - VOLT_LOW)) 100) eqn:E.
  - apply Qgtb_true in E. split; intros _; [|lra].
    destruct (Qlt_le_dec v VOLT_LOW) as [Hlt|Hle]; [|exact Hle].
    exfalso. nra.
  - split; intros H.
    + destruct (Qlt_le_dec v VOLT_LOW) as [Hlt|Hle]; [|exact Hle].
      exfalso. nra.
    + nra.
Qed.

Lemma Qsum_bound l :
  Forall (fun x => (x <= 100)%Q) l ->
  (Qsum l <= 100 * inject_Z (Z.of_nat (length l)))%Q.
Proof.
  induction 1 as [|x l Hx Hl IH]; cbn [Qsum fold_right length].
  - change (inject_Z (Z.of_nat 0)) with 0%Q. lra.
  - rewrite Nat2Z.inj_succ, <- Z.add_1_r, inject_Z_plus.
    fold (Qsum l). change (inject_Z 1) with 1%Q. lra.
Qed.

Lemma mean_bound f :
  Forall (fun x => (x <= 100)%Q) (samples f) -> (mean f <= 100)%Q.
Proof.
  intros H. unfold mean. pose proof (Qsum_bound _ H) as Hs.
  destruct (samples f) as [|x l] eqn:E.
  - cbn. discriminate.
  - apply Qle_shift_div_r; [|exact Hs].
    change 0%Q with (inject_Z 0). rewrite <- Zlt_Qlt.
    cbn [length]. lia.
Qed.

Lemma push_bound x f :
  (x <= 100)%Q ->
  Forall (fun y => (y <= 100)%Q) (samples f) ->
  Forall (fun y => (y <= 100)%Q) (samples (push x f)).
Proof.
  intros Hx Hf. unfold push. cbn [samples].
  set (s := samples f ++ [x]).
  assert (Hs : Forall (fun y => (y <= 100)%Q) s).
  { apply Forall_app. split; [exact Hf|]. constructor; [exact Hx|constructor]. }
  rewrite <- (firstn_skipn (length s - capacity f) s) in Hs.
  apply Forall_app in Hs. apply Hs.
Qed.

(** What a tick does to the state-of-charge filter. *)
Lemma service_soc e w :
  avgSOC (world (service e w)) = avgSOC w \/
  avgSOC (world (service e w)) =
    push (socSample (voltageSeen e w)) (avgSOC w).
Proof.
  assert (Hav : avgSOC (afterAveraging e w) = avgSOC w \/
                avgSOC (afterAveraging e w) =
                  push (socSample (voltageSeen e w)) (avgSOC w)).
  { unfold voltageSeen, afterAveraging.
    destruct (averaging_soc e (world (retryInit e w))) as [H|H]; rewrite H;
      destruct (retryInit_world e w) as (n & i & f & t & ->);
      [left|right]; reflexivity. }
  destruct (service_phases e w)
    as [w1 l1 w2 l2 w3 l3 b w4 l4 w5 l5 H1 H2 H3 H4 H5
       |w1 l1 w2 l2 w3 l3 H1 H2 H3];
    rewrite (afterAveraging_eq e w _ _ _ _ H1 H2) in Hav;
    phase_fact H3 (lowBattery_frame e w2); destruct F as (Ls & _);
    cbn [world].
  - phase_fact H4 (events_summary e w3). phase_fact H5 (render_keeps w4).
    destruct F as (Es & _), F0 as (_ & _ & _ & _ & _ & Rs).
    rewrite Rs, Es, Ls. exact Hav.
  - rewrite Ls. exact Hav.
Qed.

(** C8, as amended: the value pushed into the state-of-charge filter is the
    linear approximation clamped from above only.  It is at most 100 for
    every averaged voltage, and so is the averaged value of getSoC() once
    the samples are; it is non-negative exactly when the averaged voltage
    is at or above VOLT_LOW, hence negative for every voltage strictly
    below VOLT_LOW. *)
Theorem soc_clamped_above_only (Hcal : (VOLT_LOW < VOLT_HIGH)%Q) :
  (forall v : Q,
     (socSample v <= 100)%Q /\
     ((0 <= socSample v)%Q <-> (VOLT_LOW <= v)%Q)) /\
  (forall (e : Env) (w : World),
     let w' := world (service e w) in
     (avgSOC w' = avgSOC w \/
      avgSOC w' = push (socSample (voltageSeen e w)) (avgSOC w)) /\
     (Forall (fun x => (x <= 100)%Q) (samples (avgSOC w)) ->
      Forall (fun x => (x <= 100)%Q) (samples (avgSOC w')) /\
      (getSoC w' <= 100)%Q)).
Proof.
  split.
  - intros v. split; [apply socSample_le_100|apply socSample_sign; exact Hcal].
  - intros e w w'. split; [apply service_soc|]. intros Hall.
    assert (Hall' : Forall (fun x => (x <= 100)%Q) (samples (avgSOC w'))).
    { subst w'. destruct (service_soc e w) as [->| ->]; [exact Hall|].
      apply push_bound; [apply socSample_le_100|exact Hall]. }
    split; [exact Hall'|]. apply mean_bound. exact Hall'.
Qed.

(** *** Gesture decoding *)

Lemma caseLabels_distinct :
  NoDup caseLabels ->
  GES_DOWN <> GES_UP /\ GES_LEFT <> GES_UP /\ GES_LEFT <> GES_DOWN /\
  GES_RIGHT <> GES_UP /\ GES_RIGHT <> GES_DOWN /\ GES_RIGHT <> GES_LEFT /\
  forall g,
    In g [GES_FORWARD; GES_BACKWARD; GES_CLOCKWISE; GES_CNTRCLOCKWISE;
          GES_WAVE] ->
    g <> GES_UP /\ g <> GES_DOWN /\ g <> GES_LEFT /\ g <> GES_RIGHT.
Proof.
  unfold caseLabels. intros H.
  repeat match goal with
         | H : NoDup (_ :: _) |- _ => inversion H; clear H; subst
         end.
  cbn [In] in *.
  repeat split; try (intros E; rewrite E in *; tauto);
    intros E; subst g; intuition congruence.
Qed.

Lemma remap_other rotation g :
  ~ In g [GES_UP; GES_DOWN; GES_LEFT; GES_RIGHT] -> remap rotation g = g.
Proof.
  cbn [In]. intros H. unfold remap.
  repeat match goal with
         | |- context [g =? ?c] => destruct (Z.eqb_spec g c)
         end; try reflexivity; exfalso; apply H; subst; tauto.
Qed.

(** C6, as amended: the decoding is a function of the raw code and of the
    rotation alone, and it leaves the state as it is.  On the four
    directions it is a quarter turn, not a swap: with rotation 0 it sends up
    to left, left to down, down to right and right to up; with the screen
    rotated it sends up to right, right to down, down to left and left to
    up.  Forward, backward, clockwise, counter-clockwise and wave are
    returned unchanged under both rotations. *)
Theorem remap_is_quarter_turn (Hlabels : NoDup caseLabels) :
  (forall (e : Env) (w : World),
     getUserEvent e w =
     Returned (remap (currentScreenRotation w) (gesture e)) w [ReadGesture]) /\
  (remap 0 GES_UP = GES_LEFT /\ remap 0 GES_LEFT = GES_DOWN /\
   remap 0 GES_DOWN = GES_RIGHT /\ remap 0 GES_RIGHT = GES_UP) /\
  (forall rotation : Z,
     rotation <> 0 ->
     remap rotation GES_UP = GES_RIGHT /\
     remap rotation GES_RIGHT = GES_DOWN /\
     remap rotation GES_DOWN = GES_LEFT /\
     remap rotation GES_LEFT = GES_UP) /\
  (forall rotation g : Z,
     In g [GES_FORWARD; GES_BACKWARD; GES_CLOCKWISE; GES_CNTRCLOCKWISE;
           GES_WAVE] ->
     remap rotation g = g).
Proof.
  destruct (caseLabels_distinct Hlabels)
    as (Hdu & Hlu & Hld & Hru & Hrd & Hrl & Hrest).
  apply Z.eqb_neq in Hdu, Hlu, Hld, Hru, Hrd, Hrl.
  split; [reflexivity|]. split; [|split].
  - unfold remap. rewrite ?Z.eqb_refl, ?Hdu, ?Hlu, ?Hld, ?Hru, ?Hrd, ?Hrl.
    repeat split; reflexivity.
  - intros rotation Hrot. apply Z.eqb_neq in Hrot. unfold remap.
    rewrite ?Z.eqb_refl, ?Hdu, ?Hlu, ?Hld, ?Hru, ?Hrd, ?Hrl, ?Hrot.
    repeat split; reflexivity.
  - intros rotation g Hg. apply remap_other. cbn [In].
    destruct (Hrest g Hg) as (H1 & H2 & H3 & H4).
    intros [E|[E|[E|[E|[]]]]]; congruence.
Qed.

(** C9, as amended: a raw code that is not one of up, down, left and right
    is returned as it was read.  This covers "none" and the five codes that
    pass through, and also every unrecognised code: the decoding does not
    replace it by "none", and it is not an error either. *)
Theorem unrecognised_code_passes_through
    (e : Env) (w : World)
    (Hraw : ~ In (gesture e) [GES_UP; GES_DOWN; GES_LEFT; GES_RIGHT]) :
  getUserEvent e w = Returned (gesture e) w [ReadGesture].
Proof.
  unfold getUserEvent. fw_eval. rewrite remap_other by exact Hraw.
  reflexivity.
Qed.

(** *** Swipe navigation *)

(** C10: handleSwipe returns the screen identifier it was given for every
    event other than left and right. *)
Theorem handleSwipe_other_events
    (evt curScrn : Z)
    (Hright : evt <> GES_RIGHT)
    (Hleft : evt <> GES_LEFT) :
  handleSwipe evt curScrn = curScrn.
Proof.
  unfold handleSwipe. apply Z.eqb_neq in Hright, Hleft.
  rewrite Hright, Hleft. reflexivity.
Qed.

(** In particular for backward, wave and the decoded up and down. *)
Lemma handleSwipe_backward_wave_up_down curScrn :
  NoDup caseLabels ->
  handleSwipe GES_BACKWARD curScrn = curScrn /\
  handleSwipe GES_WAVE curScrn = curScrn /\
  handleSwipe GES_UP curScrn = curScrn /\
  handleSwipe GES_DOWN curScrn = curScrn.
Proof.
  intros Hlabels.
  destruct (caseLabels_distinct Hlabels)
    as (Hdu & Hlu & Hld & Hru & Hrd & Hrl & Hrest).
  destruct (Hrest GES_BACKWARD) as (_ & _ & B1 & B2); [cbn; tauto|].
  destruct (Hrest GES_WAVE) as (_ & _ & W1 & W2); [cbn; tauto|].
  unfold handleSwipe.
  repeat match goal with
         | |- context [?a =? ?b] => destruct (Z.eqb_spec a b)
         end; try congruence; repeat split; reflexivity.
Qed.


(** *** When a tick ends in a restart *)

Lemma lowBattery_restart_iff e w :
  rebooted (lowBattery e w) = true <->
  Qle_bool (getVolt w) VOLT_LOW = false /\
  Qgtb (getVolt w) ((VOLT_HIGH + VOLT_LOW) / 2) = true /\
  currentScreenID w = LOWBATT_SCREEN.
Proof.
  split.
  - intros H. destruct (lowBattery_restart e w H) as (H1 & H2 & H3 & _).
    repeat split; assumption.
  - intros (H1 & H2 & H3). apply Z.eqb_eq in H3.
    unfold lowBattery. fw_eval. rewrite H1. fw_eval. rewrite H2, H3.
    fw_unfold. fw_run; reflexivity.
Qed.

(** A tick restarts the device exactly when it finds the averaged voltage
    above the midpoint of the range while in LOWBATT; every other tick
    returns. *)
Lemma service_restart_iff e w :
  rebooted (service e w) = true <->
  Qle_bool (voltageSeen e w) VOLT_LOW = false /\
  Qgtb (voltageSeen e w) ((VOLT_HIGH + VOLT_LOW) / 2) = true /\
  currentScreenID w = LOWBATT_SCREEN.
Proof.
  destruct (afterAveraging_screen e w) as (Sid & _).
  unfold voltageSeen.
  destruct (service_phases e w)
    as [w1 l1 w2 l2 w3 l3 b w4 l4 w5 l5 H1 H2 H3 H4 H5
       |w1 l1 w2 l2 w3 l3 H1 H2 H3];
    rewrite (afterAveraging_eq e w _ _ _ _ H1 H2) in *;
    rewrite <- Sid; rewrite <- lowBattery_restart_iff with (e := e);
    rewrite H3; reflexivity.
Qed.
End Properties.

(** * The bench configuration at work *)

Section Bench.

#[local] Existing Instance benchConfig.

Lemma bench_labels : NoDup caseLabels.
Proof.
  unfold caseLabels.
  repeat (constructor; [cbn; intuition discriminate|]). constructor.
Defined.

(** C1 on the bench: screen 2 is shown, the battery reads 3.0 V and the
    average falls to 3.45 V. *)
Lemma lowbatt_transition_once_witness :
  KILL_INSTALLED = false /\
  currentScreenID benchWorld <> LOWBATT_SCREEN /\
  (voltageSeen (benchEnv (30 # 10) 0) benchWorld <= VOLT_LOW)%Q /\
  filter isAnyDisable (effects (service (benchEnv (30 # 10) 0) benchWorld)) =
    map Disable sensorTasks /\
  currentScreenID (world (service (benchEnv (30 # 10) 0) benchWorld)) =
    LOWBATT_SCREEN.
Proof.
  assert (H1 : KILL_INSTALLED = false) by reflexivity.
  assert (H2 : currentScreenID benchWorld <> LOWBATT_SCREEN)
    by (vm_compute; discriminate).
  assert (H3 : (voltageSeen (benchEnv (30 # 10) 0) benchWorld <= VOLT_LOW)%Q)
    by (vm_compute; discriminate).
  pose proof (lowbatt_transition_once (benchEnv (30 # 10) 0) benchWorld
                H1 H2 H3) as H.
  cbv zeta in H. destruct H as (_ & Hid & _ & _ & _ & Hdis & _).
  split; [exact H1|]. split; [exact H2|]. split; [exact H3|].
  split; [exact Hdis|exact Hid].
Defined.

(** With the KILL modification installed the same tick enters LOWBATT and
    disables nothing. *)
Example kill_installed_disables_nothing :
  filter isAnyDisable
    (effects (@service killConfig (benchEnv (30 # 10) 0) benchWorld)) = [] /\
  currentScreenID
    (world (@service killConfig (benchEnv (30 # 10) 0) benchWorld)) = 100.
Proof. vm_compute. split; reflexivity. Qed.

(** C2 on the bench: an interrupt while an event is pending. *)
Lemma latch_holds_one_event_witness :
  eventFlag pendingWorld = true /\
  onGesture pendingWorld = Returned tt pendingWorld [].
Proof.
  assert (H : eventFlag pendingWorld = true) by reflexivity.
  split; [exact H|].
  exact (proj1 (latch_holds_one_event (benchEnv (39 # 10) 0) pendingWorld) H).
Defined.

(** C3 on the bench, the failing input: the tick finds the latch set 500 ms
    after the last processed event and leaves it set; the gesture is read,
    and the swipe made, by the tick that runs a second later. *)
Lemma suppressed_event_is_deferred :
  let e := benchEnv (39 # 10) GES_DOWN in
  eventFlag pendingWorld = true /\
  usub (wrap32 (now pendingWorld)) (lastEventProcessing pendingWorld) = 500 /\
  rebooted (service e pendingWorld) = false /\
  eventFlag (world (service e pendingWorld)) = true /\
  count isReadGesture (effects (service e pendingWorld)) = 0%nat /\
  count isReadGesture
    (effects (run [Tick e; Elapse 1000; Tick e] pendingWorld)) = 1%nat /\
  currentScreenID (world (run [Tick e; Elapse 1000; Tick e] pendingWorld)) = 3.
Proof. vm_compute. repeat split; reflexivity. Qed.

(** C3 on the bench: the same tick, by the theorem. *)
Lemma debounced_event_stays_latched_witness :
  eventFlag pendingWorld = true /\
  rebooted (service (benchEnv (39 # 10) GES_DOWN) pendingWorld) = false /\
  usub (wrap32 (now (afterAveraging (benchEnv (39 # 10) GES_DOWN)
                       pendingWorld)))
    (lastEventProcessing pendingWorld) <= 1000 /\
  eventFlag (world (service (benchEnv (39 # 10) GES_DOWN) pendingWorld)) =
    true /\
  count isReadGesture
    (effects (service (benchEnv (39 # 10) GES_DOWN) pendingWorld)) = 0%nat.
Proof.
  assert (H1 : eventFlag pendingWorld = true) by reflexivity.
  assert (H2 : rebooted (service (benchEnv (39 # 10) GES_DOWN) pendingWorld)
               = false) by (vm_compute; reflexivity).
  assert (H3 : usub (wrap32 (now (afterAveraging (benchEnv (39 # 10) GES_DOWN)
                                    pendingWorld)))
                 (lastEventProcessing pendingWorld) <= 1000)
    by (vm_compute; discriminate).
  pose proof (debounced_event_stays_latched _ _ H1 H2) as H.
  cbv zeta in H. destruct H as (H & _).
  destruct (H H3) as (Ha & Hb & _).
  split; [exact H1|]. split; [exact H2|]. split; [exact H3|].
  split; [exact Ha|exact Hb].
Defined.

(** C4 on the bench: the low-battery screen is shown, the display is on
    and the sensor reports "forward". *)
Lemma lowbatt_forward_leaves_display_on_witness :
  isDisplayOn lowbattEventWorld = true /\
  currentScreenID lowbattEventWorld = LOWBATT_SCREEN /\
  remap (currentScreenRotation lowbattEventWorld) GES_FORWARD = GES_FORWARD /\
  isDisplayOn
    (world (service (benchEnv (35 # 10) GES_FORWARD) lowbattEventWorld)) =
    true /\
  filter isBacklight
    (effects (service (benchEnv (35 # 10) GES_FORWARD) lowbattEventWorld)) =
    [].
Proof.
  assert (H1 : sensorReady lowbattEventWorld) by (right; reflexivity).
  assert (H2 : eventFlag lowbattEventWorld = true) by reflexivity.
  assert (H3 : usub (wrap32 (now lowbattEventWorld))
                 (lastEventProcessing lowbattEventWorld) > 1000)
    by (vm_compute; reflexivity).
  assert (H4 : isDisplayOn lowbattEventWorld = true) by reflexivity.
  assert (H5 : currentScreenID lowbattEventWorld = LOWBATT_SCREEN)
    by reflexivity.
  assert (H6 : remap (currentScreenRotation lowbattEventWorld)
                 (gesture (benchEnv (35 # 10) GES_FORWARD)) = GES_FORWARD)
    by reflexivity.
  assert (H7 : rebooted (service (benchEnv (35 # 10) GES_FORWARD)
                           lowbattEventWorld) = false)
    by (vm_compute; reflexivity).
  pose proof (lowbatt_forward_leaves_display_on _ _ H1 H2 H3 H4 H5 H6 H7)
    as (Hon & Hbl & _).
  split; [exact H4|]. split; [exact H5|]. split; [exact H6|].
  split; [exact Hon|exact Hbl].
Defined.

(** Outside LOWBATT the same gesture switches the display off. *)
Example forward_switches_display_off :
  isDisplayOn (world (service (benchEnv (39 # 10) GES_FORWARD) eventWorld)) =
    false /\
  filter isBacklight
    (effects (service (benchEnv (39 # 10) GES_FORWARD) eventWorld)) =
    [Backlight false].
Proof. vm_compute. split; reflexivity. Qed.

(** C5 on the bench: the forced transition from screen 2. *)
Lemma outgoing_screen_torn_down_first_witness :
  Qle_bool (getVolt drainedWorld) VOLT_LOW = true /\
  currentScreenID drainedWorld <> LOWBATT_SCREEN /\
  filter isLifecycle
    (effects (lowBattery (benchEnv (35 # 10) 0) drainedWorld)) =
    [ScreenDeactivate 0; ScreenDelete 0; ScreenCreate LOWBATT_SCREEN 1;
     ScreenActivate 1].
Proof.
  assert (H1 : Qle_bool (getVolt drainedWorld) VOLT_LOW = true)
    by (vm_compute; reflexivity).
  assert (H2 : currentScreenID drainedWorld <> LOWBATT_SCREEN)
    by (vm_compute; discriminate).
  pose proof (outgoing_screen_torn_down_first (benchEnv (35 # 10) 0)
                drainedWorld) as H.
  cbv zeta in H. destruct H as (H & _).
  split; [exact H1|]. split; [exact H2|]. exact (H H1 H2).
Defined.

(** The three replacements and the rotation, as the bench records them. *)
Example swipe_right_replaces_screen :
  filter isLifecycle
    (effects (service (benchEnv (39 # 10) GES_DOWN) eventWorld)) =
    [ScreenDeactivate 0; ScreenDelete 0; ScreenCreate 3 1; ScreenActivate 1].
Proof. vm_compute. reflexivity. Qed.

Example setup_replaces_screen :
  filter isLifecycle
    (effects (service (benchEnv (39 # 10) GES_CNTRCLOCKWISE) eventWorld)) =
    [ScreenDeactivate 0; ScreenDelete 0; ScreenCreate SETUP_SCREEN 1;
     ScreenActivate 1].
Proof. vm_compute. reflexivity. Qed.

Example rotation_keeps_screen :
  filter isLifecycle
    (effects (service (benchEnv (39 # 10) GES_CLOCKWISE) eventWorld)) =
    [ScreenDeactivate 0; ScreenActivate 0].
Proof. vm_compute. reflexivity. Qed.

(** C6 fails on the code: with rotation 0 "up" is decoded as "left", not as
    "right"; rotated, it is decoded as "right", not as "left"; and decoding
    twice does not give the direction back. *)
Lemma remap_is_not_the_specified_swap :
  remap 0 GES_UP = GES_LEFT /\
  remapAsSpecified 0 GES_UP = GES_RIGHT /\
  remap 0 GES_UP <> remapAsSpecified 0 GES_UP /\
  remap 2 GES_UP = GES_RIGHT /\
  remapAsSpecified 2 GES_UP = GES_LEFT /\
  remap 2 GES_UP <> remapAsSpecified 2 GES_UP /\
  remap 0 (remap 0 GES_UP) <> GES_UP.
Proof. vm_compute. repeat split; try reflexivity; discriminate. Qed.

(** C6, as amended, on the bench. *)
Lemma remap_is_quarter_turn_witness :
  NoDup caseLabels /\
  remap 0 GES_UP = GES_LEFT /\ remap 0 GES_LEFT = GES_DOWN /\
  remap 0 GES_DOWN = GES_RIGHT /\ remap 0 GES_RIGHT = GES_UP.
Proof.
  split; [exact bench_labels|].
  exact (proj1 (proj2 (remap_is_quarter_turn bench_labels))).
Defined.


(** The longer limit is live: at a state of charge of 97, ninety seconds of
    idle time keep the display on; at 50 they switch it off. *)
Example doubled_limit_above_95 :
  let half := set_lastBatteryAveraging 85000 (set_now 90000 benchWorld) in
  let full := set_avgSOC (push (97 # 1) newAverage) half in
  let e := benchEnv (39 # 10) 0 in
  Qgtb (socSeen e full) 95 = true /\
  isDisplayOn (world (service e full)) = true /\
  Qgtb (socSeen e half) 95 = false /\
  isDisplayOn (world (service e half)) = false.
Proof. vm_compute. repeat split; reflexivity. Qed.

(** C8 fails on the code: in LOWBATT at 3.5 V the battery reads 3.4 V; the
    sample pushed for the average of 3.45 V is negative, and so is the
    averaged state of charge. *)
Lemma soc_sample_below_zero :
  let e := benchEnv (34 # 10) 0 in
  let w' := world (service e lowbattWorld) in
  (voltageSeen e lowbattWorld < VOLT_LOW)%Q /\
  avgSOC w' = push (socSample (voltageSeen e lowbattWorld)) (avgSOC lowbattWorld) /\
  (socSample (voltageSeen e lowbattWorld) < 0)%Q /\
  (getSoC w' < 0)%Q.
Proof. vm_compute. repeat split; reflexivity. Qed.

(** C8, as amended, on the bench. *)
Lemma soc_clamped_above_only_witness :
  (VOLT_LOW < VOLT_HIGH)%Q /\
  (socSample (50 # 10) <= 100)%Q /\
  (getSoC (world (service (benchEnv (34 # 10) 0) lowbattWorld)) <= 100)%Q.
Proof.
  assert (H : (VOLT_LOW < VOLT_HIGH)%Q) by (vm_compute; reflexivity).
  pose proof (soc_clamped_above_only H) as (Hs & Ht).
  split; [exact H|]. split; [apply Hs|].
  apply Ht. repeat constructor. vm_compute. discriminate.
Defined.

(** C9 fails on the code: the code 42 is none of the ten gesture codes; it
    is decoded as 42, not as "none", and the tick hands it to the current
    screen as an event. *)
Lemma unrecognised_code_is_not_none :
  ~ In 42 (GES_NONE :: caseLabels) /\
  remap 0 42 = 42 /\
  42 <> GES_NONE /\
  getUserEvent (benchEnv (39 # 10) 42) eventWorld =
    Returned 42 eventWorld [ReadGesture] /\
  In (ScreenOnUserEvent 0 42)
    (effects (service (benchEnv (39 # 10) 42) eventWorld)).
Proof.
  split; [cbn; intuition discriminate|].
  vm_compute. repeat split; try reflexivity; try discriminate.
  right. right. left. reflexivity.
Qed.

(** C9, as amended, on the bench. *)
Lemma unrecognised_code_passes_through_witness :
  ~ In 42 [GES_UP; GES_DOWN; GES_LEFT; GES_RIGHT] /\
  getUserEvent (benchEnv (39 # 10) 42) eventWorld =
    Returned 42 eventWorld [ReadGesture].
Proof.
  assert (H : ~ In (gesture (benchEnv (39 # 10) 42))
                [GES_UP; GES_DOWN; GES_LEFT; GES_RIGHT])
    by (cbn; intuition discriminate).
  split; [exact H|].
  exact (unrecognised_code_passes_through (benchEnv (39 # 10) 42) eventWorld H).
Defined.

(** C10 on the bench: "backward" on screen 2. *)
Lemma handleSwipe_other_events_witness :
  GES_BACKWARD <> GES_RIGHT /\ GES_BACKWARD <> GES_LEFT /\
  handleSwipe GES_BACKWARD 2 = 2.
Proof.
  assert (H1 : GES_BACKWARD <> GES_RIGHT) by (vm_compute; discriminate).
  assert (H2 : GES_BACKWARD <> GES_LEFT) by (vm_compute; discriminate).
  split; [exact H1|]. split; [exact H2|].
  exact (handleSwipe_other_events GES_BACKWARD 2 H1 H2).
Defined.

(** The swipe cycle of the bench: right from the last screen wraps to 1,
    left from 1 wraps to the last. *)
Example swipe_cycle_wraps :
  handleSwipe GES_RIGHT 4 = 1 /\ handleSwipe GES_LEFT 1 = 4 /\
  handleSwipe GES_RIGHT 2 = 3 /\ handleSwipe GES_LEFT 3 = 2.
Proof. vm_compute. repeat split; reflexivity. Qed.

End Bench.

(** * Further properties of the tick *)

Section Tick.

Context `{cfg : Config}.

Ltac phase_fact H E :=
  let X := fresh "F" in
  pose proof E as X; rewrite ?H in X; cbn [world effects rebooted] in X.

Ltac fw_fields_in H :=
  cbn [now initSuccess lastBatteryAveraging avgVolt avgSOC currentScreenID
       currentScreen nextInst eventFlag eventTime lastEventProcessing
       isDisplayOn displayInitialized currentScreenRotation
       set_now set_initSuccess set_lastBatteryAveraging set_avgVolt
       set_avgSOC set_currentScreenID set_currentScreen set_nextInst
       set_eventFlag set_eventTime set_lastEventProcessing set_isDisplayOn
       set_displayInitialized set_currentScreenRotation set_lastUpdate
       inst kind lastUpdate world effects rebooted] in H.

Ltac fw_fields :=
  cbn [now initSuccess lastBatteryAveraging avgVolt avgSOC currentScreenID
       currentScreen nextInst eventFlag eventTime lastEventProcessing
       isDisplayOn displayInitialized currentScreenRotation
       set_now set_initSuccess set_lastBatteryAveraging set_avgVolt
       set_avgSOC set_currentScreenID set_currentScreen set_nextInst
       set_eventFlag set_eventTime set_lastEventProcessing set_isDisplayOn
       set_displayInitialized set_currentScreenRotation set_lastUpdate
       inst kind lastUpdate world effects rebooted].

(** *** More about the phases *)

Lemma retryInit_more e w :
  filter isGetVCell (effects (retryInit e w)) = [] /\
  filter isAnyDisable (effects (retryInit e w)) = [].
Proof.
  unfold retryInit, initGesture, initGestureLoop. fw_unfold.
  fw_run; split; reflexivity.
Qed.

Lemma averaging_more e w :
  filter isBegin (effects (averaging e w)) = [] /\
  (count isGetVCell (effects (averaging e w)) <= 1)%nat.
Proof. fw_unfold. fw_run; split; cbn; try reflexivity; lia. Qed.

Lemma render_more w :
  filter isBegin (effects (render w)) = [] /\
  filter isGetVCell (effects (render w)) = [].
Proof. fw_unfold. fw_run; split; reflexivity. Qed.

Lemma lowBattery_more e w :
  initSuccess (world (lowBattery e w)) = initSuccess w /\
  lastBatteryAveraging (world (lowBattery e w)) = lastBatteryAveraging w /\
  currentScreenRotation (world (lowBattery e w)) = currentScreenRotation w /\
  filter isBegin (effects (lowBattery e w)) = [] /\
  filter isGetVCell (effects (lowBattery e w)) = [] /\
  slotRun (Holds (inst (currentScreen w)) true)
    (filter isLifecycle (effects (lowBattery e w))) =
    Some (Holds (inst (currentScreen (world (lowBattery e w)))) true) /\
  (KILL_INSTALLED = true ->
   filter isAnyDisable (effects (lowBattery e w)) = []).
Proof.
  fw_unfold.
  fw_run; repeat split; try reflexivity; try discriminate;
    cbn; rewrite ?Nat.eqb_refl; reflexivity.
Qed.

(** In LOWBATT the low-battery phase touches no screen, whatever the
    voltage. *)
Lemma lowBattery_in_lowbatt e w :
  currentScreenID w = LOWBATT_SCREEN ->
  currentScreenID (world (lowBattery e w)) = LOWBATT_SCREEN /\
  filter isLifecycle (effects (lowBattery e w)) = [] /\
  filter isAnyDisable (effects (lowBattery e w)) = [].
Proof.
  intros Hid. pose proof (proj2 (Z.eqb_eq _ _) Hid) as Hid'.
  fw_unfold.
  fw_run; repeat split; try reflexivity; try assumption; congruence.
Qed.

Lemma events_more e w :
  initSuccess (world (events e w)) = initSuccess w /\
  lastBatteryAveraging (world (events e w)) = lastBatteryAveraging w /\
  filter isBegin (effects (events e w)) = [] /\
  filter isGetVCell (effects (events e w)) = [] /\
  slotRun (Holds (inst (currentScreen w)) true)
    (filter isLifecycle (effects (events e w))) =
    Some (Holds (inst (currentScreen (world (events e w)))) true) /\
  (currentScreenRotation (world (events e w)) = currentScreenRotation w \/
   currentScreenRotation (world (events e w)) =
     (if currentScreenRotation w =? 0 then 2 else 0)).
Proof.
  fw_unfold.
  fw_run;
    (split; [reflexivity|split; [reflexivity|split; [reflexivity|
     split; [reflexivity|split]]]]);
    try (cbn; rewrite ?Nat.eqb_refl; reflexivity);
    first [ left; reflexivity
          | right; reflexivity
          | discriminate ].
Qed.

(** *** Whole ticks and runs *)

Lemma onGesture_world w :
  exists f t, world (onGesture w) = set_eventTime t (set_eventFlag f w).
Proof.
  exists (eventFlag (world (onGesture w))), (eventTime (world (onGesture w))).
  rewrite (world_eta (world (onGesture w))).
  fw_unfold. fw_run; rewrite <- ?Heqb; reflexivity.
Qed.

Lemma onGesture_effects w :
  effects (onGesture w) = [] \/ effects (onGesture w) = [Force].
Proof.
  fw_unfold. fw_run; first [left; reflexivity|right; reflexivity].
Qed.

Lemma run_step s rest w :
  run (s :: rest) w =
  match step s w with
  | Returned _ w1 l1 => prepend l1 (run rest w1)
  | Rebooted w1 l1 => Rebooted w1 l1
  end.
Proof. reflexivity. Qed.

(** A property of the state that every step keeps, together with a kind
    of call that no step makes from such a state, holds along every run. *)
Lemma run_invariant (I : World -> Prop) (p : Effect -> bool) :
  (forall s w, I w ->
     I (world (step s w)) /\ filter p (effects (step s w)) = []) ->
  forall steps w, I w ->
    I (world (run steps w)) /\ filter p (effects (run steps w)) = [].
Proof.
  intros Hstep. induction steps as [|s rest IH]; intros w Hw.
  - split; [exact Hw|reflexivity].
  - rewrite run_step. destruct (Hstep s w Hw) as (Hi & Hp).
    destruct (step s w) as [[] w1 l1|w1 l1]; cbn [world effects] in *.
    + destruct (IH w1 Hi) as (Ri & Rp).
      rewrite prepend_world, prepend_effects, filter_app, Hp, Rp.
      split; [exact Ri|reflexivity].
    + split; assumption.
Qed.

Lemma step_cases (I : World -> Prop) (p : Effect -> bool) :
  p Force = false ->
  (forall w f t, I w -> I (set_eventTime t (set_eventFlag f w))) ->
  (forall w n, I w -> I (set_now n w)) ->
  (forall e w, I w ->
     I (world (service e w)) /\ filter p (effects (service e w)) = []) ->
  forall s w, I w ->
    I (world (step s w)) /\ filter p (effects (step s w)) = [].
Proof.
  intros Hforce Hirq Hnow Htick [|ms|e] w Hw; cbn [step].
  - destruct (onGesture_world w) as (f & t & ->).
    split; [apply Hirq; exact Hw|].
    destruct (onGesture_effects w) as [-> | ->]; cbn; rewrite ?Hforce;
      reflexivity.
  - split; [apply Hnow; exact Hw|reflexivity].
  - apply Htick. exact Hw.
Qed.

(** The phases of a tick pass on what each of them keeps. *)
Ltac tick_phases e w :=
  destruct (service_phases e w)
    as [w1 l1 w2 l2 w3 l3 b w4 l4 w5 l5 H1 H2 H3 H4 H5
       |w1 l1 w2 l2 w3 l3 H1 H2 H3].

Lemma tick_sensor e w :
  sensorReady w ->
  sensorReady (world (service e w)) /\
  filter isBegin (effects (service e w)) = [].
Proof.
  intros Hr.
  assert (Hkeep : forall w', initSuccess w' = initSuccess w -> sensorReady w').
  { intros w' E. destruct Hr as [Hr|Hr]; [left; exact Hr|right; congruence]. }
  tick_phases e w;
    rewrite (retryInit_ready e w Hr) in H1; injection H1 as <- <-;
    phase_fact H2 (averaging_world e w); phase_fact H2 (averaging_more e w);
    phase_fact H3 (lowBattery_more e w2);
    destruct F as (t & v & s & ->), F0 as (Ab & _),
             F1 as (Li & _ & _ & Lb & _);
    cbn [world effects app].
  - phase_fact H4 (events_more e w3). phase_fact H5 (render_world w4).
    phase_fact H5 (render_more w4).
    destruct F as (Ei & _ & Eb & _), F0 as (t' & ->), F1 as (Rb & _).
    rewrite !filter_app, Ab, Lb, Eb, Rb. split; [|reflexivity].
    apply Hkeep. cbn in *. congruence.
  - rewrite !filter_app, Ab, Lb. split; [|reflexivity].
    apply Hkeep. cbn in *. congruence.
Qed.

Lemma tick_lowbatt_any e w :
  currentScreenID w = LOWBATT_SCREEN ->
  currentScreenID (world (service e w)) = LOWBATT_SCREEN /\
  filter (fun x => isLifecycle x || isAnyDisable x)
    (effects (service e w)) = [].
Proof.
  intros Hid.
  assert (Hor : forall l, filter isLifecycle l = [] ->
                          filter isAnyDisable l = [] ->
                          filter (fun x => isLifecycle x || isAnyDisable x) l
                          = []).
  { induction l as [|x l IH]; [reflexivity|]. cbn [filter].
    destruct (isLifecycle x); [discriminate|].
    destruct (isAnyDisable x); [discriminate|]. exact IH. }
  destruct (afterAveraging_screen e w) as (Sid & _).
  tick_phases e w;
    rewrite (afterAveraging_eq e w _ _ _ _ H1 H2) in Sid;
    phase_fact H1 (retryInit_effects e w);
    phase_fact H2 (averaging_effects e w1);
    phase_fact H3 (lowBattery_in_lowbatt e w2);
    destruct F as (Ilc & Idis & _), F0 as (Alc & Adis & _);
    destruct F1 as (Lid & Llc & Ldis); try congruence;
    cbn [world effects].
  - phase_fact H4 (events_lowbatt e w3). phase_fact H4 (events_summary e w3).
    phase_fact H5 (render_world w4). phase_fact H5 (render_effects w4).
    destruct F as (Eid & _ & Elc); [exact Lid|].
    destruct F0 as (_ & _ & Edis & _), F1 as (t & ->).
    destruct F2 as (Rlc & Rdis & _).
    split; [exact Eid|].
    apply Hor; rewrite !filter_app; rewrite ?Ilc, ?Alc, ?Llc, ?Elc, ?Rlc,
      ?Idis, ?Adis, ?Ldis, ?Edis, ?Rdis; reflexivity.
  - split; [exact Lid|].
    apply Hor; rewrite !filter_app; rewrite ?Ilc, ?Alc, ?Llc, ?Idis, ?Adis,
      ?Ldis; reflexivity.
Qed.

Lemma tick_kill e w :
  KILL_INSTALLED = true ->
  filter isAnyDisable (effects (service e w)) = [].
Proof.
  intros Hk.
  tick_phases e w;
    phase_fact H1 (retryInit_effects e w);
    phase_fact H2 (averaging_effects e w1);
    phase_fact H3 (lowBattery_more e w2);
    destruct F as (_ & Idis & _), F0 as (_ & Adis & _),
             F1 as (_ & _ & _ & _ & _ & _ & Ldis);
    specialize (Ldis Hk); cbn [effects].
  - phase_fact H4 (events_summary e w3). phase_fact H5 (render_effects w4).
    destruct F as (_ & _ & Edis & _), F0 as (_ & Rdis & _).
    rewrite !filter_app, Idis, Adis, Ldis, Edis, Rdis. reflexivity.
  - rewrite !filter_app, Idis, Adis, Ldis. reflexivity.
Qed.

Lemma slotRun_app l1 l2 s s' :
  slotRun s l1 = Some s' -> slotRun s (l1 ++ l2) = slotRun s' l2.
Proof.
  revert s. induction l1 as [|x l1 IH]; intros s H; cbn in *.
  - injection H as ->. reflexivity.
  - destruct (slotStep s x); [apply IH; exact H|discriminate].
Qed.

Lemma slotRun_quiet l s :
  filter isLifecycle l = [] -> slotRun s l = Some s.
Proof. intros H. rewrite slotRun_filter, H. reflexivity. Qed.

Lemma tick_slot e w :
  slotRun (Holds (inst (currentScreen w)) true) (effects (service e w)) =
  Some (Holds (inst (currentScreen (world (service e w)))) true).
Proof.
  destruct (afterAveraging_screen e w) as (_ & Ssc & _).
  tick_phases e w;
    rewrite (afterAveraging_eq e w _ _ _ _ H1 H2) in Ssc;
    phase_fact H1 (retryInit_effects e w);
    phase_fact H2 (averaging_effects e w1);
    phase_fact H3 (lowBattery_more e w2);
    destruct F as (Ilc & _), F0 as (Alc & _),
             F1 as (_ & _ & _ & _ & _ & Lslot & _);
    rewrite Ssc, <- slotRun_filter in Lslot;
    cbn [world effects];
    rewrite (slotRun_app l1 _ _ _ (slotRun_quiet l1 _ Ilc));
    rewrite (slotRun_app l2 _ _ _ (slotRun_quiet l2 _ Alc)).
  - phase_fact H4 (events_more e w3). phase_fact H5 (render_world w4).
    phase_fact H5 (render_effects w4).
    destruct F as (_ & _ & _ & _ & Eslot & _), F0 as (t & ->), F1 as (Rlc & _).
    rewrite <- slotRun_filter in Eslot.
    rewrite (slotRun_app l3 _ _ _ Lslot), (slotRun_app l4 _ _ _ Eslot).
    apply slotRun_quiet. exact Rlc.
  - exact Lslot.
Qed.

Lemma tick_rotation e w :
  currentScreenRotation w = 0 \/ currentScreenRotation w = 2 ->
  currentScreenRotation (world (service e w)) = 0 \/
  currentScreenRotation (world (service e w)) = 2.
Proof.
  intros Hrot.
  assert (Hin : currentScreenRotation (afterAveraging e w) =
                currentScreenRotation w).
  { unfold afterAveraging.
    destruct (averaging_world e (world (retryInit e w))) as (t & v & s & ->).
    destruct (retryInit_world e w) as (n & i & f & t' & ->). reflexivity. }
  tick_phases e w;
    rewrite (afterAveraging_eq e w _ _ _ _ H1 H2) in Hin;
    phase_fact H3 (lowBattery_more e w2);
    destruct F as (_ & _ & Lrot & _); cbn [world].
  - phase_fact H4 (events_more e w3). phase_fact H5 (render_world w4).
    destruct F as (_ & _ & _ & _ & _ & Erot), F0 as (t & ->). cbn.
    rewrite Lrot, Hin in Erot.
    destruct Erot as [-> | ->]; [exact Hrot|].
    destruct (currentScreenRotation w =? 0); [right|left]; reflexivity.
  - rewrite Lrot, Hin. exact Hrot.
Qed.

(** *** Ticks that take up an event *)

Lemma events_dispatch e w :
  eventFlag w = true ->
  usub (wrap32 (now w)) (lastEventProcessing w) > 1000 ->
  events e w =
  match dispatch e (remap (currentScreenRotation w) (gesture e))
          (set_eventFlag false
             (set_lastEventProcessing (wrap32 (now w)) w)) with
  | Returned _ w4 l4 => Returned true w4 (ReadGesture :: l4)
  | Rebooted w4 l4 => Rebooted w4 (ReadGesture :: l4)
  end.
Proof.
  intros Hf Ht. apply Z.gt_lt, Z.gtb_lt in Ht.
  unfold events, getUserEvent. fw_eval. rewrite Hf. fw_eval. rewrite Ht.
  fw_eval.
  destruct (dispatch e _ _) as [a w4 l4|w4 l4]; cbn; [|reflexivity].
  do 2 f_equal. exact (app_nil_r l4).
Qed.


(** What [dispatch] does with an event, case by case. *)

Lemma dispatch_wake e ev w :
  isDisplayOn w = false ->
  isDisplayOn (world (dispatch e ev w)) = true /\
  currentScreenID (world (dispatch e ev w)) = currentScreenID w /\
  currentScreen (world (dispatch e ev w)) = currentScreen w /\
  currentScreenRotation (world (dispatch e ev w)) = currentScreenRotation w /\
  filter isLifecycle (effects (dispatch e ev w)) = [] /\
  filter isOnUserEvent (effects (dispatch e ev w)) = [] /\
  filter isReadGesture (effects (dispatch e ev w)) = [] /\
  filter isBacklight (effects (dispatch e ev w)) = [Backlight true].
Proof.
  intros Hon. unfold dispatch. fw_eval. rewrite Hon. fw_unfold.
  fw_run; repeat split; reflexivity.
Qed.


Lemma dispatch_none e w :
  isDisplayOn w = true ->
  currentScreenID w <> LOWBATT_SCREEN ->
  GES_NONE <> GES_FORWARD ->
  dispatch e GES_NONE w = Returned GES_NONE w [].
Proof.
  intros Hon Hid Hn. apply Z.eqb_neq in Hid, Hn. unfold dispatch.
  fw_eval. rewrite Hon. fw_eval. rewrite Hid, Hn, Z.eqb_refl. reflexivity.
Qed.

Lemma dispatch_claimed e ev w :
  isDisplayOn w = true ->
  currentScreenID w <> LOWBATT_SCREEN ->
  ev <> GES_FORWARD ->
  ev <> GES_NONE ->
  cancelEvent e = true ->
  dispatch e ev w =
  Returned ev w [ScreenOnUserEvent (inst (currentScreen w)) ev].
Proof.
  intros Hon Hid Hf Hn Hc. apply Z.eqb_neq in Hid, Hf, Hn. unfold dispatch.
  fw_eval. rewrite Hon. fw_eval. rewrite Hid, Hf, Hn. fw_eval.
  rewrite Hc. reflexivity.
Qed.







(** *** Ticks that read a gesture *)

(** The event phase reads a gesture only for a set latch, past the debounce
    second. *)
Lemma events_taken e w :
  In ReadGesture (effects (events e w)) ->
  eventFlag w = true /\
  usub (wrap32 (now w)) (lastEventProcessing w) > 1000.
Proof.
  unfold events. fw_eval. destruct (eventFlag w).
  - fw_eval.
    destruct (usub (wrap32 (now w)) (lastEventProcessing w) >? 1000) eqn:E.
    + intros _. split; [reflexivity|]. apply Z.gtb_gt. exact E.
    + intros [].
  - fw_unfold. fw_run; cbn; intuition discriminate.
Qed.

(** The phases around the event phase do not tell the screen about an
    event. *)
Lemma phases_tell_no_event e w :
  filter isOnUserEvent (effects (retryInit e w)) = [] /\
  filter isOnUserEvent (effects (averaging e w)) = [] /\
  filter isOnUserEvent (effects (lowBattery e w)) = [] /\
  filter isOnUserEvent (effects (render w)) = [].
Proof.
  repeat split.
  - unfold retryInit, initGesture, initGestureLoop. fw_unfold.
    fw_run; reflexivity.
  - fw_unfold. fw_run; reflexivity.
  - fw_unfold. fw_run; reflexivity.
  - fw_unfold. fw_run; reflexivity.
Qed.

(** The shape of a tick that reads a gesture: the low-battery phase
    returns, the event phase calls [dispatch] with the latch cleared and
    the timestamp taken, and the refresh follows. *)
Lemma taken_tick e w :
  In ReadGesture (effects (service e w)) ->
  exists l12 w3 l3 ev w4 l4 t' l5,
    lowBattery e (afterAveraging e w) = Returned tt w3 l3 /\
    dispatch e (eventOf e w)
      (set_eventFlag false
         (set_lastEventProcessing (wrap32 (now w3)) w3)) =
      Returned ev w4 l4 /\
    service e w =
      Returned tt
        (set_currentScreen (set_lastUpdate t' (currentScreen w4)) w4)
        (l12 ++ l3 ++ (ReadGesture :: l4) ++ l5) /\
    (filter isLifecycle l12 = [] /\ filter isOnUserEvent l12 = [] /\
     filter isReadGesture l12 = [] /\ filter isBacklight l12 = []) /\
    (filter isOnUserEvent l3 = [] /\ filter isReadGesture l3 = [] /\
     filter isBacklight l3 = []) /\
    (filter isLifecycle l5 = [] /\ filter isOnUserEvent l5 = [] /\
     filter isReadGesture l5 = [] /\ filter isBacklight l5 = []).
Proof.
  intros Hin.
  tick_phases e w.
  - pose proof (afterAveraging_eq e w _ _ _ _ H1 H2) as Ha.
    phase_fact H1 (retryInit_effects e w).
    phase_fact H2 (averaging_effects e w1).
    phase_fact H3 (lowBattery_frame e w2).
    phase_fact H3 (lowBattery_more e w2).
    phase_fact H5 (render_effects w4).
    phase_fact H1 (phases_tell_no_event e w).
    phase_fact H2 (phases_tell_no_event e w1).
    phase_fact H3 (phases_tell_no_event e w2).
    phase_fact H5 (phases_tell_no_event e w4).
    destruct F as (Rlc & _ & Rrd & Rbl), F0 as (Alc & _ & Ard & Abl),
      F1 as (_ & _ & _ & _ & Lrd & Lbl), F2 as (_ & _ & Lrot & _),
      F3 as (Plc & _ & Prd & Pbl), F4 as (Rue & _), F5 as (_ & Aue & _),
      F6 as (_ & _ & Lue & _), F7 as (_ & _ & _ & Pue).
    assert (Hev : In ReadGesture l4).
    { cbn [effects] in Hin.
      assert (Hf : filter isReadGesture (l1 ++ l2 ++ l3 ++ l4 ++ l5) =
                   filter isReadGesture l4).
      { rewrite !filter_app, Rrd, Ard, Lrd, Prd, app_nil_r. reflexivity. }
      assert (Hin' : In ReadGesture
                       (filter isReadGesture (l1 ++ l2 ++ l3 ++ l4 ++ l5))).
      { apply filter_In. split; [exact Hin|reflexivity]. }
      rewrite Hf in Hin'. apply filter_In in Hin'. exact (proj1 Hin'). }
    assert (Ht : eventFlag w3 = true /\
                 usub (wrap32 (now w3)) (lastEventProcessing w3) > 1000).
    { apply (events_taken e w3). rewrite H4. exact Hev. }
    destruct Ht as (Hf & Ht).
    rewrite (events_dispatch e w3 Hf Ht) in H4.
    assert (Hrot : currentScreenRotation w3 = currentScreenRotation w).
    { rewrite Lrot.
      destruct (averaging_world e w1) as (t & v & s & Hw2).
      rewrite H2 in Hw2. cbn [world] in Hw2. rewrite Hw2.
      destruct (retryInit_world e w) as (n & i & f & t0 & Hw1).
      rewrite H1 in Hw1. cbn [world] in Hw1. rewrite Hw1. reflexivity. }
    rewrite Hrot in H4. fold (eventOf e w) in H4.
    destruct (dispatch e (eventOf e w) _) as [ev w4' l4'|w4' l4'] eqn:Hd;
      [|discriminate].
    injection H4 as <- <- <-.
    phase_fact H5 (render_world w4'). destruct F as (t' & ->).
    exists (l1 ++ l2), w3, l3, ev, w4', l4', t', l5.
    rewrite Ha. split; [exact H3|]. split; [exact Hd|].
    split; [rewrite <- !app_assoc; reflexivity|].
    rewrite !filter_app, Rlc, Alc, Rue, Aue, Rrd, Ard, Rbl, Abl.
    repeat split; assumption.
  - exfalso. cbn [effects] in Hin.
    phase_fact H1 (retryInit_effects e w).
    phase_fact H2 (averaging_effects e w1).
    phase_fact H3 (lowBattery_frame e w2).
    destruct F as (_ & _ & Rrd & _), F0 as (_ & _ & Ard & _),
      F1 as (_ & _ & _ & _ & Lrd & _).
    assert (Hin' : In ReadGesture
                     (filter isReadGesture (l1 ++ l2 ++ l3))).
    { apply filter_In. split; [exact Hin|reflexivity]. }
    rewrite !filter_app, Rrd, Ard, Lrd in Hin'. exact Hin'.
Qed.

Lemma filter_taken (p : Effect -> bool) l12 l3 l4 l5 :
  filter p (l12 ++ l3 ++ (ReadGesture :: l4) ++ l5) =
  filter p l12 ++ filter p l3 ++
  (if p ReadGesture then [ReadGesture] else []) ++
  filter p l4 ++ filter p l5.
Proof.
  rewrite !filter_app. cbn [filter]. destruct (p ReadGesture); reflexivity.
Qed.

Lemma Qle_bool_not a b : ~ (a <= b)%Q -> Qle_bool a b = false.
Proof.
  intros H. destruct (Qle_bool a b) eqn:E; [|reflexivity].
  apply Qle_bool_iff in E. contradiction.
Qed.

(** X9: A tick that reads a gesture (it takes up a pending event) while the
    display is off switches the backlight on once and does nothing else
    with the event, whatever the gesture is: the screen is not told about
    it and the rotation stays.  The screen stays as well, with no call on
    its life cycle, when the averaged voltage is above VOLT_LOW or the
    screen is LOWBATT already; otherwise the low-battery handling of the
    same tick has replaced it by the LOWBATT screen, and that replacement
    is the only call on the life cycle of a screen. *)
Theorem event_with_display_off_only_wakes
    (e : Env) (w : World)
    (Htaken : In ReadGesture (effects (service e w)))
    (Hoff : isDisplayOn w = false) :
  let o := service e w in
  isDisplayOn (world o) = true /\
  currentScreenRotation (world o) = currentScreenRotation w /\
  filter isOnUserEvent (effects o) = [] /\
  filter isReadGesture (effects o) = [ReadGesture] /\
  filter isBacklight (effects o) = [Backlight true] /\
  (~ (voltageSeen e w <= VOLT_LOW)%Q \/
   currentScreenID w = LOWBATT_SCREEN ->
   currentScreenID (world o) = currentScreenID w /\
   inst (currentScreen (world o)) = inst (currentScreen w) /\
   kind (currentScreen (world o)) = kind (currentScreen w) /\
   filter isLifecycle (effects o) = []) /\
  ((voltageSeen e w <= VOLT_LOW)%Q ->
   currentScreenID w <> LOWBATT_SCREEN ->
   currentScreenID (world o) = LOWBATT_SCREEN /\
   inst (currentScreen (world o)) = nextInst w /\
   kind (currentScreen (world o)) = LOWBATT_SCREEN /\
   filter isLifecycle (effects o) =
     replacement (inst (currentScreen w)) LOWBATT_SCREEN (nextInst w)).
Proof.
  intros o. subst o.
  destruct (taken_tick e w Htaken)
    as (l12 & w3 & l3 & ev & w4 & l4 & t' & l5 & HL & Hd & Hs
        & (Plc & Pue & Prd & Pbl) & (Lue & Lrd & Lbl)
        & (Rlc & Rue & Rrd & Rbl)).
  destruct (afterAveraging_screen e w) as (Aid & Asc & Ani & Aon & _).
  phase_fact HL (lowBattery_frame e (afterAveraging e w)).
  phase_fact HL (lowBattery_more e (afterAveraging e w)).
  destruct F as (_ & _ & Lon & _), F0 as (_ & _ & Lrot & _).
  assert (Hoff3 : isDisplayOn
                    (set_eventFlag false
                       (set_lastEventProcessing (wrap32 (now w3)) w3)) =
                  false).
  { fw_fields. congruence. }
  match type of Hd with dispatch e ?ev0 ?w0 = _ =>
    phase_fact Hd (dispatch_wake e ev0 w0 Hoff3) end.
  destruct F as (Fon & Fid & Fsc & Frot & Flc & Fue & Frd & Fbl).
  fw_fields_in Fid. fw_fields_in Fsc. fw_fields_in Frot.
  assert (Hrot : currentScreenRotation (afterAveraging e w) =
                 currentScreenRotation w).
  { unfold afterAveraging.
    destruct (averaging_world e (world (retryInit e w)))
      as (t & v & s & ->).
    destruct (retryInit_world e w) as (n & i & f & t0 & ->). reflexivity. }
  rewrite Hs. cbn [world effects]. rewrite !filter_taken.
  rewrite Pue, Prd, Pbl, Plc, Lue, Lrd, Lbl, Rlc, Rue, Rrd, Rbl,
    Flc, Fue, Frd, Fbl.
  cbn [isLifecycle isOnUserEvent isReadGesture isBacklight app].
  rewrite !app_nil_r. fw_fields. rewrite Fsc.
  split; [exact Fon|]. split; [congruence|].
  split; [reflexivity|]. split; [reflexivity|]. split; [reflexivity|].
  split.
  - intros Hstay.
    assert (HL0 : lowBattery e (afterAveraging e w) =
                  Returned tt (afterAveraging e w) []).
    { destruct (lowBattery_cases e (afterAveraging e w))
        as [H|[(Hv & Hid)|Hr]].
      - exact H.
      - exfalso. destruct Hstay as [Hhigh|Hin].
        + apply Hhigh. apply Qle_bool_iff. exact Hv.
        + apply Z.eqb_neq in Hid. apply Hid. rewrite Aid. exact Hin.
      - rewrite HL in Hr. discriminate. }
    rewrite HL0 in HL. injection HL as <- <-.
    cbn [filter]. rewrite Fid, Aid, Asc. repeat split.
  - intros Hlow Hid.
    assert (Hv : Qle_bool (getVolt (afterAveraging e w)) VOLT_LOW = true)
      by (apply Qle_bool_iff; exact Hlow).
    assert (Hid' : (currentScreenID (afterAveraging e w) =? LOWBATT_SCREEN)
                   = false)
      by (apply Z.eqb_neq; rewrite Aid; exact Hid).
    rewrite (lowBattery_enter e (afterAveraging e w) Hv Hid') in HL.
    injection HL as <- <-. fw_fields_in Fid. fw_fields_in Fsc.
    rewrite Fid, Asc, Ani. fw_fields.
    repeat split.
    cbn [filter isLifecycle app replacement].
    rewrite !filter_app.
    destruct (isFullScreen LOWBATT_SCREEN), KILL_INSTALLED;
      reflexivity.
Qed.


(** X11: With the display on, a screen other than LOWBATT and the averaged
    voltage above VOLT_LOW, a tick that reads a gesture which decodes to
    "none", or to an event other than "forward" that the current screen
    claims, makes no transition: the screen, its identifier, the rotation
    and the display state stay, no call is made on the life cycle of a
    screen or on the backlight, and the timestamp of the last processed
    event becomes the time of the debounce test (the time at which the
    tick started, for a ready sensor).  The screen is asked exactly once,
    and only for an event other than "none". *)
Theorem claimed_event_changes_nothing
    (e : Env) (w : World)
    (Htaken : In ReadGesture (effects (service e w)))
    (Hon : isDisplayOn w = true)
    (Hid : currentScreenID w <> LOWBATT_SCREEN)
    (Hvolt : ~ (voltageSeen e w <= VOLT_LOW)%Q)
    (Hfwd : eventOf e w <> GES_FORWARD)
    (Hclaim : eventOf e w = GES_NONE \/ cancelEvent e = true) :
  let o := service e w in
  isDisplayOn (world o) = true /\
  currentScreenID (world o) = currentScreenID w /\
  inst (currentScreen (world o)) = inst (currentScreen w) /\
  kind (currentScreen (world o)) = kind (currentScreen w) /\
  currentScreenRotation (world o) = currentScreenRotation w /\
  lastEventProcessing (world o) = wrap32 (now (afterAveraging e w)) /\
  filter isLifecycle (effects o) = [] /\
  filter isBacklight (effects o) = [] /\
  filter isOnUserEvent (effects o) =
    (if eventOf e w =? GES_NONE then []
     else [ScreenOnUserEvent (inst (currentScreen w)) (eventOf e w)]) /\
  (sensorReady w -> now (afterAveraging e w) = now w).
Proof.
  intros o. subst o.
  destruct (taken_tick e w Htaken)
    as (l12 & w3 & l3 & ev & w4 & l4 & t' & l5 & HL & Hd & Hs
        & (Plc & Pue & Prd & Pbl) & (Lue & Lrd & Lbl)
        & (Rlc & Rue & Rrd & Rbl)).
  destruct (afterAveraging_screen e w) as (Aid & Asc & Ani & Aon & _).
  assert (Hrot : currentScreenRotation (afterAveraging e w) =
                 currentScreenRotation w).
  { unfold afterAveraging.
    destruct (averaging_world e (world (retryInit e w)))
      as (t & v & s & ->).
    destruct (retryInit_world e w) as (n & i & f & t0 & ->). reflexivity. }
  rewrite lowBattery_idle in HL.
  2: exact (Qle_bool_not _ _ Hvolt).
  2:{ rewrite HL. reflexivity. }
  injection HL as <- <-.
  assert (Hon0 : isDisplayOn
                   (set_eventFlag false
                      (set_lastEventProcessing
                         (wrap32 (now (afterAveraging e w)))
                         (afterAveraging e w))) = true).
  { fw_fields. congruence. }
  assert (Hid0 : currentScreenID
                   (set_eventFlag false
                      (set_lastEventProcessing
                         (wrap32 (now (afterAveraging e w)))
                         (afterAveraging e w))) <> LOWBATT_SCREEN).
  { fw_fields. congruence. }
  rewrite Hs. cbn [world effects]. rewrite !filter_taken.
  rewrite Plc, Pue, Pbl, Rlc, Rue, Rbl.
  cbn [filter isLifecycle isOnUserEvent isBacklight app].
  rewrite !app_nil_r.
  assert (Last : sensorReady w -> now (afterAveraging e w) = now w).
  { intros Hr. exact (proj1 (afterAveraging_ready e w Hr)). }
  destruct (Z.eqb_spec (eventOf e w) GES_NONE) as [En|En].
  - rewrite En in *. rewrite dispatch_none in Hd by assumption.
    injection Hd as <- <- <-. fw_fields. cbn [filter].
    rewrite Aon, Aid, Asc, Hrot. repeat split; assumption.
  - destruct Hclaim as [Hc|Hc]; [contradiction|].
    rewrite dispatch_claimed in Hd by assumption.
    injection Hd as <- <- <-. fw_fields. cbn [filter isLifecycle
      isBacklight isOnUserEvent].
    rewrite Aon, Aid, Asc, Hrot. repeat split; assumption.
Qed.




(** *** The gesture sensor *)

(** The attempts of [initGesture]: the answer, the time and the calls of
    [begin()]. *)
Lemma initGesture_attempts (e : Env) (w : World) :
  exists w' l,
    initGesture e w = Returned (Nat.ltb (failedAttempts e) 3) w' l /\
    now w' = now w + 2000 * Z.of_nat (failedAttempts e) /\
    count isBegin l = Nat.min 3 (S (failedAttempts e)).
Proof.
  unfold failedAttempts, initGesture. cbn [failuresFrom initGestureLoop].
  fw_unfold.
  destruct (beginError e 0 =? 0); [|destruct (beginError e 1 =? 0);
    [|destruct (beginError e 2 =? 0)]];
    fw_run; do 2 eexists; (split; [reflexivity|]);
    unfold count; cbn [filter isBegin length app]; fw_fields;
    repeat split; lia.
Qed.

(** X3: [initGesture] calls [begin()] until it succeeds, at most three
    times; every failure is logged and followed by a wait of two seconds. It
    returns whether one of the three calls succeeded. *)
Theorem initGesture_three_attempts (e : Env) (w : World) :
  let k := failedAttempts e in
  exists w' l,
    initGesture e w = Returned (Nat.ltb k 3) w' l /\
    now w' = now w + 2000 * Z.of_nat k /\
    count isBegin l = Nat.min 3 (S k) /\
    count isErrLog l = k /\
    count isDelay l = k.
Proof.
  unfold failedAttempts, initGesture. cbn [failuresFrom initGestureLoop].
  fw_unfold.
  destruct (beginError e 0 =? 0); [|destruct (beginError e 1 =? 0);
    [|destruct (beginError e 2 =? 0)]];
    fw_run; do 2 eexists; (split; [reflexivity|]);
    unfold count; cbn [filter isBegin isErrLog isDelay length app];
    fw_fields; repeat split; lia.
Qed.

Lemma retryInit_retry e w :
  ENABLE_SENSORS = true ->
  initSuccess w = false ->
  initSuccess (world (retryInit e w)) = Nat.ltb (failedAttempts e) 3 /\
  count isBegin (effects (retryInit e w)) = Nat.min 3 (S (failedAttempts e)).
Proof.
  intros He Hi. unfold retryInit. rewrite He. fw_eval. rewrite Hi. fw_eval.
  destruct (initGesture_attempts e w) as (w' & l & -> & _ & Hb).
  cbn [prepend world effects]. split; [reflexivity|].
  match goal with |- context [?f l []] => change (f l []) with (l ++ []) end.
  rewrite app_nil_r. exact Hb.
Qed.

(** X4: A tick that finds the sensor not initialised retries [initGesture]
    and keeps its answer; once the sensor is initialised no later tick calls
    [begin()] again. *)
Theorem sensor_retry_until_ready (e : Env) (w : World) :
  (ENABLE_SENSORS = true -> initSuccess w = false ->
   initSuccess (world (service e w)) = Nat.ltb (failedAttempts e) 3 /\
   count isBegin (effects (service e w)) =
     Nat.min 3 (S (failedAttempts e))) /\
  (sensorReady w ->
   forall steps : list Step,
     sensorReady (world (run steps w)) /\
     filter isBegin (effects (run steps w)) = []).
Proof.
  split.
  - intros He Hi. destruct (retryInit_retry e w He Hi) as (Ri & Rb).
    tick_phases e w;
      phase_fact H1 Ri; phase_fact H1 Rb;
      phase_fact H2 (averaging_world e w1);
      phase_fact H2 (averaging_more e w1);
      phase_fact H3 (lowBattery_more e w2);
      destruct F1 as (t & v & s & ->), F2 as (Ab & _),
               F3 as (Li & _ & _ & Lb & _);
      cbn [world effects]; unfold count in *.
    + phase_fact H4 (events_more e w3). phase_fact H5 (render_world w4).
      phase_fact H5 (render_more w4).
      destruct F1 as (Ei & _ & Eb & _), F2 as (t' & ->), F3 as (Rb' & _).
      rewrite !filter_app, Ab, Lb, Eb, Rb', !app_nil_r.
      split; [|exact F0]. cbn in *. congruence.
    + rewrite !filter_app, Ab, Lb, !app_nil_r.
      split; [|exact F0]. cbn in *. congruence.
  - intros Hr steps. revert w Hr.
    apply (run_invariant sensorReady isBegin).
    apply step_cases; try reflexivity.
    + intros w f t Hw. exact Hw.
    + intros w n Hw. exact Hw.
    + intros e' w Hw. apply tick_sensor. exact Hw.
Qed.

(** *** The backlight *)

Lemma displaySwitch_step (c : bool) w :
  let m := if c then displayOn else displayOff in
  isDisplayOn (world (m w)) = c /\
  displayInitialized (world (m w)) = true /\
  rebooted (m w) = false /\
  count isBacklight (effects (m w)) = 1%nat /\
  count isPinMode (effects (m w)) =
    (if displayInitialized w then 0 else 1)%nat.
Proof.
  destruct c; cbn zeta; fw_unfold; fw_run; repeat split;
    first [reflexivity|assumption].
Qed.

Lemma last_cons (c : bool) rest d : last (c :: rest) d = last rest c.
Proof.
  revert c d. induction rest as [|a rest IH]; intros c d; [reflexivity|].
  change (last (c :: a :: rest) d) with (last (a :: rest) d).
  rewrite (IH a d), (IH a c). reflexivity.
Qed.

(** X5: Over any sequence of calls of [displayOn] and [displayOff], the
    backlight pin is written once per call and configured as an output at
    most once: by the first call, if the display was not yet initialised.
    The display state is the one the last call asked for. *)
Theorem backlight_pin_configured_once (cmds : list bool) (w : World) :
  let o := switchDisplay cmds w in
  rebooted o = false /\
  isDisplayOn (world o) = last cmds (isDisplayOn w) /\
  displayInitialized (world o) =
    (displayInitialized w || negb (Nat.eqb (length cmds) 0)) /\
  count isBacklight (effects o) = length cmds /\
  count isPinMode (effects o) =
    (if displayInitialized w then 0
     else if Nat.eqb (length cmds) 0 then 0 else 1)%nat.
Proof.
  cbn zeta. revert w. induction cmds as [|c rest IH]; intros w.
  - cbn. rewrite orb_false_r. destruct (displayInitialized w);
      repeat split; reflexivity.
  - cbn [switchDisplay]. unfold bind.
    destruct (displaySwitch_step c w) as (Son & Sin & Sr & Sb & Sp).
    cbn zeta in *.
    destruct ((if c then displayOn else displayOff) w) as [[] w1 l1|w1 l1];
      [|discriminate].
    cbn [world effects] in *.
    destruct (IH w1) as (Rr & Ron & Rin & Rb & Rp).
    rewrite prepend_rebooted, prepend_world, prepend_effects, !count_app.
    rewrite Rr, Ron, Rin, Rb, Rp, Sb, Sp, Sin, Son, last_cons.
    cbn [length Nat.eqb negb orb]. rewrite orb_true_r.
    repeat split. destruct (displayInitialized w); lia.
Qed.

(** *** Swipe navigation *)

(** X6: Inside the swipe cycle 1 .. count-1, [handleSwipe] stays inside the
    cycle for every event; "right" from the last screen gives the first and
    "left" from the first gives the last. *)
Theorem handleSwipe_stays_in_cycle
    (evt curScrn : Z)
    (Hcount : 2 <= getScreenCount)
    (Hcur : inCycle curScrn) :
  inCycle (handleSwipe evt curScrn) /\
  handleSwipe GES_RIGHT (getScreenCount - 1) = 1 /\
  (GES_LEFT <> GES_RIGHT -> handleSwipe GES_LEFT 1 = getScreenCount - 1).
Proof.
  unfold inCycle, handleSwipe in *. repeat split.
  - destruct (evt =? GES_RIGHT); [|destruct (evt =? GES_LEFT)];
      cbn zeta;
      repeat match goal with
             | |- context [?a >=? ?b] => destruct (Z.geb_spec a b)
             | |- context [?a <? ?b] => destruct (Z.ltb_spec a b)
             end; lia.
  - destruct (evt =? GES_RIGHT); [|destruct (evt =? GES_LEFT)];
      cbn zeta;
      repeat match goal with
             | |- context [?a >=? ?b] => destruct (Z.geb_spec a b)
             | |- context [?a <? ?b] => destruct (Z.ltb_spec a b)
             end; lia.
  - rewrite Z.eqb_refl. cbn zeta.
    destruct (Z.geb_spec (getScreenCount - 1 + 1) getScreenCount); lia.
  - intros Hlr. apply Z.eqb_neq in Hlr. rewrite Hlr, Z.eqb_refl. reflexivity.
Qed.

(** X7: Inside the swipe cycle "left" undoes "right" and "right" undoes
    "left". *)
Theorem handleSwipe_left_right_inverse
    (curScrn : Z)
    (Hcount : 2 <= getScreenCount)
    (Hcur : inCycle curScrn)
    (Hlr : GES_LEFT <> GES_RIGHT) :
  handleSwipe GES_LEFT (handleSwipe GES_RIGHT curScrn) = curScrn /\
  handleSwipe GES_RIGHT (handleSwipe GES_LEFT curScrn) = curScrn.
Proof.
  unfold inCycle, handleSwipe in *. apply Z.eqb_neq in Hlr.
  rewrite Hlr, !Z.eqb_refl. cbn zeta.
  split;
    repeat match goal with
           | |- context [?a >=? ?b] => destruct (Z.geb_spec a b)
           | |- context [?a <? ?b] => destruct (Z.ltb_spec a b)
           | H : context [?a >=? ?b] |- _ => destruct (Z.geb_spec a b)
           | H : context [?a <? ?b] |- _ => destruct (Z.ltb_spec a b)
           end; lia.
Qed.

(** *** Gesture decoding *)

Lemma quarter_turn_table :
  NoDup caseLabels ->
  forall rotation, rotation <> 0 ->
    (remap 0 GES_UP = GES_LEFT /\ remap 0 GES_LEFT = GES_DOWN /\
     remap 0 GES_DOWN = GES_RIGHT /\ remap 0 GES_RIGHT = GES_UP) /\
    (remap rotation GES_UP = GES_RIGHT /\
     remap rotation GES_RIGHT = GES_DOWN /\
     remap rotation GES_DOWN = GES_LEFT /\
     remap rotation GES_LEFT = GES_UP).
Proof.
  intros Hlabels rotation Hrot.
  destruct (caseLabels_distinct Hlabels)
    as (Hdu & Hlu & Hld & Hru & Hrd & Hrl & _).
  apply Z.eqb_neq in Hdu, Hlu, Hld, Hru, Hrd, Hrl, Hrot.
  unfold remap.
  rewrite ?Z.eqb_refl, ?Hdu, ?Hlu, ?Hld, ?Hru, ?Hrd, ?Hrl, ?Hrot.
  cbn. repeat split; reflexivity.
Qed.

(** X8: The decoding with rotation 0 and the decoding with the screen
    rotated undo each other on every raw code, so each is a bijection of the
    codes. *)
Theorem remap_rotations_inverse
    (rotation g : Z)
    (Hlabels : NoDup caseLabels)
    (Hrot : rotation <> 0) :
  remap rotation (remap 0 g) = g /\ remap 0 (remap rotation g) = g.
Proof.
  destruct (quarter_turn_table Hlabels rotation Hrot)
    as ((A1 & A2 & A3 & A4) & (B1 & B2 & B3 & B4)).
  destruct (Z.eq_dec g GES_UP) as [->|N1];
    [repeat (progress rewrite ?A1, ?A2, ?A3, ?A4, ?B1, ?B2, ?B3, ?B4);
     split; reflexivity|].
  destruct (Z.eq_dec g GES_DOWN) as [->|N2];
    [repeat (progress rewrite ?A1, ?A2, ?A3, ?A4, ?B1, ?B2, ?B3, ?B4);
     split; reflexivity|].
  destruct (Z.eq_dec g GES_LEFT) as [->|N3];
    [repeat (progress rewrite ?A1, ?A2, ?A3, ?A4, ?B1, ?B2, ?B3, ?B4);
     split; reflexivity|].
  destruct (Z.eq_dec g GES_RIGHT) as [->|N4];
    [repeat (progress rewrite ?A1, ?A2, ?A3, ?A4, ?B1, ?B2, ?B3, ?B4);
     split; reflexivity|].
  assert (Ho : forall r, remap r g = g).
  { intros r. apply remap_other. cbn [In]. intuition congruence. }
  rewrite !Ho. split; reflexivity.
Qed.

(** *** Restart, LOWBATT and the KILL build *)

Lemma lowBattery_restart_calls e w :
  rebooted (lowBattery e w) = true ->
  now (world (lowBattery e w)) = now w + 1000 /\
  exists l, effects (lowBattery e w) =
            Syslog LOG_INFO :: Delay 1000 :: l ++ [EspRestart].
Proof.
  fw_unfold. fw_run; intros; try discriminate; fw_fields;
    (split; [lia|]);
    first [exists [Force]; reflexivity | exists []; reflexivity].
Qed.

(** X15: A tick restarts the device exactly when, in LOWBATT, it finds the
    averaged voltage above VOLT_LOW and above the midpoint of the range. It
    then logs, waits one second and restarts, before any event is read and
    without a call on a screen or a sensor task. *)
Theorem restart_only_on_recharge (e : Env) (w : World) :
  let o := service e w in
  (rebooted o = true <->
   ~ (voltageSeen e w <= VOLT_LOW)%Q /\
   ((VOLT_HIGH + VOLT_LOW) / 2 < voltageSeen e w)%Q /\
   currentScreenID w = LOWBATT_SCREEN) /\
  (rebooted o = true ->
   (exists pre l,
      effects o = pre ++ Syslog LOG_INFO :: Delay 1000 :: l ++ [EspRestart]) /\
   now (world o) = now (afterAveraging e w) + 1000 /\
   currentScreenID (world o) = LOWBATT_SCREEN /\
   filter isLifecycle (effects o) = [] /\
   filter isAnyDisable (effects o) = [] /\
   filter isReadGesture (effects o) = []).
Proof.
  cbn zeta. split.
  - rewrite service_restart_iff. split.
    + intros (H1 & H2 & H3). repeat split; try assumption.
      * intros Hle. apply Qle_bool_iff in Hle. congruence.
      * apply Qgtb_true. exact H2.
    + intros (H1 & H2 & H3). repeat split; try assumption.
      * destruct (Qle_bool (voltageSeen e w) VOLT_LOW) eqn:E;
          [|reflexivity].
        apply Qle_bool_iff in E. contradiction.
      * unfold Qgtb. apply negb_true_iff.
        destruct (Qle_bool (voltageSeen e w) ((VOLT_HIGH + VOLT_LOW) / 2))
          eqn:E; [|reflexivity].
        apply Qle_bool_iff in E. exfalso.
        apply (Qlt_not_le _ _ H2). exact E.
  - intros Hr.
    destruct (afterAveraging_screen e w) as (Sid & _).
    tick_phases e w; [discriminate|].
    pose proof (afterAveraging_eq e w _ _ _ _ H1 H2) as Ha.
    rewrite Ha in *.
    phase_fact H1 (retryInit_effects e w).
    phase_fact H2 (averaging_effects e w1).
    phase_fact H3 (lowBattery_restart e w2).
    phase_fact H3 (lowBattery_restart_calls e w2).
    destruct F as (Ilc & Idis & Ird & _), F0 as (Alc & Adis & Ard & _).
    destruct F1 as (_ & _ & Lid & _ & _ & Llc & Ldis & Lrd & _);
      [reflexivity|].
    destruct F2 as (Ln & l & ->); [reflexivity|].
    cbn [world effects]. repeat split.
    + exists (l1 ++ l2), l. rewrite <- app_assoc. reflexivity.
    + exact Ln.
    + phase_fact H3 (lowBattery_in_lowbatt e w2).
      apply F. exact Lid.
    + rewrite !filter_app, Ilc, Alc. exact Llc.
    + rewrite !filter_app, Idis, Adis. exact Ldis.
    + rewrite !filter_app, Ird, Ard. exact Lrd.
Qed.

Lemma filter_or_nil (p q : Effect -> bool) l :
  filter (fun x => p x || q x) l = [] ->
  filter p l = [] /\ filter q l = [].
Proof.
  induction l as [|x l IH]; [split; reflexivity|]. cbn [filter].
  destruct (p x), (q x); cbn [orb]; try discriminate. exact IH.
Qed.

(** X16: LOWBATT is left by a restart only: whatever the voltage, the events
    and the time that passes, a run that starts in LOWBATT stays in LOWBATT,
    makes no call on the life cycle of a screen and disables no task. *)
Theorem lowbatt_is_absorbing
    (steps : list Step) (w : World)
    (Hid : currentScreenID w = LOWBATT_SCREEN) :
  currentScreenID (world (run steps w)) = LOWBATT_SCREEN /\
  filter isLifecycle (effects (run steps w)) = [] /\
  filter isAnyDisable (effects (run steps w)) = [].
Proof.
  set (I := fun w => currentScreenID w = LOWBATT_SCREEN).
  set (p := fun x => isLifecycle x || isAnyDisable x).
  assert (Hstep : forall s w', I w' ->
            I (world (step s w')) /\ filter p (effects (step s w')) = []).
  { apply (step_cases I p); try reflexivity.
    - intros w' f t Hw. exact Hw.
    - intros w' n Hw. exact Hw.
    - intros e w' Hw. apply tick_lowbatt_any. exact Hw. }
  destruct (run_invariant I p Hstep steps w Hid) as (Hk & Hf).
  split; [exact Hk|]. apply filter_or_nil. exact Hf.
Qed.

(** X17: With the KILL modification (KILL_INSTALLED defined) no run ever
    calls disable() on a sensor task. *)
Theorem kill_installed_never_disables
    (steps : list Step) (w : World)
    (Hkill : KILL_INSTALLED = true) :
  filter isAnyDisable (effects (run steps w)) = [].
Proof.
  set (J := fun _ : World => True).
  assert (Hstep : forall s w', J w' ->
            J (world (step s w')) /\
            filter isAnyDisable (effects (step s w')) = []).
  { apply (step_cases J isAnyDisable); try reflexivity;
      try (intros; exact I).
    intros e w' _. split; [exact I|]. apply tick_kill. exact Hkill. }
  exact (proj2 (run_invariant J isAnyDisable Hstep steps w I)).
Qed.

(** X18: The rotation only takes the values 0 and 2. *)
Theorem rotation_is_0_or_2
    (steps : list Step) (w : World)
    (Hrot : currentScreenRotation w = 0 \/ currentScreenRotation w = 2) :
  currentScreenRotation (world (run steps w)) = 0 \/
  currentScreenRotation (world (run steps w)) = 2.
Proof.
  set (I := fun w => currentScreenRotation w = 0 \/
                      currentScreenRotation w = 2).
  set (p := fun _ : Effect => false).
  assert (Hstep : forall s w', I w' ->
            I (world (step s w')) /\ filter p (effects (step s w')) = []).
  { apply (step_cases I p); try reflexivity.
    - intros w' f t Hw. exact Hw.
    - intros w' n Hw. exact Hw.
    - intros e w' Hw. split; [apply tick_rotation; exact Hw|].
      induction (effects (service e w')) as [|x l IH];
        [reflexivity|exact IH]. }
  exact (proj1 (run_invariant I p Hstep steps w Hrot)).
Qed.

(** *** Start-up and the life cycle of screens *)

Lemma run_slot steps :
  forall w,
    slotRun (Holds (inst (currentScreen w)) true) (effects (run steps w)) =
    Some (Holds (inst (currentScreen (world (run steps w)))) true).
Proof.
  induction steps as [|s rest IH]; intros w; [reflexivity|].
  rewrite run_step.
  assert (Hs : slotRun (Holds (inst (currentScreen w)) true)
                 (effects (step s w)) =
               Some (Holds (inst (currentScreen (world (step s w)))) true)).
  { destruct s as [|ms|e]; cbn [step].
    - destruct (onGesture_world w) as (f & t & ->).
      destruct (onGesture_effects w) as [-> | ->]; reflexivity.
    - reflexivity.
    - apply tick_slot. }
  destruct (step s w) as [[] w1 l1|w1 l1]; cbn [world effects] in *.
  - rewrite prepend_world, prepend_effects.
    rewrite (slotRun_app _ _ _ _ Hs). apply IH.
  - exact Hs.
Qed.

Lemma recorded_app l1 l2 : recorded (l1 ++ l2) = recorded l1 ++ recorded l2.
Proof.
  induction l1 as [|c l1 IH]; [reflexivity|].
  destruct c; cbn; rewrite IH; reflexivity.
Qed.

Lemma recorded_map l : recorded (map Fw l) = l.
Proof.
  induction l as [|x l IH]; [reflexivity|]. cbn. rewrite IH. reflexivity.
Qed.

Lemma initGesture_before_attach e w :
  (exists n, world (initGesture (beforeAttach e) w) = set_now n w) /\
  filter isLifecycle (effects (initGesture (beforeAttach e) w)) = [] /\
  filter isGetVCell (effects (initGesture (beforeAttach e) w)) = [].
Proof.
  split; [|split].
  - exists (now (world (initGesture (beforeAttach e) w))).
    rewrite (world_eta (world (initGesture (beforeAttach e) w))).
    unfold initGesture. cbn [initGestureLoop]. fw_unfold.
    cbn [beforeAttach irqDuring beginError].
    fw_run; reflexivity.
  - unfold initGesture. cbn [initGestureLoop]. fw_unfold.
    cbn [beforeAttach irqDuring beginError].
    fw_run; reflexivity.
  - unfold initGesture. cbn [initGestureLoop]. fw_unfold.
    cbn [beforeAttach irqDuring beginError].
    fw_run; reflexivity.
Qed.

(** [setup], call by call. *)
Lemma setup_shape start e w0 :
  exists la,
    filter isLifecycle la = [] /\
    filter isGetVCell la = [] /\
    count isBegin la = Nat.min 3 (S (failedAttempts e)) /\
    let i := nextInst w0 in
    let t := now w0 + 1000 + 2000 * Z.of_nat (failedAttempts e) in
    setup start e w0 =
    (set_eventTime (wrap32 t)
       (set_currentScreen (mkScreen i start 0)
          (set_nextInst (S i)
             (set_currentScreenID start
                (set_initSuccess (Nat.ltb (failedAttempts e) 3)
                   (set_now t
                      (set_avgVolt (push (vcell e) (avgVolt w0)) w0)))))),
     [BatteryReset; BatteryQuickStart; Fw (Delay 1000); Fw GetVCell] ++
     map Fw la ++
     [Fw ReadGesture; PinModeGestureInput; AttachInterrupt;
      Fw (ScreenCreate start i); Fw (ScreenActivate i); Fw (ScreenUpdate i);
      Fw (SetPeriod (getRefreshPeriod start))] ++
     (if isFullScreen start then [] else [Fw (DrawBar true)])).
Proof.
  set (wb := set_avgVolt (push (vcell e) (avgVolt w0))
               (set_now (now w0 + 1000) w0)).
  destruct (initGesture_attempts (beforeAttach e) wb)
    as (wa & la & Hi & Hn & Hb).
  change (failedAttempts (beforeAttach e)) with (failedAttempts e) in *.
  destruct (initGesture_before_attach e wb) as ((n & Hw) & Hl & Hg).
  rewrite Hi in Hw, Hl, Hg. cbn [world effects] in Hw, Hl, Hg. subst wa.
  subst wb. fw_fields_in Hn. fw_fields_in Hi.
  exists la. split; [exact Hl|]. split; [exact Hg|].
  split; [exact Hb|]. cbn zeta.
  unfold setup, batterySetup, andThen, call, fw, pause, getUserEvent,
    createScreen, activate, applyPeriod, redrawBar.
  fw_eval. rewrite Hi. fw_eval. rewrite Hn.
  destruct (isFullScreen start); cbn [negb]; fw_eval;
    fold (@app BootCall); (apply f_equal2; [reflexivity|]);
    fold (@app Effect); rewrite ?app_nil_r, <- ?app_assoc; reflexivity.
Qed.

(** X1: [setup] leaves the start screen created, activated and drawn once,
    in that order and after the interrupt handler is attached; the gesture
    sensor is tried before the handler is attached, [initSuccess] tells
    whether one of the three attempts succeeded, the first voltage sample is
    in the filter and the idle time of the backlight starts at the end of
    [setup]. The status bar is drawn exactly for a screen that is not
    full-screen. The display flags are not touched. *)
Theorem setup_brings_up_start_screen (start : Z) (e : Env) (w0 : World) :
  let w1 := fst (setup start e w0) in
  let calls := snd (setup start e w0) in
  currentScreenID w1 = start /\
  currentScreen w1 = mkScreen (nextInst w0) start 0 /\
  initSuccess w1 = Nat.ltb (failedAttempts e) 3 /\
  avgVolt w1 = push (vcell e) (avgVolt w0) /\
  now w1 = now w0 + 1000 + 2000 * Z.of_nat (failedAttempts e) /\
  eventTime w1 = wrap32 (now w1) /\
  isDisplayOn w1 = isDisplayOn w0 /\
  displayInitialized w1 = displayInitialized w0 /\
  eventFlag w1 = eventFlag w0 /\
  (exists before,
     calls = before ++
       [AttachInterrupt; Fw (ScreenCreate start (nextInst w0));
        Fw (ScreenActivate (nextInst w0)); Fw (ScreenUpdate (nextInst w0));
        Fw (SetPeriod (getRefreshPeriod start))] ++
       (if isFullScreen start then [] else [Fw (DrawBar true)]) /\
     count isBegin (recorded before) = Nat.min 3 (S (failedAttempts e)) /\
     count isGetVCell (recorded before) = 1%nat /\
     filter isLifecycle (recorded before) = []).
Proof.
  cbn zeta. destruct (setup_shape start e w0) as (la & Hl & Hg & Hb & Hs).
  cbn zeta in Hs. rewrite Hs. cbn [fst snd]. fw_fields.
  repeat (split; [reflexivity|]).
  exists ([BatteryReset; BatteryQuickStart; Fw (Delay 1000); Fw GetVCell] ++
          map Fw la ++ [Fw ReadGesture; PinModeGestureInput]).
  split; [rewrite <- !app_assoc; reflexivity|].
  rewrite !recorded_app, recorded_map. cbn [recorded app].
  unfold count in *. cbn [filter isBegin isGetVCell isLifecycle].
  rewrite !filter_app. cbn [filter isBegin isGetVCell isLifecycle].
  rewrite Hl, Hg, !length_app, Hb. cbn [length app].
  repeat split; try lia.
Qed.

(** X2: From power-on, through [setup] and any run of ticks, interrupts and
    delays: the calls on the life cycle of screens keep the discipline
    create, activate, deactivate, delete (a delete only after a deactivate,
    a create only with no object left, an activate or a deactivate only of
    the one object held), and at the end of the run one screen is held and
    active: the current one. *)
Theorem screen_life_cycle_from_setup
    (start : Z) (e : Env) (w0 : World) (steps : list Step) :
  let w1 := fst (setup start e w0) in
  let calls := recorded (snd (setup start e w0)) in
  slotRun Vacant (calls ++ effects (run steps w1)) =
  Some (Holds (inst (currentScreen (world (run steps w1)))) true).
Proof.
  cbn zeta. destruct (setup_shape start e w0) as (la & Hl & _ & _ & Hs).
  cbn zeta in Hs. rewrite Hs. cbn [fst snd].
  set (w1 := set_eventTime _ _).
  assert (Hboot : forall tail,
            slotRun Vacant
              (recorded
                 ([BatteryReset; BatteryQuickStart; Fw (Delay 1000);
                   Fw GetVCell] ++ map Fw la ++
                  [Fw ReadGesture; PinModeGestureInput; AttachInterrupt;
                   Fw (ScreenCreate start (nextInst w0));
                   Fw (ScreenActivate (nextInst w0));
                   Fw (ScreenUpdate (nextInst w0));
                   Fw (SetPeriod (getRefreshPeriod start))] ++ tail)) =
            slotRun (Holds (nextInst w0) true) (recorded tail)).
  { intros tail. rewrite !recorded_app, recorded_map.
    cbn [recorded app slotRun slotStep].
    rewrite (slotRun_app la _ Vacant Vacant (slotRun_quiet la Vacant Hl)).
    cbn [slotRun slotStep]. rewrite Nat.eqb_refl. reflexivity. }
  erewrite slotRun_app.
  - change (nextInst w0) with (inst (currentScreen w1)) in Hboot.
    apply (run_slot steps w1).
  - rewrite Hboot.
    destruct (isFullScreen start); reflexivity.
Qed.

(** *** Battery sampling and the sleeping device *)

Lemma averaging_cases e w :
  let due :=
    to_long (wrap32 (now w)) >? to_long (lastBatteryAveraging w + 10000) in
  effects (averaging e w) = (if due then [GetVCell] else []) /\
  lastBatteryAveraging (world (averaging e w)) =
    (if due then to_long (wrap32 (now w)) else lastBatteryAveraging w) /\
  avgVolt (world (averaging e w)) =
    (if due then push (vcell e) (avgVolt w) else avgVolt w) /\
  avgSOC (world (averaging e w)) =
    (if due then push (socSample (getVolt (world (averaging e w)))) (avgSOC w)
     else avgSOC w) /\
  (due = false -> averaging e w = Returned tt w []).
Proof.
  cbn zeta. fw_unfold. fw_eval.
  destruct (to_long (wrap32 (now w)) >?
            to_long (lastBatteryAveraging w + 10000));
    fw_eval; repeat split; intros; try reflexivity; discriminate.
Qed.

(** X19: The battery is read by the averaging step only, and only when the
    test of line 107 holds: the signed clock [(long)millis()] is greater
    than [lastBatteryAveraging + 10000], a sum of [long]s that wraps around
    in 32 bits.  A tick with the sensor ready reads the cell voltage once
    when the reading is due and never otherwise; a reading stamps
    [lastBatteryAveraging] and pushes one sample into each filter, the
    state-of-charge sample being computed from the new averaged voltage. *)
Theorem battery_read_when_due (e : Env) (w : World)
    (Hready : sensorReady w) :
  let due :=
    to_long (wrap32 (now w)) >? to_long (lastBatteryAveraging w + 10000) in
  let w' := world (service e w) in
  count isGetVCell (effects (service e w)) = (if due then 1 else 0)%nat /\
  lastBatteryAveraging w' =
    (if due then to_long (wrap32 (now w)) else lastBatteryAveraging w) /\
  avgVolt w' = (if due then push (vcell e) (avgVolt w) else avgVolt w) /\
  avgSOC w' =
    (if due then push (socSample (voltageSeen e w)) (avgSOC w)
     else avgSOC w).
Proof.
  cbn zeta. unfold voltageSeen.
  pose proof (retryInit_ready e w Hready) as R.
  pose proof (averaging_cases e w) as A. cbn zeta in A.
  tick_phases e w; rewrite R in H1; injection H1 as <- <-;
    rewrite (afterAveraging_eq e w _ _ _ _ R H2);
    rewrite H2 in A; cbn [world effects] in A;
    destruct A as (Ae & Al & Av & As & _);
    phase_fact H3 (lowBattery_more e w2);
    phase_fact H3 (lowBattery_frame e w2);
    destruct F as (_ & Ll & _ & _ & Lg & _), F0 as (Ls & Lv & _).
  - phase_fact H4 (events_more e w3).
    phase_fact H4 (events_summary e w3).
    phase_fact H5 (render_more w4).
    destruct (render_world w4) as (t & Hw5). rewrite H5 in Hw5.
    cbn [world] in Hw5. subst w5.
    destruct F as (_ & El & _ & Eg & _), F0 as (Es & Ev & _),
      F1 as (_ & Rg).
    cbn [world effects]. fw_fields.
    unfold count. rewrite !filter_app, Lg, Eg, Rg, !app_nil_r.
    rewrite El, Ll, Es, Ls, Ev, Lv, Ae, Al, Av, As.
    destruct (to_long (wrap32 (now w)) >?
              to_long (lastBatteryAveraging w + 10000));
      repeat split; reflexivity.
  - cbn [world effects].
    unfold count. rewrite !filter_app, Lg, !app_nil_r.
    rewrite Ll, Ls, Lv, Ae, Al, Av, As.
    destruct (to_long (wrap32 (now w)) >?
              to_long (lastBatteryAveraging w + 10000));
      repeat split; reflexivity.
Qed.

(** X20: With the display off and nothing to do the tick does nothing at
    all: with the sensor ready, no reading of the battery due (the test of
    line 107, with its 32-bit sum, fails), the averaged voltage above
    VOLT_LOW, a screen other than LOWBATT, no event latched, the display
    off and a screen that is not refreshed with the display off, there is
    no call on the hardware, on a screen or on the scheduler, and the state
    is left as it was. *)
Theorem sleeping_tick_does_nothing (e : Env) (w : World)
    (Hready : sensorReady w)
    (Hfresh : to_long (wrap32 (now w)) <=
              to_long (lastBatteryAveraging w + 10000))
    (Hvolt : ~ (getVolt w <= VOLT_LOW)%Q)
    (Hscreen : currentScreenID w <> LOWBATT_SCREEN)
    (Hlatch : eventFlag w = false)
    (Hoff : isDisplayOn w = false)
    (Hbg : getRefreshWithScreenOff (kind (currentScreen w)) = false) :
  service e w = Returned tt w [].
Proof.
  pose proof (retryInit_ready e w Hready) as R.
  pose proof (averaging_cases e w) as A. cbn zeta in A.
  destruct A as (_ & _ & _ & _ & A).
  assert (Hdue : (to_long (wrap32 (now w)) >?
                  to_long (lastBatteryAveraging w + 10000)) = false).
  { rewrite Z.gtb_ltb. apply Z.ltb_ge. exact Hfresh. }
  specialize (A Hdue).
  assert (Hv : Qle_bool (getVolt w) VOLT_LOW = false).
  { destruct (Qle_bool (getVolt w) VOLT_LOW) eqn:E; [|reflexivity].
    apply Qle_bool_iff in E. contradiction. }
  assert (Hid : (currentScreenID w =? LOWBATT_SCREEN) = false).
  { apply Z.eqb_neq. exact Hscreen. }
  assert (L : lowBattery e w = Returned tt w []).
  { unfold lowBattery. fw_eval. rewrite Hv, Hid, andb_false_r. reflexivity. }
  assert (E : events e w = Returned false w []).
  { unfold events. fw_eval. rewrite Hlatch, Hoff. reflexivity. }
  assert (P : render w = Returned tt w []).
  { unfold render. fw_eval. rewrite Hoff, Hbg. reflexivity. }
  unfold service. cbv [bind]. rewrite R. cbn [prepend].
  rewrite A. cbn [prepend]. rewrite L. cbn [prepend].
  rewrite E. cbn [prepend]. rewrite P. reflexivity.
Qed.

End Tick.

(** ** The status bar and the uptime *)

Section StatusBarProperties.

Import String.

Lemma allFrom_spec f len : forall lo n,
  allFrom f lo len = true -> lo <= n < lo + Z.of_nat len -> f n = true.
Proof.
  induction len as [|len IH]; intros lo n H Hn; [lia|].
  cbn [allFrom] in H. apply andb_true_iff in H. destruct H as (H0 & H).
  destruct (Z.eq_dec n lo) as [->|Hne]; [exact H0|].
  apply (IH (lo + 1)); [exact H|lia].
Qed.

Lemma printDigits_below_100 n :
  0 <= n < 100 -> printDigits n = twoDigits n.
Proof.
  intros Hn.
  pose proof (allFrom_spec
                (fun k => String.eqb (printDigits k) (twoDigits k))
                100 0 n) as H.
  apply String.eqb_eq. apply H; [vm_compute; reflexivity|lia].
Qed.

(** X21: [printDigits] gives the two decimal digits of a number from 0 to
    99, with the leading zero below 10; for a negative number the zero is
    put before the minus sign. *)
Theorem printDigits_format (n : Z) :
  (0 <= n < 100 -> printDigits n = twoDigits n) /\
  (n < 0 -> printDigits n = ("0-" ++ itoa (- n))%string).
Proof.
  split; [apply printDigits_below_100|].
  intros Hn. unfold printDigits.
  destruct (n <? 10) eqn:E; [|apply Z.ltb_ge in E; lia].
  destruct n as [|p|p]; try lia.
  unfold itoa. cbn. reflexivity.
Qed.

(** X22: [upTime] always has the twelve characters [DDd HHh MMm ]: the days
    stay below 50 because [millis()] wraps, the hours below 24, the minutes
    below 60, and the three numbers are the uptime in seconds rounded down
    to the minute. *)
Theorem upTime_format (w : World) :
  let val := wrap32 (now w) / 1000 in
  exists d h m,
    0 <= d <= 49 /\ 0 <= h < 24 /\ 0 <= m < 60 /\
    d * 86400 + h * 3600 + m * 60 <= val <
      d * 86400 + h * 3600 + m * 60 + 60 /\
    upTime w =
      (twoDigits d ++ "d " ++ twoDigits h ++ "h " ++ twoDigits m ++ "m ")
        %string /\
    length (upTime w) = 12%nat.
Proof.
  cbn zeta. set (val := wrap32 (now w) / 1000).
  assert (Hval : 0 <= val <= 4294967).
  { unfold val, wrap32.
    pose proof (Z.mod_pos_bound (now w) (2 ^ 32) ltac:(lia)) as B.
    change (2 ^ 32) with 4294967296 in *.
    Z.to_euclidean_division_equations. lia. }
  exists (elapsedDays val), (numberOfHours val), (numberOfMinutes val).
  unfold elapsedDays, numberOfHours, numberOfMinutes, SECS_PER_DAY,
    SECS_PER_HOUR, SECS_PER_MIN.
  change (3600 * 24) with 86400.
  assert (Hd : 0 <= val / 86400 <= 49).
  { Z.to_euclidean_division_equations. lia. }
  assert (Hh : 0 <= val mod 86400 / 3600 < 24).
  { Z.to_euclidean_division_equations. lia. }
  assert (Hm : 0 <= (val / 60) mod 60 < 60).
  { apply Z.mod_pos_bound. lia. }
  assert (Hu : upTime w =
               (twoDigits (val / 86400) ++ "d " ++
                twoDigits (val mod 86400 / 3600) ++ "h " ++
                twoDigits ((val / 60) mod 60) ++ "m ")%string).
  { unfold upTime. cbn zeta. fold val.
    unfold elapsedDays, numberOfHours, numberOfMinutes, SECS_PER_DAY,
      SECS_PER_HOUR, SECS_PER_MIN.
    change (3600 * 24) with 86400.
    rewrite !printDigits_below_100 by lia. reflexivity. }
  repeat split; try lia.
  - Z.to_euclidean_division_equations. lia.
  - Z.to_euclidean_division_equations. lia.
  - exact Hu.
  - rewrite Hu. reflexivity.
Qed.

(** *** The WiFi gauge *)

Lemma wifiQuality_middle d :
  -100 < d < -60 -> wifiQuality d = (33 * d + 3300) / 10.
Proof.
  intros Hd. unfold wifiQuality.
  destruct (d <=? -100) eqn:E1; [apply Z.leb_le in E1; lia|].
  destruct (d =? 31) eqn:E2; [apply Z.eqb_eq in E2; lia|].
  destruct (d >=? -60) eqn:E3; [apply Z.geb_le in E3; lia|].
  cbn [orb]. unfold Qtrunc.
  cbn [Qplus Qmult inject_Z Qnum Qden Pos.mul].
  change (Z.pos 10) with 10. change (Z.pos 1) with 1.
  rewrite Z.quot_div_nonneg by lia. f_equal. lia.
Qed.

(** X23: The signal strength in dBm to the number of green bars: none at or
    below -100 dBm and for the code 31 of a lost connection, then one more
    bar every 6 dB from -99 dBm on, and all five from -75 dBm on. The gauge
    has five bars, the green ones at the bottom. *)
Theorem wifi_gauge_bars (topX topY d : Z) (force : bool) (tb : TopBar) :
  let bars := wifiBars (wifiQuality d) in
  (d <= -100 \/ d = 31 -> bars = 0) /\
  (-100 < d <= -94 -> bars = 1) /\
  (-94 < d <= -88 -> bars = 2) /\
  (-88 < d <= -82 -> bars = 3) /\
  (-82 < d <= -76 -> bars = 4) /\
  (-76 < d -> d <> 31 -> bars = 5) /\
  (force = true \/ d <> dBm tb ->
   barColors (snd (drawWifiGauge topX topY d force tb)) =
   repeat GREY90 (5 - Z.to_nat bars) ++ repeat TFT_GREEN (Z.to_nat bars)).
Proof.
  cbn zeta.
  assert (T :
    (d <= -100 \/ d = 31 -> wifiBars (wifiQuality d) = 0) /\
    (-100 < d <= -94 -> wifiBars (wifiQuality d) = 1) /\
    (-94 < d <= -88 -> wifiBars (wifiQuality d) = 2) /\
    (-88 < d <= -82 -> wifiBars (wifiQuality d) = 3) /\
    (-82 < d <= -76 -> wifiBars (wifiQuality d) = 4) /\
    (-76 < d -> d <> 31 -> wifiBars (wifiQuality d) = 5)).
  { assert (M : -100 < d < -60 ->
                wifiBars (wifiQuality d) =
                if d <=? -94 then 1 else if d <=? -88 then 2
                else if d <=? -82 then 3 else if d <=? -76 then 4 else 5).
    { intros Hd. rewrite (wifiQuality_middle d Hd). unfold wifiBars.
      repeat match goal with
             | |- context [?a =? ?b] =>
                 destruct (Z.eqb_spec a b)
             | |- context [?a <? ?b] =>
                 destruct (Z.ltb_spec a b)
             | |- context [?a <=? ?b] =>
                 destruct (Z.leb_spec a b)
             | |- context [?a >=? ?b] =>
                 let E := fresh in
                 destruct (a >=? b) eqn:E;
                 [apply Z.geb_le in E|rewrite Z.geb_leb in E;
                                      apply Z.leb_gt in E]
             end;
        first [reflexivity
              |exfalso; Z.to_euclidean_division_equations; lia]. }
    assert (Hi : -60 <= d -> d <> 31 -> wifiBars (wifiQuality d) = 5).
    { intros Hd Hn. unfold wifiQuality.
      destruct (d <=? -100) eqn:E1; [apply Z.leb_le in E1; lia|].
      destruct (d =? 31) eqn:E2; [apply Z.eqb_eq in E2; lia|].
      destruct (d >=? -60) eqn:E3; [reflexivity|].
      rewrite Z.geb_leb in E3. apply Z.leb_gt in E3. lia. }
    assert (Lo : d <= -100 \/ d = 31 -> wifiBars (wifiQuality d) = 0).
    { intros [Hd| ->]; [|reflexivity]. unfold wifiQuality.
      destruct (d <=? -100) eqn:E1; [reflexivity|].
      apply Z.leb_gt in E1. lia. }
    split; [exact Lo|].
    repeat split; intros Hd;
      try (rewrite M by lia;
           repeat match goal with
                  | |- context [?a <=? ?b] => destruct (Z.leb_spec a b)
                  end; first [reflexivity|lia]).
    intros Hn. destruct (Z_lt_le_dec d (-60)) as [Hlt|Hge].
    - rewrite M by lia.
      repeat match goal with
             | |- context [?a <=? ?b] => destruct (Z.leb_spec a b)
             end; first [reflexivity|lia].
    - apply Hi; assumption. }
  destruct T as (T0 & T1 & T2 & T3 & T4 & T5).
  repeat (split; [assumption|]).
  intros Hdraw.
  assert (Hc : negb (d =? dBm tb) || force = true).
  { destruct Hdraw as [->|Hne]; [apply orb_true_r|].
    apply Z.eqb_neq in Hne. rewrite Hne. reflexivity. }
  unfold drawWifiGauge. rewrite Hc. cbn [snd].
  assert (B : wifiBars (wifiQuality d) = 0 \/ wifiBars (wifiQuality d) = 1 \/
              wifiBars (wifiQuality d) = 2 \/ wifiBars (wifiQuality d) = 3 \/
              wifiBars (wifiQuality d) = 4 \/ wifiBars (wifiQuality d) = 5).
  { destruct (Z_le_gt_dec d (-100)); [left; apply T0; lia|].
    destruct (Z.eq_dec d 31); [left; apply T0; lia|].
    destruct (Z_le_gt_dec d (-94)); [right; left; apply T1; lia|].
    destruct (Z_le_gt_dec d (-88)); [right; right; left; apply T2; lia|].
    destruct (Z_le_gt_dec d (-82));
      [right; right; right; left; apply T3; lia|].
    destruct (Z_le_gt_dec d (-76));
      [right; right; right; right; left; apply T4; lia|].
    right; right; right; right; right. apply T5; lia. }
  destruct (dBm tb =? 31), (d =? 31);
    destruct B as [->|[->|[->|[->|[->| ->]]]]]; reflexivity.
Qed.

(** *** The battery gauge *)

(** X24: For a level from 0 to 100 the coloured fill and its black
    complement tile the inside of the battery outline: the complement starts
    under the top border, the fill ends above the bottom border, they meet,
    and the fill is 22 rows at 100 and none below 5. The fill is green above
    30 and red otherwise; the parameter [redLevel] is not used. *)
Theorem battery_gauge_tiles_outline
    (topX topY level redLevel : Z) (force : bool) (tb : TopBar)
    (Hlevel : 0 <= level <= 100)
    (Hdraw : force = true \/ level <> batLevel tb) :
  exists fillY fillH compH,
    drawBatteryGauge topX topY level redLevel force tb =
    (mkTopBar (dateLine tb) (locationLine tb) (timeLine tb) (dBm tb) level,
     [FillRect (topX + 3) topY 4 2 TFT_WHITE;
      DrawRect topX (topY + 2) 10 24 TFT_WHITE;
      FillRect (topX + 1) fillY 8 fillH
        (if 30 <? level then TFT_GREEN else TFT_RED);
      FillRect (topX + 1) (topY + 3) 8 compH TFT_BLACK]) /\
    0 <= fillH /\ 0 <= compH /\
    topY + 3 + compH = fillY /\
    fillY + fillH = topY + 2 + 24 - 1 /\
    100 * fillH <= 22 * level < 100 * (fillH + 1).
Proof.
  assert (Hc : negb (level =? batLevel tb) || force = true).
  { destruct Hdraw as [->|Hne]; [apply orb_true_r|].
    apply Z.eqb_neq in Hne. rewrite Hne. reflexivity. }
  exists (topY + 24 + 2 - Z.quot (level * 22) 100 - 1),
    (Z.quot (level * 22) 100), (24 - Z.quot (level * 22) 100 - 2).
  unfold drawBatteryGauge. rewrite Hc. cbn zeta.
  change (24 - 2) with 22. change (10 - 2) with 8.
  change (Z.quot 10 2) with 5. change (Z.quot 4 2) with 2.
  rewrite Z.gtb_ltb.
  rewrite Z.quot_div_nonneg by lia.
  replace (topX + 5 - 2) with (topX + 3) by lia.
  replace (topY + 2 + 1) with (topY + 3) by lia.
  split; [reflexivity|].
  Z.to_euclidean_division_equations. lia.
Qed.

(** *** The bar *)

Lemma differs_same s : differs s s = false.
Proof. unfold differs. rewrite String.eqb_refl. reflexivity. Qed.

Lemma differs_false a b : differs a b = false -> a = b.
Proof.
  unfold differs. intros H. apply negb_false_iff in H.
  apply String.eqb_eq. exact H.
Qed.

(** X25: After [drawBar] the member [topBar] holds what the bar shows now:
    the three lines composed from the clock, the network and the location,
    the signal strength and the truncated state of charge, whatever it held
    before and whether the redraw was forced or not. So a second, unforced
    [drawBar] with nothing changed draws no text, no rectangle and no gauge:
    it only selects the fonts and colours again, draws the separator and
    resets the padding. *)
Theorem drawBar_remembers_what_is_shown
    (force : bool) (b : BarEnv) (soc : Q) (tb : TopBar) :
  fst (drawBar force b soc tb) =
    mkTopBar (dateText b) (locationText b) (timeText b) (rssi b)
      (Qtrunc soc) /\
  snd (drawBar false b soc (fst (drawBar force b soc tb))) =
    [SetFreeFont ArialRoundedMTBold_14; SetTextDatum BC_DATUM;
     SetTextColor TFT_WHITE (Some TFT_BLACK);
     SetFreeFont ArialRoundedMTBold_36; SetTextDatum BC_DATUM;
     SetTextColor TFT_YELLOW (Some TFT_BLACK);
     DrawSeparator 64; SetTextPadding 0].
Proof.
  assert (C : fst (drawBar force b soc tb) =
              mkTopBar (dateText b) (locationText b) (timeText b) (rssi b)
                (Qtrunc soc)).
  { destruct tb as [dl ll tl db bl].
    unfold drawBar, drawWifiGauge, drawBatteryGauge.
    destruct force;
      repeat (cbn [fst snd orb negb dateLine locationLine timeLine dBm
                   batLevel];
              match goal with
              | |- context [differs ?a ?b] =>
                  let E := fresh "E" in
                  destruct (differs a b) eqn:E;
                  [|apply differs_false in E; subst]
              | |- context [?a =? ?b] =>
                  destruct (Z.eqb_spec a b); [subst|]
              end);
      reflexivity. }
  split; [exact C|]. rewrite C.
  unfold drawBar, drawWifiGauge, drawBatteryGauge.
  cbn [dateLine locationLine timeLine dBm batLevel orb].
  rewrite !differs_same.
  cbn [dateLine locationLine timeLine dBm batLevel orb].
  rewrite !Z.eqb_refl.
  cbn [dateLine locationLine timeLine dBm batLevel orb negb].
  rewrite !Z.eqb_refl. reflexivity.
Qed.

End StatusBarProperties.

(** * The further properties on the bench *)

Section FurtherBench.

#[local] Existing Instance benchConfig.


(** The sensor failed at start-up; the first call of [begin()] of the
    retry succeeds. *)
Lemma sensor_retry_until_ready_witness :
  ENABLE_SENSORS = true /\
  initSuccess notReadyWorld = false /\
  initSuccess (world (service (benchEnv (39 # 10) 0) notReadyWorld)) =
    Nat.ltb (failedAttempts (benchEnv (39 # 10) 0)) 3 /\
  count isBegin (effects (service (benchEnv (39 # 10) 0) notReadyWorld)) =
    Nat.min 3 (S (failedAttempts (benchEnv (39 # 10) 0))).
Proof.
  assert (H1 : ENABLE_SENSORS = true) by reflexivity.
  assert (H2 : initSuccess notReadyWorld = false) by reflexivity.
  split; [exact H1|]. split; [exact H2|].
  exact (proj1 (sensor_retry_until_ready (benchEnv (39 # 10) 0)
                  notReadyWorld) H1 H2).
Defined.

(** "Right" on the last of the four screens of the cycle. *)
Lemma handleSwipe_stays_in_cycle_witness :
  2 <= getScreenCount /\
  inCycle 4 /\
  inCycle (handleSwipe GES_RIGHT 4) /\
  handleSwipe GES_RIGHT (getScreenCount - 1) = 1 /\
  (GES_LEFT <> GES_RIGHT -> handleSwipe GES_LEFT 1 = getScreenCount - 1).
Proof.
  assert (H1 : 2 <= getScreenCount) by (vm_compute; discriminate).
  assert (H2 : inCycle 4) by (split; vm_compute; discriminate).
  split; [exact H1|]. split; [exact H2|].
  exact (handleSwipe_stays_in_cycle GES_RIGHT 4 H1 H2).
Defined.

Lemma handleSwipe_left_right_inverse_witness :
  2 <= getScreenCount /\
  inCycle 1 /\
  GES_LEFT <> GES_RIGHT /\
  handleSwipe GES_LEFT (handleSwipe GES_RIGHT 1) = 1 /\
  handleSwipe GES_RIGHT (handleSwipe GES_LEFT 1) = 1.
Proof.
  assert (H1 : 2 <= getScreenCount) by (vm_compute; discriminate).
  assert (H2 : inCycle 1) by (split; vm_compute; discriminate).
  assert (H3 : GES_LEFT <> GES_RIGHT) by (vm_compute; discriminate).
  split; [exact H1|]. split; [exact H2|]. split; [exact H3|].
  exact (handleSwipe_left_right_inverse 1 H1 H2 H3).
Defined.

Lemma remap_rotations_inverse_witness :
  NoDup caseLabels /\
  2 <> 0 /\
  remap 2 (remap 0 GES_UP) = GES_UP /\ remap 0 (remap 2 GES_UP) = GES_UP.
Proof.
  assert (H2 : 2 <> 0) by discriminate.
  split; [exact bench_labels|]. split; [exact H2|].
  exact (remap_rotations_inverse 2 GES_UP bench_labels H2).
Defined.

(** A gesture while the display is off. *)
Lemma event_with_display_off_only_wakes_witness :
  In ReadGesture
    (effects (service (benchEnv (39 # 10) GES_DOWN) darkEventWorld)) /\
  isDisplayOn darkEventWorld = false /\
  isDisplayOn (world (service (benchEnv (39 # 10) GES_DOWN) darkEventWorld)) =
    true /\
  filter isOnUserEvent
    (effects (service (benchEnv (39 # 10) GES_DOWN) darkEventWorld)) = [] /\
  filter isBacklight
    (effects (service (benchEnv (39 # 10) GES_DOWN) darkEventWorld)) =
    [Backlight true].
Proof.
  assert (H1 : In ReadGesture
                 (effects (service (benchEnv (39 # 10) GES_DOWN)
                             darkEventWorld)))
    by (vm_compute; auto 20).
  assert (H2 : isDisplayOn darkEventWorld = false) by reflexivity.
  pose proof (event_with_display_off_only_wakes _ _ H1 H2) as H.
  cbv zeta in H. destruct H as (Ha & _ & Hb & _ & Hc & _).
  split; [exact H1|]. split; [exact H2|]. split; [exact Ha|].
  split; [exact Hb|exact Hc].
Defined.

(** The same gesture while the battery is found low: the tick enters
    LOWBATT and the event only switches the display on. *)
Example wake_while_entering_lowbatt :
  currentScreenID
    (world (service (benchEnv (30 # 10) GES_DOWN) darkEventWorld)) =
    LOWBATT_SCREEN /\
  isDisplayOn (world (service (benchEnv (30 # 10) GES_DOWN) darkEventWorld)) =
    true /\
  filter isLifecycle
    (effects (service (benchEnv (30 # 10) GES_DOWN) darkEventWorld)) =
    replacement 0 LOWBATT_SCREEN 1 /\
  filter isOnUserEvent
    (effects (service (benchEnv (30 # 10) GES_DOWN) darkEventWorld)) = [].
Proof. vm_compute. repeat split; reflexivity. Qed.


(** A swipe that the screen claims. *)
Lemma claimed_event_changes_nothing_witness :
  In ReadGesture (effects (service claimingEnv eventWorld)) /\
  isDisplayOn eventWorld = true /\
  currentScreenID eventWorld <> LOWBATT_SCREEN /\
  ~ (voltageSeen claimingEnv eventWorld <= VOLT_LOW)%Q /\
  eventOf claimingEnv eventWorld <> GES_FORWARD /\
  (eventOf claimingEnv eventWorld = GES_NONE \/
   cancelEvent claimingEnv = true) /\
  currentScreenID (world (service claimingEnv eventWorld)) =
    currentScreenID eventWorld /\
  filter isLifecycle (effects (service claimingEnv eventWorld)) = [].
Proof.
  assert (H1 : In ReadGesture (effects (service claimingEnv eventWorld)))
    by (vm_compute; auto 20).
  assert (H2 : isDisplayOn eventWorld = true) by reflexivity.
  assert (H3 : currentScreenID eventWorld <> LOWBATT_SCREEN)
    by (vm_compute; discriminate).
  assert (H4 : ~ (voltageSeen claimingEnv eventWorld <= VOLT_LOW)%Q)
    by (vm_compute; intros H; apply H; reflexivity).
  assert (H5 : eventOf claimingEnv eventWorld <> GES_FORWARD)
    by (vm_compute; discriminate).
  assert (H6 : eventOf claimingEnv eventWorld = GES_NONE \/
               cancelEvent claimingEnv = true)
    by (right; reflexivity).
  pose proof (claimed_event_changes_nothing claimingEnv eventWorld
                H1 H2 H3 H4 H5 H6) as H.
  cbv zeta in H. destruct H as (_ & Ha & _ & _ & _ & _ & Hb & _).
  split; [exact H1|]. split; [exact H2|]. split; [exact H3|].
  split; [exact H4|]. split; [exact H5|]. split; [exact H6|].
  split; [exact Ha|exact Hb].
Defined.




(** In LOWBATT the charger is plugged in: the battery reads 4.5 V and the
    average rises to 4.0 V. *)
Lemma restart_only_on_recharge_witness :
  rebooted (service (benchEnv (45 # 10) 0) lowbattWorld) = true /\
  filter isLifecycle (effects (service (benchEnv (45 # 10) 0) lowbattWorld)) =
    [] /\
  filter isReadGesture
    (effects (service (benchEnv (45 # 10) 0) lowbattWorld)) = [].
Proof.
  assert (H1 : rebooted (service (benchEnv (45 # 10) 0) lowbattWorld) = true)
    by (vm_compute; reflexivity).
  pose proof (proj2 (restart_only_on_recharge (benchEnv (45 # 10) 0)
                       lowbattWorld) H1) as H.
  destruct H as (_ & _ & _ & Ha & _ & Hb).
  split; [exact H1|]. split; [exact Ha|exact Hb].
Defined.

Lemma lowbatt_is_absorbing_witness :
  currentScreenID lowbattWorld = LOWBATT_SCREEN /\
  currentScreenID (world (run lowbattRun lowbattWorld)) = LOWBATT_SCREEN /\
  filter isLifecycle (effects (run lowbattRun lowbattWorld)) = [] /\
  filter isAnyDisable (effects (run lowbattRun lowbattWorld)) = [].
Proof.
  assert (H1 : currentScreenID lowbattWorld = LOWBATT_SCREEN)
    by reflexivity.
  split; [exact H1|].
  exact (lowbatt_is_absorbing lowbattRun lowbattWorld H1).
Defined.

(** The board with the KILL modification enters LOWBATT. *)
Lemma kill_installed_never_disables_witness :
  @KILL_INSTALLED killConfig = true /\
  filter isAnyDisable (effects (@run killConfig drainRun benchWorld)) = [].
Proof.
  assert (H1 : @KILL_INSTALLED killConfig = true) by reflexivity.
  split; [exact H1|].
  exact (@kill_installed_never_disables killConfig drainRun benchWorld H1).
Defined.

Lemma rotation_is_0_or_2_witness :
  (currentScreenRotation eventWorld = 0 \/
   currentScreenRotation eventWorld = 2) /\
  (currentScreenRotation (world (run twoTurns eventWorld)) = 0 \/
   currentScreenRotation (world (run twoTurns eventWorld)) = 2).
Proof.
  assert (H1 : currentScreenRotation eventWorld = 0 \/
               currentScreenRotation eventWorld = 2)
    by (left; reflexivity).
  split; [exact H1|].
  exact (rotation_is_0_or_2 twoTurns eventWorld H1).
Defined.

(** Twenty seconds after the last reading the battery is read. *)
Lemma battery_read_when_due_witness :
  sensorReady benchWorld /\
  count isGetVCell (effects (service (benchEnv (40 # 10) 0) benchWorld)) =
    (if to_long (wrap32 (now benchWorld)) >?
        to_long (lastBatteryAveraging benchWorld + 10000)
     then 1 else 0)%nat /\
  lastBatteryAveraging (world (service (benchEnv (40 # 10) 0) benchWorld)) =
    (if to_long (wrap32 (now benchWorld)) >?
        to_long (lastBatteryAveraging benchWorld + 10000)
     then to_long (wrap32 (now benchWorld))
     else lastBatteryAveraging benchWorld).
Proof.
  assert (H1 : sensorReady benchWorld) by (right; reflexivity).
  pose proof (battery_read_when_due (benchEnv (40 # 10) 0) benchWorld H1)
    as H.
  cbv zeta in H. destruct H as (Ha & Hb & _).
  split; [exact H1|]. split; [exact Ha|exact Hb].
Defined.

(** The same across the wrap of the signed clock: ten seconds after a
    reading made just below 2^31 ms the sum of line 107 has wrapped, and
    the battery is read. *)
Example battery_read_across_the_wrap :
  count isGetVCell (effects (service (benchEnv (40 # 10) 0) wrapWorld)) =
    1%nat /\
  lastBatteryAveraging (world (service (benchEnv (40 # 10) 0) wrapWorld)) =
    2147490000 - 2 ^ 32.
Proof. vm_compute. split; reflexivity. Qed.

Lemma sleeping_tick_does_nothing_witness :
  sensorReady sleepingWorld /\
  to_long (wrap32 (now sleepingWorld)) <=
    to_long (lastBatteryAveraging sleepingWorld + 10000) /\
  ~ (getVolt sleepingWorld <= VOLT_LOW)%Q /\
  currentScreenID sleepingWorld <> LOWBATT_SCREEN /\
  eventFlag sleepingWorld = false /\
  isDisplayOn sleepingWorld = false /\
  getRefreshWithScreenOff (kind (currentScreen sleepingWorld)) = false /\
  service (benchEnv (39 # 10) 0) sleepingWorld = Returned tt sleepingWorld [].
Proof.
  assert (H1 : sensorReady sleepingWorld) by (right; reflexivity).
  assert (H2 : to_long (wrap32 (now sleepingWorld)) <=
               to_long (lastBatteryAveraging sleepingWorld + 10000))
    by (vm_compute; discriminate).
  assert (H3 : ~ (getVolt sleepingWorld <= VOLT_LOW)%Q)
    by (vm_compute; intros H; apply H; reflexivity).
  assert (H4 : currentScreenID sleepingWorld <> LOWBATT_SCREEN)
    by (vm_compute; discriminate).
  assert (H5 : eventFlag sleepingWorld = false) by reflexivity.
  assert (H6 : isDisplayOn sleepingWorld = false) by reflexivity.
  assert (H7 : getRefreshWithScreenOff (kind (currentScreen sleepingWorld)) =
               false) by reflexivity.
  split; [exact H1|]. split; [exact H2|]. split; [exact H3|].
  split; [exact H4|]. split; [exact H5|]. split; [exact H6|].
  split; [exact H7|].
  exact (sleeping_tick_does_nothing (benchEnv (39 # 10) 0) sleepingWorld
           H1 H2 H3 H4 H5 H6 H7).
Defined.

Lemma printDigits_format_witness :
  0 <= 7 < 100 /\ printDigits 7 = twoDigits 7.
Proof.
  assert (H1 : 0 <= 7 < 100) by (split; [discriminate|reflexivity]).
  split; [exact H1|].
  exact (proj1 (printDigits_format 7) H1).
Defined.

(** -80 dBm gives four bars. *)
Lemma wifi_gauge_bars_witness :
  -82 < -80 <= -76 /\ wifiBars (wifiQuality (-80)) = 4.
Proof.
  assert (H1 : -82 < -80 <= -76) by (split; [reflexivity|discriminate]).
  split; [exact H1|].
  exact (proj1 (proj2 (proj2 (proj2 (proj2
           (wifi_gauge_bars 220 17 (-80) true blankBar))))) H1).
Defined.

(** A forced draw of the battery gauge at 50 %. *)
Lemma battery_gauge_tiles_outline_witness :
  0 <= 50 <= 100 /\
  (true = true \/ 50 <> batLevel blankBar) /\
  exists fillY fillH compH,
    drawBatteryGauge 5 17 50 30 true blankBar =
    (mkTopBar (dateLine blankBar) (locationLine blankBar) (timeLine blankBar)
       (dBm blankBar) 50,
     [FillRect (5 + 3) 17 4 2 TFT_WHITE;
      DrawRect 5 (17 + 2) 10 24 TFT_WHITE;
      FillRect (5 + 1) fillY 8 fillH
        (if 30 <? 50 then TFT_GREEN else TFT_RED);
      FillRect (5 + 1) (17 + 3) 8 compH TFT_BLACK]) /\
    0 <= fillH /\ 0 <= compH /\
    17 + 3 + compH = fillY /\
    fillY + fillH = 17 + 2 + 24 - 1 /\
    100 * fillH <= 22 * 50 < 100 * (fillH + 1).
Proof.
  assert (H1 : 0 <= 50 <= 100) by (split; discriminate).
  assert (H2 : true = true \/ 50 <> batLevel blankBar)
    by (left; reflexivity).
  split; [exact H1|]. split; [exact H2|].
  exact (battery_gauge_tiles_outline 5 17 50 30 true blankBar H1 H2).
Defined.

End FurtherBench.
